(** * News scraper: date parsing, stop condition, retry policy, page loop

    A shallow embedding of [api/utils.py], [api/web_scraping.py] and the
    money pattern of [api/text_processing.py].

    Text is modelled as [string] over ASCII; characters above 127 are
    treated as symbols that are neither white space, digits nor letters.
    Integers are [Z].  Python exceptions are values of [exn]; a call that
    may raise returns a [result]. *)

From Stdlib Require Import ZArith List String Ascii Bool Lia.
Import ListNotations.

Local Open Scope string_scope.
Local Open Scope list_scope.
Local Open Scope Z_scope.

(* ================================================================== *)
(** ** Exceptions and results *)

(** The exception classes the two modules raise, catch or let through.
    All of them derive from Python's [Exception]. *)
Inductive exn : Type :=
| ScrapingError                 (* web_scraping.ScrapingError *)
| ValueError
| IndexError
| OverflowError
| KeyError
| NoSuchElementException        (* selenium: element lookup failed *)
| TimeoutException              (* selenium: wait expired *)
| WebDriverException            (* selenium: any other driver failure *)
| RequestException              (* requests: network or HTTP failure *)
| OSError.                      (* file system failure *)

Definition exn_eqb (a b : exn) : bool :=
  match a, b with
  | ScrapingError, ScrapingError
  | ValueError, ValueError
  | IndexError, IndexError
  | OverflowError, OverflowError
  | KeyError, KeyError
  | NoSuchElementException, NoSuchElementException
  | TimeoutException, TimeoutException
  | WebDriverException, WebDriverException
  | RequestException, RequestException
  | OSError, OSError => true
  | _, _ => false
  end.

Inductive result (A : Type) : Type :=
| Ok (a : A)
| Raise (e : exn).
Arguments Ok {A} a.
Arguments Raise {A} e.

(* ================================================================== *)
(** ** Text helpers (the [str] and [re] operations the code calls) *)

Module Text.

Definition is_digit (c : ascii) : bool :=
  let n := nat_of_ascii c in (48 <=? n)%nat && (n <=? 57)%nat.

Definition is_upper (c : ascii) : bool :=
  let n := nat_of_ascii c in (65 <=? n)%nat && (n <=? 90)%nat.

Definition is_lower (c : ascii) : bool :=
  let n := nat_of_ascii c in (97 <=? n)%nat && (n <=? 122)%nat.

(** [\w] of the [re] module, on ASCII. *)
Definition is_word (c : ascii) : bool :=
  is_digit c || is_upper c || is_lower c || Ascii.eqb c "_"%char.

(** [str.isspace] and [\s], on ASCII: 9..13, 28..31 and 32. *)
Definition is_space (c : ascii) : bool :=
  let n := nat_of_ascii c in
  ((9 <=? n)%nat && (n <=? 13)%nat) || ((28 <=? n)%nat && (n <=? 32)%nat).

Definition lower_char (c : ascii) : ascii :=
  if is_upper c then ascii_of_nat (nat_of_ascii c + 32) else c.

(** [str.lower] *)
Fixpoint lower (s : string) : string :=
  match s with
  | EmptyString => EmptyString
  | String c r => String (lower_char c) (lower r)
  end.

Fixpoint lstrip (s : string) : string :=
  match s with
  | String c r => if is_space c then lstrip r else s
  | EmptyString => EmptyString
  end.

Fixpoint rev_string (acc s : string) : string :=
  match s with
  | EmptyString => acc
  | String c r => rev_string (String c acc) r
  end.

(** [str.strip] *)
Definition strip (s : string) : string :=
  rev_string EmptyString (lstrip (rev_string EmptyString (lstrip s))).

(** [s.startswith(sub)] *)
Fixpoint startswith (sub s : string) : bool :=
  match sub, s with
  | EmptyString, _ => true
  | String a sub', String b s' => Ascii.eqb a b && startswith sub' s'
  | String _ _, EmptyString => false
  end.

(** [sub in s] *)
Fixpoint contains (sub s : string) : bool :=
  startswith sub s ||
  match s with
  | EmptyString => false
  | String _ r => contains sub r
  end.

(** [re.findall(r'\d+', s)]: the maximal digit runs, left to right.  [cur]
    holds, reversed, the digits of the run being collected. *)
Fixpoint findall_digits_aux (cur : string) (s : string) : list string :=
  match s with
  | EmptyString =>
      match cur with
      | EmptyString => []
      | _ => [rev_string EmptyString cur]
      end
  | String c r =>
      if is_digit c then findall_digits_aux (String c cur) r
      else match cur with
           | EmptyString => findall_digits_aux EmptyString r
           | _ => rev_string EmptyString cur :: findall_digits_aux EmptyString r
           end
  end.

Definition findall_digits (s : string) : list string :=
  findall_digits_aux EmptyString s.

Definition digit_value (c : ascii) : Z := Z.of_nat (nat_of_ascii c) - 48.

Fixpoint int_acc (acc : Z) (s : string) : Z :=
  match s with
  | EmptyString => acc
  | String c r => int_acc (10 * acc + digit_value c) r
  end.

(** [int(s)] for a string of decimal digits. *)
Definition int_of_digits (s : string) : Z := int_acc 0 s.

(** Does [s] start with exactly four digits followed by a word boundary? *)
Definition four_digits_then_boundary (s : string) : bool :=
  match s with
  | String a (String b (String c (String d r))) =>
      is_digit a && is_digit b && is_digit c && is_digit d &&
      match r with
      | EmptyString => true
      | String e _ => negb (is_word e)
      end
  | _ => false
  end.

(** [re.search(r'\b\d{4}\b', s) is not None].  [prev_word] tells whether
    the character before the head of [s] is a word character. *)
Fixpoint search_year_aux (prev_word : bool) (s : string) : bool :=
  (negb prev_word && four_digits_then_boundary s) ||
  match s with
  | EmptyString => false
  | String c r => search_year_aux (is_word c) r
  end.

Definition search_year (s : string) : bool := search_year_aux false s.

(** [s.split(sep)[-1]] for a one-character separator: what follows the
    last [sep], or all of [s] when there is none. *)
Fixpoint split_last_aux (sep : ascii) (cur s : string) : string :=
  match s with
  | EmptyString => rev_string EmptyString cur
  | String c r =>
      if Ascii.eqb c sep then split_last_aux sep EmptyString r
      else split_last_aux sep (String c cur) r
  end.

Definition split_last (sep : ascii) (s : string) : string :=
  split_last_aux sep EmptyString s.

Definition digit_char (d : Z) : ascii := ascii_of_nat (Z.to_nat (48 + d mod 10)).

(** Decimal digits of a non-negative [n], most significant first, using
    [fuel] digits at most. *)
Fixpoint decimal_aux (fuel : nat) (n : Z) (acc : string) : string :=
  match fuel with
  | O => acc
  | S f =>
      let acc' := String (digit_char n) acc in
      if n <? 10 then acc' else decimal_aux f (n / 10) acc'
  end.

(** [str(n)] for [0 <= n]. *)
Definition decimal (n : Z) : string :=
  decimal_aux (S (Z.to_nat (Z.log2 n))) n EmptyString.

Fixpoint zeros (k : nat) : string :=
  match k with
  | O => EmptyString
  | S k' => String "0"%char (zeros k')
  end.

(** ["%0<w>d" % n] for [0 <= n]. *)
Definition zero_pad (w : nat) (n : Z) : string :=
  let d := decimal n in
  (zeros (w - String.length d) ++ d)%string.

End Text.

(* ================================================================== *)
(** ** The [datetime] module: calendar arithmetic and ISO text *)

Module Calendar.

Record datetime : Type := mkdatetime {
  year : Z; month : Z; day : Z;
  hour : Z; minute : Z; second : Z; microsecond : Z
}.

Definition MINYEAR : Z := 1.
Definition MAXYEAR : Z := 9999.
Definition MAXORDINAL : Z := 3652059.

Definition is_leap (y : Z) : bool :=
  (y mod 4 =? 0) && (negb (y mod 100 =? 0) || (y mod 400 =? 0)).

(** [_DAYS_IN_MONTH], indexed from 1. *)
Definition DAYS_IN_MONTH (m : Z) : Z :=
  match m with
  | 1 => 31 | 2 => 28 | 3 => 31 | 4 => 30 | 5 => 31 | 6 => 30
  | 7 => 31 | 8 => 31 | 9 => 30 | 10 => 31 | 11 => 30 | 12 => 31
  | _ => -1
  end.

(** [_DAYS_BEFORE_MONTH], indexed from 1. *)
Definition DAYS_BEFORE_MONTH (m : Z) : Z :=
  match m with
  | 1 => 0 | 2 => 31 | 3 => 59 | 4 => 90 | 5 => 120 | 6 => 151
  | 7 => 181 | 8 => 212 | 9 => 243 | 10 => 273 | 11 => 304 | 12 => 334
  | _ => -1
  end.

Definition days_before_year (y : Z) : Z :=
  let p := y - 1 in p * 365 + p / 4 - p / 100 + p / 400.

Definition days_in_month (y m : Z) : Z :=
  if (m =? 2) && is_leap y then 29 else DAYS_IN_MONTH m.

Definition days_before_month (y m : Z) : Z :=
  DAYS_BEFORE_MONTH m + (if (2 <? m) && is_leap y then 1 else 0).

(** [days_in_month] and [days_before_month] with the leap year given as
    a flag, as [_ord2ymd] uses the two tables. *)
Definition month_length (m : Z) (leapyear : bool) : Z :=
  DAYS_IN_MONTH m + (if (m =? 2) && leapyear then 1 else 0).

Definition month_start (m : Z) (leapyear : bool) : Z :=
  DAYS_BEFORE_MONTH m + (if (2 <? m) && leapyear then 1 else 0).

(** [_ymd2ord]: 1 is 0001-01-01. *)
Definition ymd2ord (y m d : Z) : Z :=
  days_before_year y + days_before_month y m + d.

Definition DI400Y : Z := 146097.
Definition DI100Y : Z := 36524.
Definition DI4Y : Z := 1461.

(** The end of [_ord2ymd]: month and day of the [n]-th day (from 0) of a
    year, after the estimate [(n + 50) >> 5] of the month. *)
Definition month_day_of (n : Z) (leapyear : bool) : Z * Z :=
  let m := Z.shiftr (n + 50) 5 in
  let preceding :=
    DAYS_BEFORE_MONTH m + (if (2 <? m) && leapyear then 1 else 0) in
  if n <? preceding then
    let m' := m - 1 in
    let preceding' :=
      preceding - (DAYS_IN_MONTH m' + (if (m' =? 2) && leapyear then 1 else 0)) in
    (m', n - preceding' + 1)
  else (m, n - preceding + 1).

(** [_ord2ymd] *)
Definition ord2ymd (ordinal : Z) : Z * Z * Z :=
  let n := ordinal - 1 in
  let n400 := n / DI400Y in
  let n := n mod DI400Y in
  let n100 := n / DI100Y in
  let n := n mod DI100Y in
  let n4 := n / DI4Y in
  let n := n mod DI4Y in
  let n1 := n / 365 in
  let n := n mod 365 in
  let y := n400 * 400 + 1 + n100 * 100 + n4 * 4 + n1 in
  if (n1 =? 4) || (n100 =? 4) then (y - 1, 12, 31)
  else
    let leapyear := (n1 =? 3) && (negb (n4 =? 24) || (n100 =? 3)) in
    let (m, d) := month_day_of n leapyear in
    (y, m, d).

(** The checks of the [datetime] constructor. *)
Definition check_date_fields (y m d : Z) : bool :=
  (MINYEAR <=? y) && (y <=? MAXYEAR) && (1 <=? m) && (m <=? 12) &&
  (1 <=? d) && (d <=? days_in_month y m).

Definition check_time_fields (h mi s us : Z) : bool :=
  (0 <=? h) && (h <=? 23) && (0 <=? mi) && (mi <=? 59) &&
  (0 <=? s) && (s <=? 59) && (0 <=? us) && (us <=? 999999).

Definition valid (t : datetime) : bool :=
  check_date_fields (year t) (month t) (day t) &&
  check_time_fields (hour t) (minute t) (second t) (microsecond t).

(** [datetime(y, m, d, h, mi, s)]: [ValueError] on a field out of range. *)
Definition make (y m d h mi s : Z) : result datetime :=
  if check_date_fields y m d && check_time_fields h mi s 0
  then Ok (mkdatetime y m d h mi s 0)
  else Raise ValueError.

Definition toordinal (t : datetime) : Z := ymd2ord (year t) (month t) (day t).

(** Seconds and minutes since the start of the calendar. *)
Definition seconds_stamp (t : datetime) : Z :=
  toordinal t * 86400 + hour t * 3600 + minute t * 60 + second t.

Definition minute_stamp (t : datetime) : Z :=
  (toordinal t * 24 + hour t) * 60 + minute t.

(** The instant with its seconds and microseconds dropped. *)
Definition truncate_to_minute (t : datetime) : datetime :=
  mkdatetime (year t) (month t) (day t) (hour t) (minute t) 0 0.

(** A [timedelta], normalised: [0 <= td_seconds < 86400]. *)
Record timedelta : Type := mktimedelta { td_days : Z; td_seconds : Z }.

(** [timedelta(days=d, hours=h, minutes=m)]: [OverflowError] when the
    number of days leaves the range of a [timedelta]. *)
Definition make_timedelta (d h m : Z) : result timedelta :=
  let total := d * 86400 + h * 3600 + m * 60 in
  let days := total / 86400 in
  if Z.abs days <=? 999999999
  then Ok (mktimedelta days (total mod 86400))
  else Raise OverflowError.

(** [t - delta] ([datetime.__sub__], that is [t + (-delta)]):
    [OverflowError] when the result leaves years 1..9999. *)
Definition sub (t : datetime) (delta : timedelta) : result datetime :=
  let total :=
    (toordinal t - td_days delta) * 86400
    + (hour t * 3600 + minute t * 60 + second t) - td_seconds delta in
  let days := total / 86400 in
  let secs := total mod 86400 in
  if (0 <? days) && (days <=? MAXORDINAL) then
    let '(y, m, d) := ord2ymd days in
    Ok (mkdatetime y m d (secs / 3600) ((secs mod 3600) / 60) (secs mod 60)
                   (microsecond t))
  else Raise OverflowError.

(** [t.isoformat(timespec='minutes')]: seconds and below are dropped. *)
Definition isoformat_minutes (t : datetime) : string :=
  (Text.zero_pad 4 (year t) ++ "-" ++ Text.zero_pad 2 (month t) ++ "-"
   ++ Text.zero_pad 2 (day t) ++ "T" ++ Text.zero_pad 2 (hour t) ++ ":"
   ++ Text.zero_pad 2 (minute t))%string.

(** Exactly [n] digits at the head of [s]: their value and the rest. *)
Fixpoint take_digits (n : nat) (acc : Z) (s : string) : option (Z * string) :=
  match n with
  | O => Some (acc, s)
  | S n' =>
      match s with
      | String c r =>
          if Text.is_digit c
          then take_digits n' (10 * acc + Text.digit_value c) r
          else None
      | EmptyString => None
      end
  end.

Definition expect (c : ascii) (s : string) : option string :=
  match s with
  | String x r => if Ascii.eqb x c then Some r else None
  | EmptyString => None
  end.

(** The time part [HH[:MM[:SS]]] of an ISO string. *)
Definition parse_isotime (s : string) : option (Z * Z * Z) :=
  match take_digits 2 0 s with
  | None => None
  | Some (h, EmptyString) => Some (h, 0, 0)
  | Some (h, r) =>
      match expect ":" r with
      | None => None
      | Some r =>
          match take_digits 2 0 r with
          | None => None
          | Some (mi, EmptyString) => Some (h, mi, 0)
          | Some (mi, r) =>
              match expect ":" r with
              | None => None
              | Some r =>
                  match take_digits 2 0 r with
                  | Some (sec, EmptyString) => Some (h, mi, sec)
                  | _ => None
                  end
              end
          end
      end
  end.

(** [datetime.fromisoformat], for the texts [YYYY-MM-DD] and
    [YYYY-MM-DD<any character>HH[:MM[:SS]]]; the second is what
    [isoformat_minutes] writes.  Fractions of a second and UTC offsets are
    outside this model, which answers [ValueError] for them as for every
    other text. *)
Definition fromisoformat (s : string) : result datetime :=
  match take_digits 4 0 s with
  | None => Raise ValueError
  | Some (y, r) =>
  match expect "-" r with
  | None => Raise ValueError
  | Some r =>
  match take_digits 2 0 r with
  | None => Raise ValueError
  | Some (m, r) =>
  match expect "-" r with
  | None => Raise ValueError
  | Some r =>
  match take_digits 2 0 r with
  | None => Raise ValueError
  | Some (d, EmptyString) => make y m d 0 0 0
  | Some (d, String _ r) =>
      match parse_isotime r with
      | None => Raise ValueError
      | Some (h, mi, sec) => make y m d h mi sec
      end
  end end end end end.

End Calendar.

(* ================================================================== *)
(** ** Articles and data frames *)

(** The dictionary [article_data] that [fetch_results] fills: always the
    same five keys.  [Image] is [None] when [download_image] returned
    [None]. *)
Record Article : Type := mkArticle {
  URL : string;
  Title : string;
  Description : string;
  Image : option string;
  DateTime : string
}.

(** A [pandas.DataFrame] of articles: its column labels and its rows. *)
Record DataFrame : Type := mkDataFrame {
  columns : list string;
  rows : list Article
}.

Definition ARTICLE_KEYS : list string :=
  ["URL"; "Title"; "Description"; "Image"; "DateTime"].

(** [pd.DataFrame(records)]: the columns are the keys of the records, so a
    frame built from no record has no column. *)
Definition DataFrame_of (records : list Article) : DataFrame :=
  mkDataFrame (match records with [] => [] | _ => ARTICLE_KEYS end) records.

(** [pd.DataFrame()] *)
Definition empty_frame : DataFrame := mkDataFrame [] [].

Definition has_column (df : DataFrame) (label : string) : bool :=
  existsb (String.eqb label) (columns df).

(** [pd.concat([a, b], ignore_index=True)] *)
Definition concat (a b : DataFrame) : DataFrame :=
  mkDataFrame
    (columns a ++ filter (fun c => negb (has_column a c)) (columns b))
    (rows a ++ rows b).

(** [df.empty] *)
Definition frame_empty (df : DataFrame) : bool :=
  match rows df, columns df with
  | [], _ | _, [] => true
  | _, _ => false
  end.

(* ================================================================== *)
(** ** utils.py: the stop condition *)

Import Calendar.

Definition IMG_FOLDER_NAME : string := "IMGS".
Definition DATE_NOT_FOUND : string := "DateTime Not Found".
Definition ERROR_DATE_PROCESSING : string := "Error processing date".

(** The mask of [should_continue_scraping_based_on_time] on one cell:
    [(df['DateTime'] != DATE_NOT_FOUND) &
     (~df['DateTime'].str.contains(ERROR_DATE_PROCESSING))]. *)
Definition is_valid_date (s : string) : bool :=
  negb (String.eqb s DATE_NOT_FOUND) &&
  negb (Text.contains ERROR_DATE_PROCESSING s).

(** [valid_dates_df]: [KeyError] when the frame has no [DateTime] column.
    The cells of the column are texts, as [fetch_results] writes them.  On a
    frame that has the column and no row, pandas goes by the type of the
    empty column, and [.str] can raise [AttributeError] before [.empty] is
    tested; a frame says nothing of that type, so such frames are left out
    of what is proved of the stop condition: its properties are stated for
    frames with a row at least, or without the column. *)
Definition valid_dates_df (df : DataFrame) : result DataFrame :=
  if has_column df "DateTime"
  then Ok (mkDataFrame (columns df)
             (filter (fun a => is_valid_date (DateTime a)) (rows df)))
  else Raise KeyError.

(** [frame.iloc[-1]['DateTime']] *)
Definition iloc_last_DateTime (frame : DataFrame) : result string :=
  match rev (rows frame) with
  | [] => Raise IndexError
  | a :: _ => Ok (DateTime a)
  end.

(** [diff_in_months] *)
Definition diff_in_months (current_date earliest_datetime : datetime) : Z :=
  (year current_date - year earliest_datetime) * 12
  + month current_date - month earliest_datetime.

(** The [try] of [should_continue_scraping_based_on_time], with its handler
    for [ValueError], on the text of the decision row. *)
Definition decision (MONTHS_PERIOD : Z) (current_date : datetime)
    (earliest_datetime_str : string) : result bool :=
  match fromisoformat earliest_datetime_str with
  | Ok earliest_datetime =>
      let d := diff_in_months current_date earliest_datetime in
      if (MONTHS_PERIOD =? 0) && (0 <? d) then Ok false
      else if (0 <? MONTHS_PERIOD) && (MONTHS_PERIOD <=? d) then Ok false
      else Ok true
  | Raise ValueError => Ok true
  | Raise e => Raise e
  end.

(** [should_continue_scraping_based_on_time(df)].  [MONTHS_PERIOD] comes
    from [api.constants]; [current_date] is what [datetime.now()] answers. *)
Definition should_continue_scraping_based_on_time
    (MONTHS_PERIOD : Z) (current_date : datetime) (df : DataFrame)
  : result bool :=
  match valid_dates_df df with
  | Raise e => Raise e
  | Ok valid =>
      if frame_empty valid then Ok true
      else
        match iloc_last_DateTime valid with
        | Raise e => Raise e
        | Ok earliest_datetime_str =>
            decision MONTHS_PERIOD current_date earliest_datetime_str
        end
  end.

(** The two sentinels the stop condition knows. *)
Definition is_sentinel (s : string) : bool :=
  String.eqb s DATE_NOT_FOUND || String.eqb s ERROR_DATE_PROCESSING.

(** The month of [t] comes before the month of [now]. *)
Definition earlier_month (t now : datetime) : Prop :=
  year t < year now \/ (year t = year now /\ month t < month now).

(** The characters of the texts [fromisoformat] reads, the separator
    between date and time apart. *)
Definition iso_char (c : ascii) : bool :=
  Text.is_digit c || Ascii.eqb c "-" || Ascii.eqb c ":".

Fixpoint all_iso (s : string) : bool :=
  match s with
  | EmptyString => true
  | String c r => iso_char c && all_iso r
  end.

(* ================================================================== *)
(** ** utils.py: [parse_date] *)

Definition MONTH_NAMES : list string :=
  ["january"; "february"; "march"; "april"; "may"; "june"; "july";
   "august"; "september"; "october"; "november"; "december"].

Fixpoint drop (n : nat) (s : string) : string :=
  match n, s with
  | S n', String _ r => drop n' r
  | _, _ => s
  end.

(** [%B]: the month whose name starts [s], whatever the case, and what
    follows the name. *)
Fixpoint match_month (names : list string) (index : Z) (s : string)
  : option (Z * string) :=
  match names with
  | [] => None
  | name :: more =>
      if Text.startswith name (Text.lower s)
      then Some (index, drop (String.length name) s)
      else match_month more (index + 1) s
  end.

(** [\s+]: one white space at least, then all that follow. *)
Definition skip_spaces1 (s : string) : option string :=
  match s with
  | String c r => if Text.is_space c then Some (Text.lstrip r) else None
  | EmptyString => None
  end.

(** [%d] followed by the comma of the format:
    [3[0-1]|[1-2]\d|0[1-9]|[1-9]] and then [,]. *)
Definition match_day_comma (s : string) : option (Z * string) :=
  match s with
  | String a (String "," r) =>
      if Text.is_digit a && negb (Ascii.eqb a "0")
      then Some (Text.digit_value a, r) else None
  | String a (String b (String "," r)) =>
      if Text.is_digit a && Text.is_digit b then
        let v := 10 * Text.digit_value a + Text.digit_value b in
        if (1 <=? v) && (v <=? 31) then Some (v, r) else None
      else None
  | _ => None
  end.

(** [datetime.strptime(s, '%B %d, %Y')] *)
Definition strptime_B_d_Y (s : string) : result datetime :=
  match match_month MONTH_NAMES 1 s with
  | None => Raise ValueError
  | Some (m, r) =>
  match skip_spaces1 r with
  | None => Raise ValueError
  | Some r =>
  match match_day_comma r with
  | None => Raise ValueError
  | Some (d, r) =>
  match skip_spaces1 r with
  | None => Raise ValueError
  | Some r =>
  match take_digits 4 0 r with
  | Some (y, EmptyString) => make y m d 0 0 0
  | _ => Raise ValueError
  end end end end end.

(** [sys.get_int_max_str_digits()]: [int] refuses longer texts. *)
Definition INT_MAX_STR_DIGITS : nat := 4300.

(** [int(digits)] *)
Definition int (digits : string) : result Z :=
  if (String.length digits <=? INT_MAX_STR_DIGITS)%nat
  then Ok (Text.int_of_digits digits)
  else Raise ValueError.

(** [int(re.findall(r'\d+', timestamp)[0])] *)
Definition first_number (timestamp : string) : result Z :=
  match Text.findall_digits timestamp with
  | [] => Raise IndexError
  | digits :: _ => int digits
  end.

(** [(today_datetime - timedelta(...)).isoformat(timespec='minutes')] *)
Definition ago (today_datetime : datetime) (days hours minutes : Z)
  : result string :=
  match make_timedelta days hours minutes with
  | Raise e => Raise e
  | Ok delta =>
      match sub today_datetime delta with
      | Raise e => Raise e
      | Ok t => Ok (isoformat_minutes t)
      end
  end.

(** The body of the [try] of [parse_date], on the stripped text. *)
Definition parse_date_body (today_datetime : datetime) (timestamp : string)
  : result string :=
  let low := Text.lower timestamp in
  if Text.contains "min ago" low || Text.contains "mins ago" low then
    match first_number timestamp with
    | Raise e => Raise e
    | Ok minutes_ago => ago today_datetime 0 0 minutes_ago
    end
  else if Text.contains "hour ago" low || Text.contains "hours ago" low then
    match first_number timestamp with
    | Raise e => Raise e
    | Ok hours_ago => ago today_datetime 0 hours_ago 0
    end
  else if Text.contains "yesterday" low then
    ago today_datetime 1 0 0
  else
    let timestamp :=
      match timestamp with
      | EmptyString => timestamp
      | _ => if Text.search_year timestamp then timestamp
             else (timestamp ++ ", " ++ Text.decimal (year today_datetime))%string
      end in
    match strptime_B_d_Y timestamp with
    | Raise e => Raise e
    | Ok t => Ok (isoformat_minutes t)
    end.

(** [parse_date(timestamp)], with [today_datetime] what [datetime.now()]
    answers.  Only [ValueError] is caught. *)
Definition parse_date (today_datetime : datetime) (timestamp : string)
  : result string :=
  match parse_date_body today_datetime (Text.strip timestamp) with
  | Raise ValueError => Ok ERROR_DATE_PROCESSING
  | r => r
  end.

(* ================================================================== *)
(** ** web_scraping.py: the browser, the scraper state and its monad *)

(** What [requests.get] answers. *)
Record Response : Type := mkResponse { status_code : Z; content : string }.

(** The capabilities the scraper consumes: the RPA/selenium browser, the
    network, the file system and the clock, over a world [W] with element
    handles [E].  Every call takes the world and answers a result and the
    world after the call. *)
Record Driver (W E : Type) : Type := mkDriver {
  (* RPA.Browser.Selenium *)
  Selenium : W -> result unit * W;
  set_selenium_timeout : Z -> W -> result unit * W;
  open_available_browser : string -> W -> result unit * W;
  close_browser : W -> result unit * W;
  go_to : string -> W -> result unit * W;
  click_element_when_visible : string -> W -> result unit * W;
  click_element_when_clickable : string -> W -> result unit * W;
  input_text_when_element_is_visible : string -> string -> W -> result unit * W;
  find_element : string -> W -> result E * W;
  find_elements : string -> W -> result (list E) * W;
  (* selenium driver, waits and elements *)
  driver_refresh : W -> result unit * W;
  wait_until_clickable : Z -> string -> W -> result unit * W;
  wait_until_visible : Z -> string -> W -> result unit * W;
  select_by_visible_text : E -> string -> W -> result unit * W;
  element_find_element : E -> string -> W -> result E * W;
  element_find_elements : E -> string -> W -> result (list E) * W;
  element_get_attribute : E -> string -> W -> result (option string) * W;
  element_text : E -> W -> result string * W;
  element_click : E -> W -> result unit * W;
  (* requests, pathlib and open *)
  requests_get : option string -> W -> result Response * W;
  mkdir : string -> W -> result unit * W;
  write_file : string -> string -> W -> result unit * W;
  (* datetime.now and time.sleep *)
  clock : W -> datetime;
  sleep : Z -> W -> W
}.

Arguments Selenium {W E}.
Arguments set_selenium_timeout {W E}.
Arguments open_available_browser {W E}.
Arguments close_browser {W E}.
Arguments go_to {W E}.
Arguments click_element_when_visible {W E}.
Arguments click_element_when_clickable {W E}.
Arguments input_text_when_element_is_visible {W E}.
Arguments find_element {W E}.
Arguments find_elements {W E}.
Arguments driver_refresh {W E}.
Arguments wait_until_clickable {W E}.
Arguments wait_until_visible {W E}.
Arguments select_by_visible_text {W E}.
Arguments element_find_element {W E}.
Arguments element_find_elements {W E}.
Arguments element_get_attribute {W E}.
Arguments element_text {W E}.
Arguments element_click {W E}.
Arguments requests_get {W E}.
Arguments mkdir {W E}.
Arguments write_file {W E}.
Arguments clock {W E}.
Arguments sleep {W E}.

(** A [WebScraper] object together with the world it acts on.  [slept]
    records the delays handed to [time.sleep], oldest first. *)
Record State (W : Type) : Type := mkState {
  world : W;
  browser : bool;            (* [self.browser] is set *)
  scrape_continues : bool;   (* [self.scrape_continues] *)
  slept : list Z
}.
Arguments mkState {W}.
Arguments world {W}.
Arguments browser {W}.
Arguments scrape_continues {W}.
Arguments slept {W}.

(** [WebScraper.__init__] *)
Definition WebScraper_init {W} (w : W) : State W := mkState w false true [].

(** Computations that read and change the state and may raise. *)
Definition M (W A : Type) : Type := State W -> result A * State W.

Definition ret {W A} (a : A) : M W A := fun st => (Ok a, st).

Definition raise {W A} (e : exn) : M W A := fun st => (Raise e, st).

Definition bind {W A B} (m : M W A) (k : A -> M W B) : M W B :=
  fun st =>
    match m st with
    | (Ok a, st') => k a st'
    | (Raise e, st') => (Raise e, st')
    end.

(** [try: m  except Exception: handler] *)
Definition try_except {W A} (m : M W A) (handler : exn -> M W A) : M W A :=
  fun st =>
    match m st with
    | (Ok a, st') => (Ok a, st')
    | (Raise e, st') => handler e st'
    end.

(** A call of the driver, on the world inside the state. *)
Definition call {W A} (op : W -> result A * W) : M W A :=
  fun st =>
    let (r, w) := op (world st) in
    (r, mkState w (browser st) (scrape_continues st) (slept st)).

(** [time.sleep(delay)] *)
Definition do_sleep {W E} (drv : Driver W E) (delay : Z) : M W unit :=
  fun st =>
    (Ok tt, mkState (sleep drv delay (world st)) (browser st)
                    (scrape_continues st) (slept st ++ [delay])).

Definition set_browser {W} (b : bool) : M W unit :=
  fun st => (Ok tt, mkState (world st) b (scrape_continues st) (slept st)).

Definition set_scrape_continues {W} (b : bool) : M W unit :=
  fun st => (Ok tt, mkState (world st) (browser st) b (slept st)).

(** The state with [self.scrape_continues] set to [b]. *)
Definition with_flag {W} (b : bool) (st : State W) : State W :=
  mkState (world st) (browser st) b (slept st).

(** [m] leaves [self.scrape_continues] alone. *)
Definition keeps_flag {W A} (m : M W A) : Prop :=
  forall st r st', m st = (r, st') -> scrape_continues st' = scrape_continues st.

Create HintDb flag.

Declare Scope scraper_scope.
Delimit Scope scraper_scope with scraper.
Notation "x <- m ;; k" := (bind m (fun x => k))
  (at level 100, m at next level, right associativity) : scraper_scope.
Notation "m ;; k" := (bind m (fun _ => k))
  (at level 100, right associativity) : scraper_scope.

(** The for loops of the module: [f] on every element in turn, stopping
    at the first exception. *)
Fixpoint for_each {W A B} (f : A -> M W B) (l : list A) : M W (list B) :=
  match l with
  | [] => ret []
  | x :: more =>
      (y <- f x ;; ys <- for_each f more ;; ret (y :: ys))%scraper
  end.

(* ------------------------------------------------------------------ *)
(** *** tenacity: the retry decorator *)

(** [wait_exponential(multiplier, max)] after attempt [attempt_number]
    (counted from 1): [multiplier * 2 ** (attempt_number - 1)], kept within
    [0] and [max]. *)
Definition wait_exponential (multiplier max_wait attempt_number : Z) : Z :=
  Z.max 0 (Z.min (multiplier * 2 ^ (attempt_number - 1)) max_wait).

(** [retry_if_exception_type(ScrapingError)] *)
Definition retry_if_ScrapingError (e : exn) : bool := exn_eqb e ScrapingError.

(** The attempts of [@retry(reraise=True, retry=..., stop=stop_after_attempt(n),
    wait=wait_exponential(multiplier=1, max=10))], from attempt
    [attempt_number] on, with [remaining] further attempts allowed after it. *)
Fixpoint retry_from {W E A} (drv : Driver W E)
    (remaining : nat) (attempt_number : Z) (op : M W A) : M W A :=
  fun st =>
    match op st with
    | (Ok a, st') => (Ok a, st')
    | (Raise e, st') =>
        if retry_if_ScrapingError e then
          match remaining with
          | O => (Raise e, st')
          | S fewer =>
              let (_, st'') :=
                do_sleep drv (wait_exponential 1 10 attempt_number) st' in
              retry_from drv fewer (attempt_number + 1) op st''
          end
        else (Raise e, st')
    end.

(** The decorator every browser step of [WebScraper] carries:
    [stop_after_attempt(3)]. *)
Definition retry {W E A} (drv : Driver W E) (op : M W A) : M W A :=
  retry_from drv 2 1 op.

(** The state after [time.sleep(delay)]. *)
Definition after_sleep {W E} (drv : Driver W E) (delay : Z) (st : State W)
  : State W :=
  snd (do_sleep drv delay st).

(** [op] itself never sleeps. *)
Definition keeps_log {W A} (op : M W A) : Prop :=
  forall st r st', op st = (r, st') -> slept st' = slept st.

(* ------------------------------------------------------------------ *)
(** *** utils.py: [download_image] *)

(** [str(x)] of an attribute value, which is a string or [None]. *)
Definition str (x : option string) : string :=
  match x with
  | Some v => v
  | None => "None"
  end.

(** [response.raise_for_status()] *)
Definition raise_for_status {W} (response : Response) : M W unit :=
  if (400 <=? status_code response) && (status_code response <? 600)
  then raise RequestException
  else ret tt.

(** The classes of [except (requests.RequestException, OSError)]. *)
Definition is_RequestException_or_OSError (e : exn) : bool :=
  match e with
  | RequestException | OSError => true
  | _ => false
  end.

Section WebScraper.

Context {W E : Type} (drv : Driver W E).

(** The constants of [api.constants]. *)
Variable OUTPUT_FOLDER : string.
Variable MONTHS_PERIOD : Z.
Variable BASE_URL : string.
Variable TIMEOUT_SECONDS : Z.
Variable CATEGORY_FILTER : string.

Local Open Scope scraper_scope.

(** [Path(OUTPUT_FOLDER) / IMG_FOLDER_NAME] *)
Definition img_folder : string :=
  (OUTPUT_FOLDER ++ "/" ++ IMG_FOLDER_NAME)%string.

(** [f'{news_url.split("/")[-1]}.png'] *)
Definition img_filename_of (news_url : string) : string :=
  (Text.split_last "/" news_url ++ ".png")%string.

(** [download_image(news_url, img_src)]: the folder is made outside the
    [try]; inside it, only request and file system errors are caught. *)
Definition download_image (news_url : string) (img_src : option string)
  : M W (option string) :=
  call (mkdir drv img_folder) ;;
  let img_filename := img_filename_of news_url in
  let img_path := (img_folder ++ "/" ++ img_filename)%string in
  try_except
    (response <- call (requests_get drv img_src) ;;
     raise_for_status response ;;
     call (write_file drv img_path (content response)) ;;
     ret (Some img_filename))
    (fun e =>
       if is_RequestException_or_OSError e then ret None else raise e).

(** [parse_date(text)] at the time the clock shows. *)
Definition parse_date_now (text : string) : M W string :=
  fun st => (parse_date (clock drv (world st)) text, st).

(** [launch_browser], before the decorator. *)
Definition launch_browser_once : M W unit :=
  try_except
    (call (Selenium drv) ;;
     set_browser true ;;
     call (set_selenium_timeout drv TIMEOUT_SECONDS) ;;
     call (open_available_browser drv BASE_URL))
    (fun _ => raise ScrapingError).

Definition launch_browser : M W unit := retry drv launch_browser_once.

(** [close_popup_overlays]: both lookups are best effort. *)
Definition close_popup_overlays : M W unit :=
  try_except
    (call (wait_until_clickable drv TIMEOUT_SECONDS "#onetrust-accept-btn-handler"))
    (fun _ => ret tt) ;;
  try_except
    (call (click_element_when_clickable drv "class=fancybox-item.fancybox-close"))
    (fun _ => ret tt).

(** The body of the loop of [apply_filter] over the category labels. *)
Definition click_if_category (category : E) : M W unit :=
  text <- call (element_text drv category) ;;
  if Text.contains CATEGORY_FILTER (Text.lower text)
  then call (element_click drv category)
  else ret tt.

(** [apply_filter], before the decorator. *)
Definition apply_filter_once : M W unit :=
  try_except
    (call (driver_refresh drv) ;;
     close_popup_overlays ;;
     call (click_element_when_visible drv "class=SearchResultsModule-filters-open") ;;
     call (click_element_when_visible drv "class=SearchFilter-content") ;;
     category_elements <- call (find_elements drv "class=CheckboxInput-label") ;;
     for_each click_if_category category_elements ;;
     call (click_element_when_visible drv "class=SearchResultsModule-filters-applyButton"))
    (fun _ => raise ScrapingError).

Definition apply_filter : M W unit := retry drv apply_filter_once.

(** [navigate_to_next_page], before the decorator. *)
Definition navigate_to_next_page_once : M W unit :=
  try_except
    (call (click_element_when_visible drv "class=Pagination-nextPage"))
    (fun _ => call (driver_refresh drv) ;; raise ScrapingError).

Definition navigate_to_next_page : M W unit :=
  retry drv navigate_to_next_page_once.

(** [execute_search], before the decorator. *)
Definition execute_search_once (query : string) : M W unit :=
  try_except
    (close_popup_overlays ;;
     call (click_element_when_visible drv "class=SearchOverlay-search-button") ;;
     call (input_text_when_element_is_visible drv "class=SearchOverlay-search-input" query) ;;
     call (click_element_when_visible drv "class=SearchOverlay-search-submit") ;;
     dropdown <- call (find_element drv "class=Select-input") ;;
     call (select_by_visible_text drv dropdown "Newest"))
    (fun _ => call (go_to drv BASE_URL) ;; raise ScrapingError).

Definition execute_search (query : string) : M W unit :=
  retry drv (execute_search_once query).

(** The text of the sub-element of class [cls], through [parse_date]. *)
Definition timestamp_of (article : E) (cls : string) : M W string :=
  stamp <- call (element_find_element drv article cls) ;;
  text <- call (element_text drv stamp) ;;
  parse_date_now text.

(** [article_data['Description']]: the first guarded lookup of the loop. *)
Definition extract_description (article : E) : M W string :=
  try_except
    (promo <- call (element_find_element drv article "PagePromo-description") ;;
     call (element_text drv promo))
    (fun _ => ret "").

(** [article_data['Image']]: the second guarded lookup of the loop. *)
Definition extract_image (article : E) (url : string) : M W (option string) :=
  try_except
    (img <- call (element_find_element drv article "Image") ;;
     src <- call (element_get_attribute drv img "src") ;;
     download_image url src)
    (fun _ => ret (Some "Image Not Available")).

(** [article_data['DateTime']]: the third guarded lookup, with its
    fallback. *)
Definition extract_date_time (article : E) : M W string :=
  try_except
    (timestamp_of article "Timestamp-template-now")
    (fun _ =>
       try_except
         (timestamp_of article "Timestamp-template")
         (fun _ => ret "DateTime Not Available")).

(** The body of the loop of [fetch_results]: one [article_data].  The
    reads of [URL] and [Title] are not guarded. *)
Definition extract_article (article : E) : M W Article :=
  link <- call (element_find_element drv article "Link") ;;
  href <- call (element_get_attribute drv link "href") ;;
  let url := str href in
  region <- call (element_get_attribute drv article "data-gtm-region") ;;
  let title := str region in
  description <- extract_description article ;;
  image <- extract_image article url ;;
  date_time <- extract_date_time article ;;
  ret (mkArticle url title description image date_time).

(** The start of [fetch_results]: reload, wait for the results and list
    the cards. *)
Definition locate_articles : M W (list E) :=
  call (driver_refresh drv) ;;
  close_popup_overlays ;;
  call (wait_until_visible drv TIMEOUT_SECONDS "SearchResultsModule-results") ;;
  search_module <- call (find_element drv "class=SearchResultsModule-results") ;;
  call (element_find_elements drv search_module "PagePromo").

(** [fetch_results], before the decorator. *)
Definition fetch_results_once : M W DataFrame :=
  try_except
    (news_elements <- locate_articles ;;
     processed_articles <- for_each extract_article news_elements ;;
     ret (DataFrame_of processed_articles))
    (fun _ => raise ScrapingError).

Definition fetch_results : M W DataFrame := retry drv fetch_results_once.

(** [except ScrapingError] of the page loop: the flag goes down and the
    locals are kept; any other exception passes. *)
Definition on_page_error {A} (locals : A) (e : exn) : M W A :=
  if exn_eqb e ScrapingError
  then set_scrape_continues false ;; ret locals
  else raise e.

(** One turn of [while self.scrape_continues], on the locals
    [(page_counter, collected_data)].  An exception leaves the [try] with
    the assignments made before it. *)
Definition scrape_page (locals : Z * DataFrame) : M W (Z * DataFrame) :=
  let (page_counter, collected_data) := locals in
  fun st =>
    match fetch_results st with
    | (Raise e, st1) => on_page_error (page_counter, collected_data) e st1
    | (Ok page_data, st1) =>
        let collected_data := concat collected_data page_data in
        match should_continue_scraping_based_on_time
                MONTHS_PERIOD (clock drv (world st1)) page_data with
        | Raise e => on_page_error (page_counter, collected_data) e st1
        | Ok go =>
            let (_, st2) := set_scrape_continues go st1 in
            if go then
              match navigate_to_next_page st2 with
              | (Raise e, st3) =>
                  on_page_error (page_counter, collected_data) e st3
              | (Ok _, st3) => (Ok (page_counter + 1, collected_data), st3)
              end
            else (Ok (page_counter, collected_data), st2)
        end
    end.

(** [while self.scrape_continues: ...] followed by
    [return collected_data].  [None] when [fuel] turns did not end the
    loop. *)
Fixpoint scrape_loop (fuel : nat) (locals : Z * DataFrame) (st : State W)
  : option (result DataFrame * State W) :=
  if scrape_continues st then
    match fuel with
    | O => None
    | S fuel' =>
        match scrape_page locals st with
        | (Raise e, st') => Some (Raise e, st')
        | (Ok locals', st') => scrape_loop fuel' locals' st'
        end
    end
  else Some (Ok (snd locals), st).

(** [pages_fetched st pages st']: from [st], the loop fetches [pages] one
    after the other, each time deciding to go on and reaching the next
    page, and is then in [st']. *)
Inductive pages_fetched : State W -> list DataFrame -> State W -> Prop :=
| fetched_none st : pages_fetched st [] st
| fetched_more st page st1 st2 pages st3 :
    fetch_results st = (Ok page, st1) ->
    should_continue_scraping_based_on_time
      MONTHS_PERIOD (clock drv (world st1)) page = Ok true ->
    navigate_to_next_page (with_flag true st1) = (Ok tt, st2) ->
    pages_fetched st2 pages st3 ->
    pages_fetched st (page :: pages) st3.

(** [try: self.apply_filter()  except ScrapingError: ...] of
    [start_scraping]: the run goes on without the filter. *)
Definition apply_filter_or_skip : M W unit :=
  try_except apply_filter
    (fun e => if exn_eqb e ScrapingError then ret tt else raise e).

(** The body of the [with] of [start_scraping]. *)
Definition scraping_body (fuel : nat) (query : string) (st : State W)
  : option (result DataFrame * State W) :=
  match execute_search query st with
  | (Raise e, st1) => Some (Raise e, st1)
  | (Ok _, st1) =>
      match apply_filter_or_skip st1 with
      | (Raise e, st2) => Some (Raise e, st2)
      | (Ok _, st2) => scrape_loop fuel (1, empty_frame) st2
      end
  end.

(** [with self.managed_browser(): body]: the browser is launched before
    the [try]; the [finally] closes it, and an exception of the closing
    replaces the outcome of the body. *)
Definition managed_browser {A} (body : State W -> option (result A * State W))
    (st : State W) : option (result A * State W) :=
  match launch_browser st with
  | (Raise e, st1) => Some (Raise e, st1)
  | (Ok _, st1) =>
      match body st1 with
      | None => None
      | Some (r, st2) =>
          if browser st2 then
            match call (close_browser drv) st2 with
            | (Ok _, st3) => Some (r, st3)
            | (Raise e, st3) => Some (Raise e, st3)
            end
          else Some (r, st2)
      end
  end.

(** [start_scraping(query)] *)
Definition start_scraping (fuel : nat) (query : string)
  : State W -> option (result DataFrame * State W) :=
  managed_browser (scraping_body fuel query).

End WebScraper.

(* ================================================================== *)
(** ** A scripted browser, to run the scraper on concrete pages *)

Module Sim.

(** One result card of a page: what each lookup of [extract_article] finds.
    [None] is a missing sub-element; for [link] and [image] the inner option
    is the attribute read from the sub-element. *)
Record Card : Type := mkCard {
  link : option (option string);
  region : option string;
  description : option string;
  image : option (option string);
  timestamp_now : option string;
  timestamp : option string
}.

Inductive Elem : Type :=
| Results                                       (* the results container *)
| Promo (c : Card)                              (* a result card *)
| Part (attribute : option string) (text : string). (* a sub-element *)

(** The pages still to come (the head is the one on screen), the state of
    the network and of the file system, and the clock, which stands still. *)
Record World : Type := mkWorld {
  pages : list (list Card);
  network_up : bool;     (* requests succeed *)
  folder_ok : bool;      (* the image folder can be made *)
  disk_ok : bool;        (* files can be written *)
  today : datetime
}.

Definition ok {A} (a : A) (w : World) : result A * World := (Ok a, w).
Definition fail {A} (e : exn) (w : World) : result A * World := (Raise e, w).

Definition part_of (field : option (option string)) (text : option string)
  : World -> result Elem * World :=
  match field, text with
  | Some attribute, _ => ok (Part attribute "")
  | None, Some t => ok (Part None t)
  | None, None => fail NoSuchElementException
  end.

Definition sub_element (e : Elem) (cls : string) : World -> result Elem * World :=
  match e with
  | Promo c =>
      if String.eqb cls "Link" then part_of (link c) None
      else if String.eqb cls "Image" then part_of (image c) None
      else if String.eqb cls "PagePromo-description" then part_of None (description c)
      else if String.eqb cls "Timestamp-template-now" then part_of None (timestamp_now c)
      else if String.eqb cls "Timestamp-template" then part_of None (timestamp c)
      else fail NoSuchElementException
  | _ => fail NoSuchElementException
  end.

Definition attribute_of (e : Elem) (name : string)
  : World -> result (option string) * World :=
  match e with
  | Promo c => if String.eqb name "data-gtm-region" then ok (region c) else ok None
  | Part attribute _ => ok attribute
  | Results => ok None
  end.

Definition text_of (e : Elem) : World -> result string * World :=
  match e with
  | Part _ t => ok t
  | _ => ok ""
  end.

Definition cards (e : Elem) (cls : string) : World -> result (list Elem) * World :=
  fun w =>
    match e, pages w with
    | Results, page :: _ => (Ok (map Promo page), w)
    | _, _ => (Ok [], w)
    end.

Definition container (locator : string) : World -> result Elem * World :=
  fun w =>
    match pages w with
    | [] => (Raise NoSuchElementException, w)
    | _ :: _ => (Ok Results, w)
    end.

Definition visible (timeout : Z) (locator : string) : World -> result unit * World :=
  fun w =>
    match pages w with
    | [] => (Raise TimeoutException, w)
    | _ :: _ => (Ok tt, w)
    end.

(** A click: the next-page control works while a further page exists and
    turns to it; every other control just works. *)
Definition click (locator : string) : World -> result unit * World :=
  fun w =>
    if String.eqb locator "class=Pagination-nextPage" then
      match pages w with
      | _ :: (next :: more) =>
          (Ok tt, mkWorld (next :: more) (network_up w) (folder_ok w)
                          (disk_ok w) (today w))
      | _ => (Raise TimeoutException, w)
      end
    else (Ok tt, w).

Definition get (url : option string) : World -> result Response * World :=
  fun w =>
    match url with
    | Some _ =>
        if network_up w then (Ok (mkResponse 200 "image"), w)
        else (Raise RequestException, w)
    | None => (Raise RequestException, w)
    end.

Definition write (path data : string) : World -> result unit * World :=
  fun w => if disk_ok w then (Ok tt, w) else (Raise OSError, w).

Definition make_folder (path : string) : World -> result unit * World :=
  fun w => if folder_ok w then (Ok tt, w) else (Raise OSError, w).

Definition driver : Driver World Elem :=
  {| Selenium := ok tt;
     set_selenium_timeout := fun _ => ok tt;
     open_available_browser := fun _ => ok tt;
     close_browser := ok tt;
     go_to := fun _ => ok tt;
     click_element_when_visible := click;
     click_element_when_clickable := fun _ => fail TimeoutException;
     input_text_when_element_is_visible := fun _ _ => ok tt;
     find_element := container;
     find_elements := fun _ => ok [];
     driver_refresh := ok tt;
     wait_until_clickable := fun _ _ => fail TimeoutException;
     wait_until_visible := visible;
     select_by_visible_text := fun _ _ => ok tt;
     element_find_element := sub_element;
     element_find_elements := cards;
     element_get_attribute := attribute_of;
     element_text := text_of;
     element_click := fun _ => ok tt;
     requests_get := get;
     mkdir := make_folder;
     write_file := write;
     clock := today;
     sleep := fun _ w => w |}.

(** A card with every sub-element present. *)
Definition card (url stamp : string) : Card :=
  mkCard (Some (Some url)) (Some "title") (Some "text")
         (Some (Some "http://img/1.png")) None (Some stamp).

Definition start (ps : list (list Card)) (now : datetime) : State World :=
  WebScraper_init (mkWorld ps true true true now).

(** The scraper on the scripted browser, with the constants of a run. *)
Definition run_extract (st : State World) (c : Card) : result Article * State World :=
  extract_article driver "output" (Promo c) st.

Definition run_fetch (st : State World) : result DataFrame * State World :=
  fetch_results driver "output" 10 st.

Definition run_scraping (months_period : Z) (fuel : nat) (st : State World)
  : option (result DataFrame * State World) :=
  start_scraping driver "output" months_period "http://news" 10 "sports"
                 fuel "query" st.

(** Sample cards, pages and instants. *)
Definition now0 : datetime := mkdatetime 2026 11 4 12 27 31 5.

Definition good : Card := card "http://news/a" "November 3".

Definition no_link : Card :=
  mkCard None (Some "title") (Some "text") (Some (Some "http://img/2.png"))
         None (Some "November 2").

Definition no_href : Card :=
  mkCard (Some None) (Some "title") (Some "text")
         (Some (Some "http://img/2.png")) None (Some "November 2").

Definition no_image : Card :=
  mkCard (Some (Some "http://news/b")) (Some "title") (Some "text") None
         None (Some "November 2").

Definition no_timestamp : Card :=
  mkCard (Some (Some "http://news/c")) (Some "title") (Some "text")
         (Some (Some "http://img/3.png")) None None.

Definition article_dated (stamp : string) : Article :=
  mkArticle "http://news/a" "title" "text" None stamp.

Definition good_article : Article := article_dated "2026-11-03T00:00".

(** An operation that raises [e] until the decorator has slept [k] times,
    and then answers 7. *)
Definition flaky (e : exn) (k : nat) : M World Z :=
  fun st =>
    if (List.length (slept st) <? k)%nat then (Raise e, st) else (Ok 7, st).

End Sim.

(* ================================================================== *)
(** ** A scripted browser whose session can be lost *)

Module Crash.

(** As [Sim.click], but a click that fails takes the session down; the
    field [network_up] of the world stands for the session. *)
Definition click (locator : string)
  : Sim.World -> result unit * Sim.World :=
  fun w =>
    match Sim.click locator w with
    | (Raise e, w') =>
        (Raise e, Sim.mkWorld (Sim.pages w') false (Sim.folder_ok w')
                              (Sim.disk_ok w') (Sim.today w'))
    | (Ok u, w') => (Ok u, w')
    end.

(** A reload works while the session is up. *)
Definition refresh : Sim.World -> result unit * Sim.World :=
  fun w =>
    if Sim.network_up w then (Ok tt, w) else (Raise WebDriverException, w).

Definition driver : Driver Sim.World Sim.Elem :=
  {| Selenium := Selenium Sim.driver;
     set_selenium_timeout := set_selenium_timeout Sim.driver;
     open_available_browser := open_available_browser Sim.driver;
     close_browser := close_browser Sim.driver;
     go_to := go_to Sim.driver;
     click_element_when_visible := click;
     click_element_when_clickable := click_element_when_clickable Sim.driver;
     input_text_when_element_is_visible :=
       input_text_when_element_is_visible Sim.driver;
     find_element := find_element Sim.driver;
     find_elements := find_elements Sim.driver;
     driver_refresh := refresh;
     wait_until_clickable := wait_until_clickable Sim.driver;
     wait_until_visible := wait_until_visible Sim.driver;
     select_by_visible_text := select_by_visible_text Sim.driver;
     element_find_element := element_find_element Sim.driver;
     element_find_elements := element_find_elements Sim.driver;
     element_get_attribute := element_get_attribute Sim.driver;
     element_text := element_text Sim.driver;
     element_click := element_click Sim.driver;
     requests_get := requests_get Sim.driver;
     mkdir := mkdir Sim.driver;
     write_file := write_file Sim.driver;
     clock := clock Sim.driver;
     sleep := sleep Sim.driver |}.

(** The scraper with the session already lost. *)
Definition lost (ps : list (list Sim.Card)) (now : datetime) : State Sim.World :=
  WebScraper_init (Sim.mkWorld ps false true true now).

End Crash.

(* ================================================================== *)
(** ** A scripted browser that cannot be closed *)

Module Jammed.

(** As [Sim.driver], but [close_browser] raises. *)
Definition driver : Driver Sim.World Sim.Elem :=
  {| Selenium := Selenium Sim.driver;
     set_selenium_timeout := set_selenium_timeout Sim.driver;
     open_available_browser := open_available_browser Sim.driver;
     close_browser := Sim.fail WebDriverException;
     go_to := go_to Sim.driver;
     click_element_when_visible := click_element_when_visible Sim.driver;
     click_element_when_clickable := click_element_when_clickable Sim.driver;
     input_text_when_element_is_visible :=
       input_text_when_element_is_visible Sim.driver;
     find_element := find_element Sim.driver;
     find_elements := find_elements Sim.driver;
     driver_refresh := driver_refresh Sim.driver;
     wait_until_clickable := wait_until_clickable Sim.driver;
     wait_until_visible := wait_until_visible Sim.driver;
     select_by_visible_text := select_by_visible_text Sim.driver;
     element_find_element := element_find_element Sim.driver;
     element_find_elements := element_find_elements Sim.driver;
     element_get_attribute := element_get_attribute Sim.driver;
     element_text := element_text Sim.driver;
     element_click := element_click Sim.driver;
     requests_get := requests_get Sim.driver;
     mkdir := mkdir Sim.driver;
     write_file := write_file Sim.driver;
     clock := clock Sim.driver;
     sleep := sleep Sim.driver |}.

End Jammed.

(* ================================================================== *)
(** ** Vocabulary of the further properties *)

(** [m] leaves the part [f] of the state as it found it. *)
Definition preserves {W A X} (f : State W -> X) (m : M W A) : Prop :=
  forall st r st', m st = (r, st') -> f st' = f st.

(** [f] does not look at the world. *)
Definition world_blind {W X} (f : State W -> X) : Prop :=
  forall st w, f (mkState w (browser st) (scrape_continues st) (slept st)) = f st.

Create HintDb frame.

(* ================================================================== *)
(** ** The names [strptime] reads *)

(** [calendar.month_name]: [%B] matches the lower-case forms of these,
    which are [MONTH_NAMES]. *)
Definition month_name : list string :=
  [""; "January"; "February"; "March"; "April"; "May"; "June"; "July";
   "August"; "September"; "October"; "November"; "December"].

(* ================================================================== *)
(** ** text_processing: the money pattern *)

(** [[0-9]*] at the head of [s]: what follows the longest run of digits. *)
Fixpoint skip_digits (s : string) : string :=
  match s with
  | String c r => if Text.is_digit c then skip_digits r else s
  | EmptyString => EmptyString
  end.

(** A literal of a pattern compiled with [re.IGNORECASE], at the head of
    [s]; [sub] is the literal in lower case. *)
Fixpoint startswith_nocase (sub s : string) : bool :=
  match sub, s with
  | EmptyString, _ => true
  | String a sub', String b s' =>
      Ascii.eqb a (Text.lower_char b) && startswith_nocase sub' s'
  | String _ _, EmptyString => false
  end.

(** The three alternatives of [money_pattern], [\$[0-9]+\,?[0-9]*\.?[0-9]*],
    [[0-9]+ dollars] and [[0-9]+ USD], at the head of [s].  After the dollar sign one digit is needed and all the
    rest may be empty; a run of digits is taken whole, since the blank
    that has to follow it is no digit. *)
Definition money_at (s : string) : bool :=
  match s with
  | String c r =>
      (Ascii.eqb c "$"
       && match r with
          | String d _ => Text.is_digit d
          | EmptyString => false
          end)
      || (Text.is_digit c
          && (startswith_nocase " dollars" (skip_digits r)
              || startswith_nocase " usd" (skip_digits r)))
  | EmptyString => false
  end.

(** [bool(money_pattern.search(text))] *)
Fixpoint money_search (text : string) : bool :=
  money_at text
  || match text with
     | String _ r => money_search r
     | EmptyString => false
     end.

(** [df['Title'] + ' ' + df['Description']], in one row. *)
Definition Combined_Text (a : Article) : string :=
  (Title a ++ " " ++ Description a)%string.

(** A frame as [check_money_text] returns it: the labels of its columns
    and, row by row, the article with its cell of ['Contains Money'], which
    is [None] where the frame has no such column. *)
Record MoneyFrame : Type := mkMoneyFrame {
  money_columns : list string;
  money_rows : list (Article * option bool)
}.

(** [df[label] = ...] on the labels of the columns: a label the frame has
    keeps its place, a new one goes last. *)
Definition assign_column (label : string) (cols : list string) : list string :=
  if existsb (String.eqb label) cols then cols else cols ++ [label].

(** [df.drop(columns=[label])] on the labels. *)
Definition drop_column (label : string) (cols : list string) : list string :=
  filter (fun c => negb (String.eqb label c)) cols.

(** [check_money_text(df)]: the frame it returns, which is the frame it
    was given, changed in place.  Without the two columns nothing is
    changed; with them, ['Combined_Text'] is assigned, ['Contains Money'] is
    assigned from it, and ['Combined_Text'] is dropped.  The cells of
    [Title] and [Description] are texts, as [fetch_results] writes them. *)
Definition check_money_text (df : DataFrame) : MoneyFrame :=
  if has_column df "Title" && has_column df "Description"
  then mkMoneyFrame
         (drop_column "Combined_Text"
            (assign_column "Contains Money"
               (assign_column "Combined_Text" (columns df))))
         (map (fun a => (a, Some (money_search (Combined_Text a)))) (rows df))
  else mkMoneyFrame (columns df) (map (fun a => (a, None)) (rows df)).

(* ================================================================== *)
(** * Properties *)

(** ** ISO texts never look like a sentinel *)

Section IsoText.

Lemma prefix_error_iso c r :
  iso_char c = true ->
  Text.startswith ERROR_DATE_PROCESSING (String c r) = false.
Proof.
  intros H. unfold ERROR_DATE_PROCESSING. cbn [Text.startswith].
  destruct (Ascii.eqb "E" c) eqn:Hq; [|reflexivity].
  apply Ascii.eqb_eq in Hq. subst c. discriminate H.
Qed.

Lemma contains_error_cons c r :
  iso_char c = true ->
  Text.contains ERROR_DATE_PROCESSING (String c r)
  = Text.contains ERROR_DATE_PROCESSING r.
Proof.
  intros Hc. cbn [Text.contains]. rewrite (prefix_error_iso c r Hc).
  reflexivity.
Qed.

Lemma contains_error_skip d r :
  all_iso d = true ->
  Text.contains ERROR_DATE_PROCESSING (d ++ r)%string
  = Text.contains ERROR_DATE_PROCESSING r.
Proof.
  induction d as [|c d IH]; intros H; [reflexivity|].
  cbn [all_iso] in H. apply andb_prop in H as [Hc Hd].
  cbn [append Text.contains].
  rewrite (prefix_error_iso c _ Hc). cbn [orb]. auto.
Qed.

Lemma contains_error_all_iso r :
  all_iso r = true -> Text.contains ERROR_DATE_PROCESSING r = false.
Proof.
  intros H. induction r as [|c r IH]; [reflexivity|].
  simpl in H. apply andb_prop in H as [Hc Hr].
  cbn [Text.contains]. rewrite (prefix_error_iso c r Hc). cbn [orb]. auto.
Qed.

Lemma contains_error_one_letter c r :
  all_iso r = true ->
  Text.contains ERROR_DATE_PROCESSING (String c r) = false.
Proof.
  intros H. cbn [Text.contains].
  rewrite (contains_error_all_iso r H), orb_false_r.
  unfold ERROR_DATE_PROCESSING. cbn [Text.startswith].
  destruct (Ascii.eqb "E" c); [|reflexivity].
  destruct r as [|x r]; [reflexivity|].
  destruct (Ascii.eqb "r" x) eqn:Hq; [|reflexivity].
  apply Ascii.eqb_eq in Hq. subst x. discriminate H.
Qed.

Lemma take_digits_split n : forall acc s v r,
  take_digits n acc s = Some (v, r) ->
  exists d, s = (d ++ r)%string /\ all_iso d = true.
Proof.
  induction n as [|n IH]; simpl; intros acc s v r H.
  - inversion H; subst. exists EmptyString. split; reflexivity.
  - destruct s as [|c s]; [discriminate|].
    destruct (Text.is_digit c) eqn:Hc; [|discriminate].
    destruct (IH _ _ _ _ H) as (d & -> & Hd).
    exists (String c d). split; [reflexivity|].
    simpl. unfold iso_char. rewrite Hc, Hd. reflexivity.
Qed.

Lemma take_digits_head n acc s v r :
  take_digits (S n) acc s = Some (v, r) ->
  exists c s', s = String c s' /\ Text.is_digit c = true.
Proof.
  simpl. destruct s as [|c s]; [discriminate|].
  destruct (Text.is_digit c) eqn:Hc; [|discriminate].
  intros _. eauto.
Qed.

Lemma expect_inv c s r : expect c s = Some r -> s = String c r.
Proof.
  destruct s as [|x s]; simpl; [discriminate|].
  destruct (Ascii.eqb x c) eqn:Hx; [|discriminate].
  apply Ascii.eqb_eq in Hx. intros H. inversion H. subst. reflexivity.
Qed.

Lemma all_iso_app a b :
  all_iso a = true -> all_iso b = true -> all_iso (a ++ b)%string = true.
Proof.
  induction a as [|c a IH]; simpl; intros Ha Hb; [assumption|].
  apply andb_prop in Ha as [-> Ha]. simpl. auto.
Qed.

Lemma parse_isotime_all_iso s x :
  parse_isotime s = Some x -> all_iso s = true.
Proof.
  unfold parse_isotime. intros H.
  destruct (take_digits 2 0 s) as [[h r]|] eqn:E1; [|discriminate].
  apply take_digits_split in E1 as (d1 & -> & Hd1).
  destruct r as [|c r]; [apply all_iso_app; auto|].
  destruct (expect ":" (String c r)) as [r1|] eqn:E2; [|discriminate].
  apply expect_inv in E2. rewrite E2. clear E2 c r.
  destruct (take_digits 2 0 r1) as [[mi r]|] eqn:E3; [|discriminate].
  apply take_digits_split in E3 as (d2 & -> & Hd2).
  apply all_iso_app; [assumption|]. simpl.
  destruct r as [|c r]; [apply all_iso_app; auto|].
  destruct (expect ":" (String c r)) as [r2|] eqn:E4; [|discriminate].
  apply expect_inv in E4. rewrite E4. clear E4 c r.
  destruct (take_digits 2 0 r2) as [[sec r]|] eqn:E5; [|discriminate].
  apply take_digits_split in E5 as (d3 & -> & Hd3).
  destruct r; [|discriminate].
  apply all_iso_app; [assumption|]. simpl.
  apply all_iso_app; auto.
Qed.

Lemma make_valid y m d h mi sec t :
  make y m d h mi sec = Ok t -> valid t = true.
Proof.
  unfold make, valid.
  destruct (check_date_fields y m d && check_time_fields h mi sec 0) eqn:E;
    [|discriminate].
  intros H. inversion H. subst. simpl. exact E.
Qed.

(** A text that [fromisoformat] accepts is a valid date-time. *)
Lemma fromisoformat_valid s t : fromisoformat s = Ok t -> valid t = true.
Proof.
  unfold fromisoformat.
  destruct (take_digits 4 0 s) as [[y r]|]; [|discriminate].
  destruct (expect "-" r) as [r1|]; [|discriminate].
  destruct (take_digits 2 0 r1) as [[m r2]|]; [|discriminate].
  destruct (expect "-" r2) as [r3|]; [|discriminate].
  destruct (take_digits 2 0 r3) as [[d r4]|]; [|discriminate].
  destruct r4 as [|c r4]; [apply make_valid|].
  destruct (parse_isotime r4) as [[[h mi] sec]|]; [|discriminate].
  apply make_valid.
Qed.

(** A text that [fromisoformat] accepts passes the date filter of the
    stop condition. *)
Lemma fromisoformat_is_valid_date s t :
  fromisoformat s = Ok t -> is_valid_date s = true.
Proof.
  unfold fromisoformat, is_valid_date. intros H.
  destruct (take_digits 4 0 s) as [[y r]|] eqn:E1; [|discriminate].
  destruct (take_digits_head _ _ _ _ _ E1) as (c0 & s0 & Hs & Hc0).
  apply take_digits_split in E1 as (d1 & E1 & Hd1).
  apply andb_true_intro. split.
  - rewrite Hs. unfold DATE_NOT_FOUND. simpl.
    destruct (Ascii.eqb c0 "D") eqn:Hq; [|reflexivity].
    apply Ascii.eqb_eq in Hq. subst c0. discriminate Hc0.
  - clear Hs Hc0 c0 s0. subst s. rewrite contains_error_skip by assumption.
    destruct (expect "-" r) as [r1|] eqn:E2; [|discriminate].
    apply expect_inv in E2. subst r.
    rewrite (contains_error_cons "-" r1 eq_refl).
    destruct (take_digits 2 0 r1) as [[m r2]|] eqn:E3; [|discriminate].
    apply take_digits_split in E3 as (d2 & -> & Hd2).
    rewrite contains_error_skip by assumption.
    destruct (expect "-" r2) as [r3|] eqn:E4; [|discriminate].
    apply expect_inv in E4. subst r2.
    rewrite (contains_error_cons "-" r3 eq_refl).
    destruct (take_digits 2 0 r3) as [[d r4]|] eqn:E5; [|discriminate].
    apply take_digits_split in E5 as (d3 & -> & Hd3).
    rewrite contains_error_skip by assumption.
    destruct r4 as [|c r4]; [reflexivity|].
    destruct (parse_isotime r4) as [x|] eqn:E6; [|discriminate].
    apply parse_isotime_all_iso in E6.
    rewrite (contains_error_one_letter c r4 E6). reflexivity.
Qed.

End IsoText.

(* ================================================================== *)
(** ** The stop condition *)

Lemma has_column_columns df label :
  has_column df label = true -> columns df <> [].
Proof.
  unfold has_column. destruct (columns df); [discriminate|discriminate].
Qed.

Lemma frame_empty_rows cols rs :
  cols <> [] -> frame_empty (mkDataFrame cols rs) = match rs with [] => true | _ => false end.
Proof.
  unfold frame_empty. simpl. destruct rs, cols; try reflexivity; congruence.
Qed.

(** When the last row passes the date filter, it is the decision row. *)
Lemma should_continue_last_valid MP now df init a :
  has_column df "DateTime" = true ->
  rows df = init ++ [a] ->
  is_valid_date (DateTime a) = true ->
  should_continue_scraping_based_on_time MP now df
  = decision MP now (DateTime a).
Proof.
  intros Hcol Hrows Hvalid.
  unfold should_continue_scraping_based_on_time, valid_dates_df, decision.
  rewrite Hcol, Hrows, filter_app. simpl filter. rewrite Hvalid.
  rewrite frame_empty_rows by (eapply has_column_columns; eassumption).
  destruct (filter _ init ++ [a]) eqn:E;
    [apply app_eq_nil in E as [_ E]; discriminate|].
  rewrite <- E. unfold iloc_last_DateTime. simpl rows.
  rewrite rev_app_distr. reflexivity.
Qed.

(** A last row that the date filter removes plays no part. *)
Lemma should_continue_skips_invalid MP now cols init a :
  is_valid_date (DateTime a) = false ->
  should_continue_scraping_based_on_time MP now (mkDataFrame cols (init ++ [a]))
  = should_continue_scraping_based_on_time MP now (mkDataFrame cols init).
Proof.
  intros H.
  unfold should_continue_scraping_based_on_time, valid_dates_df, has_column.
  simpl. rewrite filter_app. simpl. rewrite H, app_nil_r. reflexivity.
Qed.

Lemma filter_none {A} (f : A -> bool) l :
  (forall x, In x l -> f x = false) -> filter f l = [].
Proof.
  induction l as [|x l IH]; simpl; intros H; [reflexivity|].
  rewrite (H x (or_introl eq_refl)). apply IH. intros y Hy. apply H. now right.
Qed.

Lemma is_sentinel_not_valid s : is_sentinel s = true -> is_valid_date s = false.
Proof.
  unfold is_sentinel, is_valid_date. intros H.
  apply orb_prop in H as [H|H]; apply String.eqb_eq in H; subst s; reflexivity.
Qed.

(** C1, as the code has it.  In a frame that has the [DateTime] column, a
    batch of one row at least in which no row carries a valid date (every
    [DateTime] equals [DATE_NOT_FOUND] or contains [ERROR_DATE_PROCESSING])
    makes the stop condition answer [True]; and a last row without a valid
    date, after one row at least, is dropped by the filter, so that the
    answer is the one for the rows before it. *)
Theorem continue_without_valid_date :
  forall (MP : Z) (now : datetime) (cols : list string) (batch : list Article),
    has_column (mkDataFrame cols batch) "DateTime" = true ->
    batch <> [] ->
    ((forall a, In a batch -> is_valid_date (DateTime a) = false) ->
     should_continue_scraping_based_on_time MP now (mkDataFrame cols batch)
     = Ok true)
    /\
    (forall a, is_valid_date (DateTime a) = false ->
     should_continue_scraping_based_on_time MP now
       (mkDataFrame cols (batch ++ [a]))
     = should_continue_scraping_based_on_time MP now (mkDataFrame cols batch)).
Proof.
  intros MP now cols batch Hcol _. split.
  - intros Hall.
    unfold should_continue_scraping_based_on_time, valid_dates_df.
    rewrite Hcol. simpl rows.
    rewrite (filter_none _ batch Hall).
    rewrite frame_empty_rows by (apply (has_column_columns _ _ Hcol)).
    reflexivity.
  - intros a Ha. apply should_continue_skips_invalid. exact Ha.
Qed.

(** C3.  With [MONTHS_PERIOD = N > 0] and a last article whose [DateTime]
    is a valid instant [t], the stop condition answers [False] exactly when
    the month difference to now is at least [N], and [True] exactly when it
    is below [N]. *)
Theorem positive_period_stops_at_period :
  forall (N : Z) (now : datetime) (df : DataFrame)
         (init : list Article) (a : Article) (t : datetime),
    0 < N ->
    has_column df "DateTime" = true ->
    rows df = init ++ [a] ->
    fromisoformat (DateTime a) = Ok t ->
    (should_continue_scraping_based_on_time N now df = Ok false
     <-> N <= (year now - year t) * 12 + (month now - month t))
    /\
    (should_continue_scraping_based_on_time N now df = Ok true
     <-> (year now - year t) * 12 + (month now - month t) < N).
Proof.
  intros N now df init a t HN Hcol Hrows Ht.
  rewrite (should_continue_last_valid N now df init a Hcol Hrows
             (fromisoformat_is_valid_date _ _ Ht)).
  unfold decision. rewrite Ht. unfold diff_in_months. cbv zeta.
  replace (N =? 0) with false by (symmetry; apply Z.eqb_neq; lia).
  replace (0 <? N) with true by (symmetry; apply Z.ltb_lt; lia).
  cbn [andb].
  destruct (N <=? (year now - year t) * 12 + month now - month t) eqn:E.
  - apply Z.leb_le in E. split; split; intros H;
      try reflexivity; try discriminate; lia.
  - apply Z.leb_gt in E. split; split; intros H;
      try reflexivity; try discriminate; lia.
Qed.

Lemma valid_month t : valid t = true -> 1 <= month t <= 12.
Proof.
  unfold valid, check_date_fields. intros H.
  repeat (apply andb_prop in H as [H ?]).
  repeat match goal with
         | X : (_ <=? _) = true |- _ => apply Z.leb_le in X
         end.
  lia.
Qed.

(** C2, as the code has it.  With [MONTHS_PERIOD = 0] and a last article
    whose [DateTime] is a valid instant [t], the stop condition answers
    [False] exactly when [t] lies in a calendar month before the month of
    now, and [True] exactly when [t] lies in the month of now or in a later
    one. *)
Theorem zero_period_stops_before_current_month :
  forall (now : datetime) (df : DataFrame)
         (init : list Article) (a : Article) (t : datetime),
    valid now = true ->
    has_column df "DateTime" = true ->
    rows df = init ++ [a] ->
    fromisoformat (DateTime a) = Ok t ->
    (should_continue_scraping_based_on_time 0 now df = Ok false
     <-> earlier_month t now)
    /\
    (should_continue_scraping_based_on_time 0 now df = Ok true
     <-> ~ earlier_month t now).
Proof.
  intros now df init a t Hnow Hcol Hrows Ht.
  rewrite (should_continue_last_valid 0 now df init a Hcol Hrows
             (fromisoformat_is_valid_date _ _ Ht)).
  unfold decision. rewrite Ht. unfold diff_in_months, earlier_month. cbv zeta.
  pose proof (valid_month _ Hnow) as Hm.
  pose proof (valid_month _ (fromisoformat_valid _ _ Ht)) as Hmt.
  cbn [Z.eqb Z.ltb Z.compare andb].
  destruct (0 <? (year now - year t) * 12 + month now - month t) eqn:E.
  - apply Z.ltb_lt in E. split; split; intros H;
      try reflexivity; try discriminate; lia.
  - apply Z.ltb_ge in E. split; split; intros H;
      try reflexivity; try discriminate; lia.
Qed.

(* ================================================================== *)
(** ** The retry decorator *)

Section RetryPolicy.

Context {W E A : Type} (drv : Driver W E) (op : M W A).

Lemma retry_success_first st v st1 :
  op st = (Ok v, st1) -> retry drv op st = (Ok v, st1).
Proof. intros H. unfold retry. simpl. rewrite H. reflexivity. Qed.

Lemma retry_from_other_exception n k st e st1 :
  op st = (Raise e, st1) -> e <> ScrapingError ->
  retry_from drv n k op st = (Raise e, st1).
Proof.
  intros H He. destruct n; simpl; rewrite H;
    destruct e; try reflexivity; congruence.
Qed.

(** The decorator calls the operation three times at most: its outcome is
    that of the first call, or of the second after one [ScrapingError] and
    a sleep of 1, or of the third after two and a further sleep of 2. *)
Lemma retry_unfold st0 :
  retry drv op st0
  = match op st0 with
    | (Raise ScrapingError, st1) =>
        match op (after_sleep drv 1 st1) with
        | (Raise ScrapingError, st2) => op (after_sleep drv 2 st2)
        | second => second
        end
    | first => first
    end.
Proof.
  unfold retry. cbn [retry_from].
  destruct (op st0) as [[v|e] st1]; [reflexivity|].
  destruct e; try reflexivity. cbn [retry_if_ScrapingError exn_eqb].
  change (wait_exponential 1 10 1) with 1.
  change (do_sleep drv 1 st1) with (Ok tt, after_sleep drv 1 st1).
  cbv beta iota.
  destruct (op (after_sleep drv 1 st1)) as [[v|e] st2]; [reflexivity|].
  destruct e; try reflexivity. cbn [retry_if_ScrapingError exn_eqb].
  change (wait_exponential 1 10 (1 + 1)) with 2.
  change (do_sleep drv 2 st2) with (Ok tt, after_sleep drv 2 st2).
  cbv beta iota.
  destruct (op (after_sleep drv 2 st2)) as [[v|e] st3]; [reflexivity|].
  destruct e; reflexivity.
Qed.

(** C8.  An operation under the decorator that raises [ScrapingError] on
    its first two calls and succeeds on the third gives the value of the
    third call, the decorator having slept twice (1, then 2) in between;
    one that raises [ScrapingError] three times gives the third
    [ScrapingError], again after two sleeps and none after the last call;
    and any other exception leaves at once, from the state the first call
    ended in.  There are three calls at most. *)
Theorem retry_policy :
  forall st0 : State W,
    (forall st1 st2 st3 v,
        op st0 = (Raise ScrapingError, st1) ->
        op (after_sleep drv 1 st1) = (Raise ScrapingError, st2) ->
        op (after_sleep drv 2 st2) = (Ok v, st3) ->
        retry drv op st0 = (Ok v, st3)
        /\ (keeps_log op -> slept st3 = slept st0 ++ [1; 2]))
    /\
    (forall st1 st2 st3,
        op st0 = (Raise ScrapingError, st1) ->
        op (after_sleep drv 1 st1) = (Raise ScrapingError, st2) ->
        op (after_sleep drv 2 st2) = (Raise ScrapingError, st3) ->
        retry drv op st0 = (Raise ScrapingError, st3)
        /\ (keeps_log op -> slept st3 = slept st0 ++ [1; 2]))
    /\
    (forall e st1,
        op st0 = (Raise e, st1) -> e <> ScrapingError ->
        retry drv op st0 = (Raise e, st1))
    /\
    retry drv op st0
    = match op st0 with
      | (Raise ScrapingError, st1) =>
          match op (after_sleep drv 1 st1) with
          | (Raise ScrapingError, st2) => op (after_sleep drv 2 st2)
          | second => second
          end
      | first => first
      end.
Proof.
  intros st0. split; [|split; [|split]].
  - intros st1 st2 st3 v H1 H2 H3. split.
    + unfold retry. simpl. rewrite H1. simpl.
      change (wait_exponential 1 10 1) with 1.
      change (mkState _ _ _ _) with (after_sleep drv 1 st1) at 1.
      rewrite H2. simpl.
      change (wait_exponential 1 10 (1 + 1)) with 2.
      change (mkState _ _ _ _) with (after_sleep drv 2 st2) at 1.
      rewrite H3. reflexivity.
    + intros K. rewrite (K _ _ _ H3). simpl.
      rewrite (K _ _ _ H2). simpl. rewrite (K _ _ _ H1).
      rewrite <- app_assoc. reflexivity.
  - intros st1 st2 st3 H1 H2 H3. split.
    + unfold retry. simpl. rewrite H1. simpl.
      change (wait_exponential 1 10 1) with 1.
      change (mkState _ _ _ _) with (after_sleep drv 1 st1) at 1.
      rewrite H2. simpl.
      change (wait_exponential 1 10 (1 + 1)) with 2.
      change (mkState _ _ _ _) with (after_sleep drv 2 st2) at 1.
      rewrite H3. reflexivity.
    + intros K. rewrite (K _ _ _ H3). simpl.
      rewrite (K _ _ _ H2). simpl. rewrite (K _ _ _ H1).
      rewrite <- app_assoc. reflexivity.
  - intros e st1 H He. apply retry_from_other_exception; assumption.
  - apply retry_unfold.
Qed.

End RetryPolicy.

(* ================================================================== *)
(** ** The page loop *)

Section Flag.

Context {W E : Type} (drv : Driver W E).

Lemma keeps_flag_ret {A} (a : A) : keeps_flag (@ret W A a).
Proof. intros st r st' H. inversion H. reflexivity. Qed.

Lemma keeps_flag_raise {A} e : keeps_flag (@raise W A e).
Proof. intros st r st' H. inversion H. reflexivity. Qed.

Lemma keeps_flag_call {A} (op : W -> result A * W) : keeps_flag (call op).
Proof.
  intros st r st'. unfold call. destruct (op (world st)).
  intros H. inversion H. reflexivity.
Qed.

Lemma keeps_flag_set_browser b : keeps_flag (@set_browser W b).
Proof. intros st r st' H. inversion H. reflexivity. Qed.

Lemma keeps_flag_sleep d : keeps_flag (do_sleep drv d).
Proof. intros st r st' H. inversion H. reflexivity. Qed.

Lemma keeps_flag_bind {A B} (m : M W A) (k : A -> M W B) :
  keeps_flag m -> (forall a, keeps_flag (k a)) -> keeps_flag (bind m k).
Proof.
  intros Hm Hk st r st'. unfold bind.
  destruct (m st) as [[a|e] st1] eqn:Hrun; intros H.
  - rewrite (Hk a _ _ _ H). eapply Hm; eassumption.
  - inversion H; subst. eapply Hm; eassumption.
Qed.

Lemma keeps_flag_try {A} (m : M W A) (h : exn -> M W A) :
  keeps_flag m -> (forall e, keeps_flag (h e)) -> keeps_flag (try_except m h).
Proof.
  intros Hm Hh st r st'. unfold try_except.
  destruct (m st) as [[a|e] st1] eqn:Hrun; intros H.
  - inversion H; subst. eapply Hm; eassumption.
  - rewrite (Hh e _ _ _ H). eapply Hm; eassumption.
Qed.

Lemma keeps_flag_if {A} (b : bool) (m1 m2 : M W A) :
  keeps_flag m1 -> keeps_flag m2 -> keeps_flag (if b then m1 else m2).
Proof. destruct b; auto. Qed.

Lemma keeps_flag_for_each {A B} (f : A -> M W B) l :
  (forall a, keeps_flag (f a)) -> keeps_flag (for_each f l).
Proof.
  intros Hf. induction l as [|x l IH]; simpl.
  - apply keeps_flag_ret.
  - apply keeps_flag_bind; [apply Hf|]. intros y.
    apply keeps_flag_bind; [apply IH|]. intros ys. apply keeps_flag_ret.
Qed.

Lemma keeps_flag_retry_from {A} (op : M W A) n :
  keeps_flag op -> forall k, keeps_flag (retry_from drv n k op).
Proof.
  intros Hop. induction n as [|n IH]; intros k st r st'; simpl;
    destruct (op st) as [[a|e] st1] eqn:Hrun; intros H.
  - inversion H; subst. eapply Hop; eassumption.
  - destruct (retry_if_ScrapingError e); inversion H; subst;
      eapply Hop; eassumption.
  - inversion H; subst. eapply Hop; eassumption.
  - destruct (retry_if_ScrapingError e).
    + apply IH in H. rewrite H. simpl. eapply Hop; eassumption.
    + inversion H; subst. eapply Hop; eassumption.
Qed.

Lemma keeps_flag_retry {A} (op : M W A) :
  keeps_flag op -> keeps_flag (retry drv op).
Proof. intros H. apply keeps_flag_retry_from. exact H. Qed.

End Flag.

#[export] Hint Resolve keeps_flag_ret keeps_flag_raise keeps_flag_call
  keeps_flag_set_browser keeps_flag_sleep keeps_flag_bind keeps_flag_try
  keeps_flag_if keeps_flag_for_each keeps_flag_retry : flag.

Section PageLoop.

Context {W E : Type} (drv : Driver W E).
Variable OUTPUT_FOLDER : string.
Variable MONTHS_PERIOD : Z.
Variable BASE_URL : string.
Variable TIMEOUT_SECONDS : Z.
Variable CATEGORY_FILTER : string.

Local Abbreviation fetch := (fetch_results drv OUTPUT_FOLDER TIMEOUT_SECONDS).
Local Abbreviation navigate := (navigate_to_next_page drv).
Local Abbreviation should_continue st page :=
  (should_continue_scraping_based_on_time
     MONTHS_PERIOD (clock drv (world st)) page).
Local Abbreviation fetched :=
  (pages_fetched drv OUTPUT_FOLDER MONTHS_PERIOD TIMEOUT_SECONDS).
Local Abbreviation loop :=
  (scrape_loop drv OUTPUT_FOLDER MONTHS_PERIOD TIMEOUT_SECONDS).

Lemma close_popup_overlays_keeps_flag :
  keeps_flag (close_popup_overlays drv TIMEOUT_SECONDS).
Proof. unfold close_popup_overlays. auto 10 with flag. Qed.

Lemma navigate_keeps_flag : keeps_flag navigate.
Proof.
  unfold navigate_to_next_page, navigate_to_next_page_once.
  auto 10 with flag.
Qed.

Lemma launch_browser_keeps_flag :
  keeps_flag (launch_browser drv BASE_URL TIMEOUT_SECONDS).
Proof. unfold launch_browser, launch_browser_once. auto 10 with flag. Qed.

Lemma execute_search_keeps_flag query :
  keeps_flag (execute_search drv BASE_URL TIMEOUT_SECONDS query).
Proof.
  pose proof close_popup_overlays_keeps_flag.
  unfold execute_search, execute_search_once. auto 12 with flag.
Qed.

Lemma apply_filter_keeps_flag :
  keeps_flag (apply_filter drv TIMEOUT_SECONDS CATEGORY_FILTER).
Proof.
  pose proof close_popup_overlays_keeps_flag.
  unfold apply_filter, apply_filter_once, click_if_category.
  auto 14 with flag.
Qed.

Lemma loop_next_page fuel pc collected st page st1 st2 :
  scrape_continues st = true ->
  fetch st = (Ok page, st1) ->
  should_continue st1 page = Ok true ->
  navigate (with_flag true st1) = (Ok tt, st2) ->
  loop (S fuel) (pc, collected) st
  = loop fuel (pc + 1, concat collected page) st2.
Proof.
  intros Hflag Hfetch Hgo Hnav.
  cbn [scrape_loop]. rewrite Hflag. unfold scrape_page.
  rewrite Hfetch, Hgo. cbn [set_scrape_continues].
  change (mkState (world st1) (browser st1) true (slept st1))
    with (with_flag true st1).
  rewrite Hnav. reflexivity.
Qed.

Lemma loop_fetch_fails fuel pc collected st st1 :
  scrape_continues st = true ->
  fetch st = (Raise ScrapingError, st1) ->
  loop (S fuel) (pc, collected) st
  = Some (Ok collected, with_flag false st1).
Proof.
  intros Hflag Hfetch.
  cbn [scrape_loop]. rewrite Hflag. unfold scrape_page.
  rewrite Hfetch. cbn. destruct fuel; reflexivity.
Qed.

Lemma loop_navigate_fails fuel pc collected st page st1 st2 :
  scrape_continues st = true ->
  fetch st = (Ok page, st1) ->
  should_continue st1 page = Ok true ->
  navigate (with_flag true st1) = (Raise ScrapingError, st2) ->
  loop (S fuel) (pc, collected) st
  = Some (Ok (concat collected page), with_flag false st2).
Proof.
  intros Hflag Hfetch Hgo Hnav.
  cbn [scrape_loop]. rewrite Hflag. unfold scrape_page.
  rewrite Hfetch, Hgo. cbn [set_scrape_continues].
  change (mkState (world st1) (browser st1) true (slept st1))
    with (with_flag true st1).
  rewrite Hnav. cbn. destruct fuel; reflexivity.
Qed.

Lemma pages_fetched_flag st pages st' :
  fetched st pages st' ->
  scrape_continues st = true -> scrape_continues st' = true.
Proof.
  induction 1 as [|st page st1 st2 pages st3 Hf Hg Hn _ IH]; intros Hflag;
    [assumption|].
  apply IH. rewrite (navigate_keeps_flag _ _ _ Hn). reflexivity.
Qed.

(** The loop after a run of good pages: a [ScrapingError] of the next
    fetch, or of the move to the next page, ends it with the pages
    gathered so far. *)
Lemma loop_ends_on_page_failure st0 pages st :
  fetched st0 pages st ->
  forall pc collected fuel,
    scrape_continues st0 = true ->
    (List.length pages < fuel)%nat ->
    (forall st1,
        fetch st = (Raise ScrapingError, st1) ->
        loop fuel (pc, collected) st0
        = Some (Ok (fold_left concat pages collected), with_flag false st1))
    /\
    (forall page st1 st2,
        fetch st = (Ok page, st1) ->
        should_continue st1 page = Ok true ->
        navigate (with_flag true st1) = (Raise ScrapingError, st2) ->
        loop fuel (pc, collected) st0
        = Some (Ok (fold_left concat (pages ++ [page]) collected),
                with_flag false st2)).
Proof.
  induction 1 as [st|st page st1 st2 pages st3 Hf Hg Hn Hrest IH];
    intros pc collected fuel Hflag Hfuel.
  - destruct fuel as [|fuel]; [inversion Hfuel|]. split.
    + intros st1 H1. apply loop_fetch_fails; assumption.
    + intros page st1 st2 H1 H2 H3. simpl.
      eapply loop_navigate_fails; eassumption.
  - destruct fuel as [|fuel]; [inversion Hfuel|].
    simpl in Hfuel.
    rewrite (loop_next_page fuel pc collected st page st1 st2 Hflag Hf Hg Hn).
    assert (Hflag2 : scrape_continues st2 = true)
      by (rewrite (navigate_keeps_flag _ _ _ Hn); reflexivity).
    destruct (IH (pc + 1) (concat collected page) fuel Hflag2
                 ltac:(apply PeanoNat.lt_S_n; exact Hfuel)) as [IH1 IH2].
    split.
    + intros st4 H4. simpl. apply IH1. exact H4.
    + intros page' st4 st5 H4 H5 H6. simpl. eapply IH2; eassumption.
Qed.

Lemma retry_from_only_ScrapingError {A} (op : M W A) :
  (forall st e st', op st = (Raise e, st') -> e = ScrapingError) ->
  forall n k st e st',
    retry_from drv n k op st = (Raise e, st') -> e = ScrapingError.
Proof.
  intros Hop. induction n as [|n IH]; intros k st e st'; simpl;
    destruct (op st) as [[a|e0] st1] eqn:Hrun; intros H; try discriminate.
  - rewrite (Hop _ _ _ Hrun) in H. simpl in H. congruence.
  - rewrite (Hop _ _ _ Hrun) in H. simpl in H. eapply IH. exact H.
Qed.

Lemma apply_filter_raises st e st' :
  apply_filter drv TIMEOUT_SECONDS CATEGORY_FILTER st = (Raise e, st') ->
  e = ScrapingError.
Proof.
  unfold apply_filter, retry. apply retry_from_only_ScrapingError.
  clear. intros st e st'. unfold apply_filter_once, try_except.
  match goal with |- context [match ?m st with _ => _ end] =>
    destruct (m st) as [[a|e0] st1] end; intros H; inversion H; reflexivity.
Qed.

(** The guarded call of [apply_filter] in [start_scraping] never raises. *)
Lemma apply_filter_or_skip_ok st r st' :
  apply_filter_or_skip drv TIMEOUT_SECONDS CATEGORY_FILTER st = (r, st') ->
  r = Ok tt /\ scrape_continues st' = scrape_continues st.
Proof.
  unfold apply_filter_or_skip, try_except.
  destruct (apply_filter drv TIMEOUT_SECONDS CATEGORY_FILTER st)
    as [[[]|e] st1] eqn:Hrun.
  - intros H. inversion H; subst. split; [reflexivity|].
    eapply apply_filter_keeps_flag; eassumption.
  - rewrite (apply_filter_raises _ _ _ Hrun). intros H. inversion H; subst.
    split; [reflexivity|]. eapply apply_filter_keeps_flag; eassumption.
Qed.

(** The rows of the accumulated frame are the rows of the pages, in page
    order. *)
Lemma rows_fold_concat (pages : list DataFrame) : forall acc : DataFrame,
  rows (fold_left concat pages acc)
  = rows acc ++ List.concat (map rows pages).
Proof.
  induction pages as [|page pages IH]; intros acc; cbn [fold_left map List.concat].
  - rewrite app_nil_r. reflexivity.
  - rewrite IH. unfold concat. cbn [rows]. rewrite <- app_assoc.
    reflexivity.
Qed.

(** C9, as the code has it.  Once the browser is launched and the search
    done, let the loop fetch [pages], deciding each time to go on and
    reaching the next page.  If then the fetch of the following page raises
    [ScrapingError] (its three attempts used up), [start_scraping] returns
    the concatenation of [pages]; if that fetch gives one more page, the
    stop condition says continue and the move to the next page raises
    [ScrapingError], [start_scraping] returns the concatenation of [pages]
    and that page.  In both cases the rows of the frame returned are the
    rows of these pages, one page after the other, nothing is raised and
    [self.scrape_continues] ends false: all this provided that closing the
    browser raises nothing. *)
Theorem page_failure_returns_collected :
  forall (query : string) (st_init st_launched st_searched : State W)
         (pages : list DataFrame) (fuel : nat),
    scrape_continues st_init = true ->
    launch_browser drv BASE_URL TIMEOUT_SECONDS st_init = (Ok tt, st_launched) ->
    execute_search drv BASE_URL TIMEOUT_SECONDS query st_launched
    = (Ok tt, st_searched) ->
    (List.length pages < fuel)%nat ->
    forall (filtered : result unit) (st_filtered st : State W),
      apply_filter_or_skip drv TIMEOUT_SECONDS CATEGORY_FILTER st_searched
      = (filtered, st_filtered) ->
      fetched st_filtered pages st ->
      (forall st1,
          fetch st = (Raise ScrapingError, st1) ->
          fst (close_browser drv (world st1)) = Ok tt ->
          exists collected st_end,
            start_scraping drv OUTPUT_FOLDER MONTHS_PERIOD BASE_URL
              TIMEOUT_SECONDS CATEGORY_FILTER fuel query st_init
            = Some (Ok collected, st_end)
            /\ collected = fold_left concat pages empty_frame
            /\ rows collected = List.concat (map rows pages)
            /\ scrape_continues st_end = false)
      /\
      (forall page st1 st2,
          fetch st = (Ok page, st1) ->
          should_continue st1 page = Ok true ->
          navigate (with_flag true st1) = (Raise ScrapingError, st2) ->
          fst (close_browser drv (world st2)) = Ok tt ->
          exists collected st_end,
            start_scraping drv OUTPUT_FOLDER MONTHS_PERIOD BASE_URL
              TIMEOUT_SECONDS CATEGORY_FILTER fuel query st_init
            = Some (Ok collected, st_end)
            /\ collected = fold_left concat (pages ++ [page]) empty_frame
            /\ rows collected = List.concat (map rows pages) ++ rows page
            /\ scrape_continues st_end = false).
Proof.
  intros query st_init stA stB pages fuel Hflag Hlaunch Hsearch Hfuel
         filtered stC st Hrun Hpages.
  destruct (apply_filter_or_skip_ok _ _ _ Hrun) as [-> Hk].
  assert (HflagC : scrape_continues stC = true).
  { rewrite Hk, (execute_search_keeps_flag _ _ _ _ Hsearch),
            (launch_browser_keeps_flag _ _ _ Hlaunch). exact Hflag. }
  destruct (loop_ends_on_page_failure _ _ _ Hpages 1 empty_frame fuel
              HflagC Hfuel) as [Hfetch Hnav].
  assert (Hclose : forall r (stf : State W),
             fst (close_browser drv (world stf)) = Ok tt ->
             scrape_continues stf = false ->
             scrape_loop drv OUTPUT_FOLDER MONTHS_PERIOD TIMEOUT_SECONDS
               fuel (1, empty_frame) stC = Some (Ok r, stf) ->
             exists st_end,
               start_scraping drv OUTPUT_FOLDER MONTHS_PERIOD BASE_URL
                 TIMEOUT_SECONDS CATEGORY_FILTER fuel query st_init
               = Some (Ok r, st_end)
               /\ scrape_continues st_end = false).
  { intros r stf Hc Hf Hloop.
    unfold start_scraping, managed_browser, scraping_body.
    rewrite Hlaunch, Hsearch, Hrun, Hloop.
    destruct (browser stf); [|eauto].
    unfold call. destruct (close_browser drv (world stf)) as [rc w] eqn:Hcl.
    simpl in Hc. subst rc. eexists. split; [reflexivity|exact Hf]. }
  split.
  - intros st1 H1 Hc.
    destruct (Hclose (fold_left concat pages empty_frame)
                (with_flag false st1)) as (st_end & Hrun' & Hend); auto.
    exists (fold_left concat pages empty_frame), st_end.
    split; [exact Hrun'|]. split; [reflexivity|]. split; [|exact Hend].
    rewrite rows_fold_concat. reflexivity.
  - intros page st1 st2 H1 H2 H3 Hc.
    destruct (Hclose (fold_left concat (pages ++ [page]) empty_frame)
                (with_flag false st2)) as (st_end & Hrun' & Hend); eauto.
    exists (fold_left concat (pages ++ [page]) empty_frame), st_end.
    split; [exact Hrun'|]. split; [reflexivity|]. split; [|exact Hend].
    rewrite rows_fold_concat, map_app, concat_app. cbn [map List.concat rows empty_frame app].
    rewrite app_nil_r. reflexivity.
Qed.

End PageLoop.

(* ================================================================== *)
(** ** Extraction of one article and of a page *)

Section Extraction.

Context {W E : Type} (drv : Driver W E).
Variable OUTPUT_FOLDER : string.
Variable TIMEOUT_SECONDS : Z.

Local Abbreviation find_in article cls :=
  (call (element_find_element drv article cls)).
Local Abbreviation attribute_in e name :=
  (call (element_get_attribute drv e name)).
Local Abbreviation description_of := (extract_description drv).
Local Abbreviation image_of := (extract_image drv OUTPUT_FOLDER).
Local Abbreviation date_time_of := (extract_date_time drv).
Local Abbreviation article_of := (extract_article drv OUTPUT_FOLDER).
Local Abbreviation download := (download_image drv OUTPUT_FOLDER).

Lemma extract_description_total article st :
  exists d st', description_of article st = (Ok d, st').
Proof.
  unfold extract_description, try_except.
  match goal with |- context [match ?m st with _ => _ end] =>
    destruct (m st) as [[d|e] st1] end; cbv beta; unfold ret; eauto.
Qed.

Lemma extract_image_total article url st :
  exists i st', image_of article url st = (Ok i, st').
Proof.
  unfold extract_image, try_except.
  match goal with |- context [match ?m st with _ => _ end] =>
    destruct (m st) as [[d|e] st1] end; cbv beta; unfold ret; eauto.
Qed.

Lemma extract_date_time_total article st :
  exists d st', date_time_of article st = (Ok d, st').
Proof.
  unfold extract_date_time, try_except.
  destruct (timestamp_of drv article "Timestamp-template-now" st)
    as [[d|e] st1]; [eauto|].
  destruct (timestamp_of drv article "Timestamp-template" st1)
    as [[d|e'] st2]; cbv beta; unfold ret; eauto.
Qed.

(** With neither timestamp sub-element, the date is the text
    ['DateTime Not Available']. *)
Lemma extract_date_time_missing article st e1 st1 e2 st2 :
  find_in article "Timestamp-template-now" st = (Raise e1, st1) ->
  find_in article "Timestamp-template" st1 = (Raise e2, st2) ->
  date_time_of article st = (Ok "DateTime Not Available", st2).
Proof.
  intros H1 H2. unfold extract_date_time, try_except, timestamp_of, bind.
  rewrite H1, H2. reflexivity.
Qed.

Lemma extract_image_missing article url st e st1 :
  find_in article "Image" st = (Raise e, st1) ->
  image_of article url st = (Ok (Some "Image Not Available"), st1).
Proof.
  intros H. unfold extract_image, try_except, bind. rewrite H. reflexivity.
Qed.

(** [download_image] when the folder cannot be made: the error leaves. *)
Lemma download_image_mkdir_fails url src st e st1 :
  call (mkdir drv (img_folder OUTPUT_FOLDER)) st = (Raise e, st1) ->
  download url src st = (Raise e, st1).
Proof. intros H. unfold download_image, bind. rewrite H. reflexivity. Qed.

(** [download_image] when the request fails: [None]. *)
Lemma download_image_request_fails url src st st1 e st2 :
  call (mkdir drv (img_folder OUTPUT_FOLDER)) st = (Ok tt, st1) ->
  call (requests_get drv src) st1 = (Raise e, st2) ->
  is_RequestException_or_OSError e = true ->
  download url src st = (Ok None, st2).
Proof.
  intros H1 H2 He. unfold download_image, bind, try_except.
  rewrite H1, H2, He. reflexivity.
Qed.

(** [download_image] when the file cannot be written: [None]. *)
Lemma download_image_write_fails url src st st1 response st2 e st3 :
  call (mkdir drv (img_folder OUTPUT_FOLDER)) st = (Ok tt, st1) ->
  call (requests_get drv src) st1 = (Ok response, st2) ->
  (400 <=? status_code response) && (status_code response <? 600) = false ->
  call (write_file drv
          (img_folder OUTPUT_FOLDER ++ "/" ++ img_filename_of url)%string
          (content response)) st2 = (Raise e, st3) ->
  is_RequestException_or_OSError e = true ->
  download url src st = (Ok None, st3).
Proof.
  intros H1 H2 Hs H3 He.
  unfold download_image, bind, try_except, raise_for_status.
  rewrite H1, H2, Hs. unfold ret at 1. rewrite H3, He. reflexivity.
Qed.

Lemma extract_image_downloaded article url st img st1 src st2 r st3 :
  find_in article "Image" st = (Ok img, st1) ->
  attribute_in img "src" st1 = (Ok src, st2) ->
  download url src st2 = (r, st3) ->
  image_of article url st
  = (Ok match r with Ok i => i | Raise _ => Some "Image Not Available" end,
     st3).
Proof.
  intros H1 H2 H3. unfold extract_image, try_except, bind.
  rewrite H1, H2, H3. destruct r; reflexivity.
Qed.

(** Once the link, its [href] and the title attribute are read, the
    article is built: the three guarded lookups cannot raise. *)
Lemma extract_article_built article st link st1 href st2 region st3 :
  find_in article "Link" st = (Ok link, st1) ->
  attribute_in link "href" st1 = (Ok href, st2) ->
  attribute_in article "data-gtm-region" st2 = (Ok region, st3) ->
  exists description st4 image st5 date_time st6,
    description_of article st3 = (Ok description, st4)
    /\ image_of article (str href) st4 = (Ok image, st5)
    /\ date_time_of article st5 = (Ok date_time, st6)
    /\ article_of article st
       = (Ok (mkArticle (str href) (str region) description image date_time),
          st6).
Proof.
  intros H1 H2 H3.
  destruct (extract_description_total article st3) as (d & st4 & Hd).
  destruct (extract_image_total article (str href) st4) as (i & st5 & Hi).
  destruct (extract_date_time_total article st5) as (t & st6 & Ht).
  exists d, st4, i, st5, t, st6. repeat split; try assumption.
  unfold extract_article, bind. rewrite H1, H2, H3, Hd, Hi, Ht. reflexivity.
Qed.

(** Without its link sub-element, an article raises out of the loop body. *)
Lemma extract_article_no_link article st e st1 :
  find_in article "Link" st = (Raise e, st1) ->
  article_of article st = (Raise e, st1).
Proof. intros H. unfold extract_article, bind. rewrite H. reflexivity. Qed.

Lemma for_each_raises {A B} (f : A -> M W B) pre x post st done st1 e st2 :
  for_each f pre st = (Ok done, st1) ->
  f x st1 = (Raise e, st2) ->
  for_each f (pre ++ x :: post) st = (Raise e, st2).
Proof.
  revert st done. induction pre as [|y pre IH]; simpl; intros st done H1 H2.
  - inversion H1; subst. unfold bind. rewrite H2. reflexivity.
  - unfold bind in *. destruct (f y st) as [[b|e0] st3]; [|discriminate].
    destruct (for_each f pre st3) as [[bs|e0] st4] eqn:Hpre; [|discriminate].
    inversion H1; subst. rewrite (IH _ _ Hpre H2). reflexivity.
Qed.

(** Whatever goes wrong in one attempt of [fetch_results] leaves it as
    [ScrapingError]. *)
Lemma fetch_results_once_raises st e st1 :
  fetch_results_once drv OUTPUT_FOLDER TIMEOUT_SECONDS st = (Raise e, st1) ->
  e = ScrapingError.
Proof.
  unfold fetch_results_once, try_except.
  match goal with |- context [match ?m st with _ => _ end] =>
    destruct (m st) as [[d|e0] st2] end; intros H; inversion H; reflexivity.
Qed.

(** C5, as the code has it.  The link and the title are read outside any
    guard.  When the link sub-element is found, whatever its [href] holds
    (a missing attribute gives the text ['None']), and the title attribute
    is read, the article is built, since no lookup of the description, the
    image or the date can raise.  When the link sub-element of one card
    cannot be found, the attempt of [fetch_results] as a whole raises
    [ScrapingError]: the articles already built for that page are not
    returned. *)
Theorem missing_link_fails_the_fetch :
  forall article : E,
    (forall st link st1 href st2 region st3,
        find_in article "Link" st = (Ok link, st1) ->
        attribute_in link "href" st1 = (Ok href, st2) ->
        attribute_in article "data-gtm-region" st2 = (Ok region, st3) ->
        exists description image date_time st',
          article_of article st
          = (Ok (mkArticle (str href) (str region) description image date_time),
             st'))
    /\
    (forall st pre post st1 done st2 e st3,
        locate_articles drv TIMEOUT_SECONDS st
        = (Ok (pre ++ article :: post), st1) ->
        for_each article_of pre st1 = (Ok done, st2) ->
        find_in article "Link" st2 = (Raise e, st3) ->
        fetch_results_once drv OUTPUT_FOLDER TIMEOUT_SECONDS st
        = (Raise ScrapingError, st3)).
Proof.
  intros article. split.
  - intros st link st1 href st2 region st3 H1 H2 H3.
    destruct (extract_article_built article _ _ _ _ _ _ _ H1 H2 H3)
      as (d & st4 & i & st5 & t & st6 & _ & _ & _ & H).
    exists d, i, t, st6. exact H.
  - intros st pre post st1 done st2 e st3 Hloc Hpre Hlink.
    unfold fetch_results_once, try_except, bind. rewrite Hloc.
    rewrite (for_each_raises _ pre article post st1 done st2 e st3 Hpre
               (extract_article_no_link _ _ _ _ Hlink)).
    reflexivity.
Qed.

(** C6, as the code has it.  A card without image sub-element, and a
    failure to make the image folder, give the article the text
    ['Image Not Available']; a request that fails and a file that cannot
    be written give it [None], the answer of [download_image].  In each
    case the article is built with its other fields, once its link and
    title are read. *)
Theorem image_field_on_failure :
  forall (article : E) (url : string) (st : State W),
    (forall e st1,
        find_in article "Image" st = (Raise e, st1) ->
        image_of article url st = (Ok (Some "Image Not Available"), st1))
    /\
    (forall img st1 src st2 e st3,
        find_in article "Image" st = (Ok img, st1) ->
        attribute_in img "src" st1 = (Ok src, st2) ->
        call (mkdir drv (img_folder OUTPUT_FOLDER)) st2 = (Raise e, st3) ->
        image_of article url st = (Ok (Some "Image Not Available"), st3))
    /\
    (forall img st1 src st2 st3 e st4,
        find_in article "Image" st = (Ok img, st1) ->
        attribute_in img "src" st1 = (Ok src, st2) ->
        call (mkdir drv (img_folder OUTPUT_FOLDER)) st2 = (Ok tt, st3) ->
        call (requests_get drv src) st3 = (Raise e, st4) ->
        is_RequestException_or_OSError e = true ->
        image_of article url st = (Ok None, st4))
    /\
    (forall img st1 src st2 st3 response st4 e st5,
        find_in article "Image" st = (Ok img, st1) ->
        attribute_in img "src" st1 = (Ok src, st2) ->
        call (mkdir drv (img_folder OUTPUT_FOLDER)) st2 = (Ok tt, st3) ->
        call (requests_get drv src) st3 = (Ok response, st4) ->
        (400 <=? status_code response) && (status_code response <? 600) = false ->
        call (write_file drv
                (img_folder OUTPUT_FOLDER ++ "/" ++ img_filename_of url)%string
                (content response)) st4 = (Raise e, st5) ->
        is_RequestException_or_OSError e = true ->
        image_of article url st = (Ok None, st5))
    /\
    (forall st0 link st1 href st2 region st3,
        find_in article "Link" st0 = (Ok link, st1) ->
        attribute_in link "href" st1 = (Ok href, st2) ->
        attribute_in article "data-gtm-region" st2 = (Ok region, st3) ->
        exists description st4 image st5 date_time st6,
          description_of article st3 = (Ok description, st4)
          /\ image_of article (str href) st4 = (Ok image, st5)
          /\ date_time_of article st5 = (Ok date_time, st6)
          /\ article_of article st0
             = (Ok (mkArticle (str href) (str region) description image
                              date_time), st6)).
Proof.
  intros article url st. repeat split.
  - intros e st1 H. apply extract_image_missing with (e := e). exact H.
  - intros img st1 src st2 e st3 H1 H2 H3.
    rewrite (extract_image_downloaded article url st img st1 src st2
               (Raise e) st3 H1 H2
               (download_image_mkdir_fails url src st2 e st3 H3)).
    reflexivity.
  - intros img st1 src st2 st3 e st4 H1 H2 H3 H4 He.
    rewrite (extract_image_downloaded article url st img st1 src st2
               (Ok None) st4 H1 H2
               (download_image_request_fails url src st2 st3 e st4 H3 H4 He)).
    reflexivity.
  - intros img st1 src st2 st3 response st4 e st5 H1 H2 H3 H4 Hs H5 He.
    rewrite (extract_image_downloaded article url st img st1 src st2
               (Ok None) st5 H1 H2
               (download_image_write_fails url src st2 st3 response st4 e st5
                  H3 H4 Hs H5 He)).
    reflexivity.
  - intros st0 link st1 href st2 region st3 H1 H2 H3.
    apply (extract_article_built article _ _ _ _ _ _ _ H1 H2 H3).
Qed.

End Extraction.

(* ================================================================== *)
(** ** The text written for a card without timestamp *)

Lemma is_valid_date_false s :
  is_valid_date s = false
  <-> s = DATE_NOT_FOUND \/ Text.contains ERROR_DATE_PROCESSING s = true.
Proof.
  unfold is_valid_date. split.
  - intros H. apply andb_false_iff in H as [H|H];
      apply negb_false_iff in H; [left; apply String.eqb_eq|right]; exact H.
  - intros [->|H]; [reflexivity|]. rewrite H. apply andb_false_r.
Qed.

(** C10.  The date filter of the stop condition removes exactly the rows
    whose [DateTime] equals [DATE_NOT_FOUND] or contains
    [ERROR_DATE_PROCESSING]; a card with neither timestamp sub-element gets
    the text ['DateTime Not Available']; so a batch whose last row carries
    that text keeps the row through the filter, takes it as the decision
    row, fails to read it as an ISO date with [ValueError], and answers
    [True] from the handler of that error. *)
Theorem not_available_reaches_the_parser :
  (forall s,
      is_valid_date s = false
      <-> s = DATE_NOT_FOUND \/ Text.contains ERROR_DATE_PROCESSING s = true)
  /\
  (forall (W E : Type) (drv : Driver W E) (article : E) st e1 st1 e2 st2,
      call (element_find_element drv article "Timestamp-template-now") st
      = (Raise e1, st1) ->
      call (element_find_element drv article "Timestamp-template") st1
      = (Raise e2, st2) ->
      extract_date_time drv article st = (Ok "DateTime Not Available", st2))
  /\
  (forall (MP : Z) (now : datetime) (df : DataFrame) init a,
      has_column df "DateTime" = true ->
      rows df = init ++ [a] ->
      DateTime a = "DateTime Not Available" ->
      is_valid_date (DateTime a) = true
      /\ (exists kept,
             valid_dates_df df = Ok kept
             /\ frame_empty kept = false
             /\ iloc_last_DateTime kept = Ok "DateTime Not Available")
      /\ fromisoformat (DateTime a) = Raise ValueError
      /\ should_continue_scraping_based_on_time MP now df = Ok true).
Proof.
  split; [exact is_valid_date_false|]. split.
  - intros W E drv article st e1 st1 e2 st2 H1 H2.
    apply extract_date_time_missing with (e1 := e1) (st1 := st1) (e2 := e2);
      assumption.
  - intros MP now df init a Hcol Hrows Ha.
    assert (Hv : is_valid_date (DateTime a) = true) by (rewrite Ha; reflexivity).
    split; [exact Hv|]. split; [|split].
    + unfold valid_dates_df. rewrite Hcol, Hrows, filter_app.
      simpl filter. rewrite Hv. eexists. split; [reflexivity|]. split.
      * rewrite frame_empty_rows by (eapply has_column_columns; eassumption).
        destruct (filter _ init); reflexivity.
      * unfold iloc_last_DateTime. simpl rows. rewrite rev_app_distr.
        simpl. rewrite Ha. reflexivity.
    + rewrite Ha. reflexivity.
    + rewrite (should_continue_last_valid MP now df init a Hcol Hrows Hv).
      unfold decision. rewrite Ha. reflexivity.
Qed.

(* ================================================================== *)
(** ** Calendar arithmetic *)

Section CalendarFacts.

Lemma days_before_year_split a b c e :
  0 <= a -> 0 <= b <= 3 -> 0 <= c <= 24 -> 0 <= e <= 3 ->
  days_before_year (400 * a + 100 * b + 4 * c + e + 1)
  = DI400Y * a + DI100Y * b + DI4Y * c + 365 * e.
Proof.
  intros Ha Hb Hc He. unfold days_before_year, DI400Y, DI100Y, DI4Y.
  cbv zeta.
  replace (400 * a + 100 * b + 4 * c + e + 1 - 1)
    with (400 * a + 100 * b + 4 * c + e) by lia.
  assert (H4 : (400 * a + 100 * b + 4 * c + e) / 4 = 100 * a + 25 * b + c)
    by (symmetry; apply Z.div_unique with e; lia).
  assert (H100 : (400 * a + 100 * b + 4 * c + e) / 100 = 4 * a + b)
    by (symmetry; apply Z.div_unique with (4 * c + e); lia).
  assert (H400 : (400 * a + 100 * b + 4 * c + e) / 400 = a)
    by (symmetry; apply Z.div_unique with (100 * b + 4 * c + e); lia).
  rewrite H4, H100, H400. lia.
Qed.

Lemma mod_zero_test y k q r :
  0 < k -> y = k * q + r -> 0 < r <= k -> (y mod k =? 0) = (r =? k).
Proof.
  intros Hk Hy Hr. destruct (r =? k) eqn:Hrk.
  - apply Z.eqb_eq in Hrk. subst r. apply Z.eqb_eq.
    symmetry. apply Z.mod_unique with (q + 1); lia.
  - apply Z.eqb_neq in Hrk. apply Z.eqb_neq.
    rewrite <- (Z.mod_unique y k q r); lia.
Qed.

Lemma is_leap_split a b c e :
  0 <= a -> 0 <= b <= 3 -> 0 <= c <= 24 -> 0 <= e <= 3 ->
  is_leap (400 * a + 100 * b + 4 * c + e + 1)
  = (e =? 3) && (negb (c =? 24) || (b =? 3)).
Proof.
  intros Ha Hb Hc He. unfold is_leap.
  rewrite (mod_zero_test _ 4 (100 * a + 25 * b + c) (e + 1)) by lia.
  rewrite (mod_zero_test _ 100 (4 * a + b) (4 * c + e + 1)) by lia.
  rewrite (mod_zero_test _ 400 a (100 * b + 4 * c + e + 1)) by lia.
  destruct (e =? 3) eqn:E3; destruct (c =? 24) eqn:E24;
    destruct (b =? 3) eqn:Eb;
    rewrite ?Z.eqb_eq, ?Z.eqb_neq in *; subst; cbn [andb orb negb];
    repeat match goal with
      | |- context [?x =? ?y] =>
          let H := fresh in
          destruct (x =? y) eqn:H; rewrite ?Z.eqb_eq, ?Z.eqb_neq in H
      end; cbn [andb orb negb]; try reflexivity; exfalso; lia.
Qed.

Lemma month_day_of_spec n (leapyear : bool) m0 d0 :
  0 <= n < 365 + (if leapyear then 1 else 0) ->
  month_day_of n leapyear = (m0, d0) ->
  1 <= m0 <= 12 /\ 1 <= d0 <= month_length m0 leapyear
  /\ month_start m0 leapyear + d0 = n + 1.
Proof.
  intros Hn. unfold month_day_of, month_length, month_start.
  rewrite Z.shiftr_div_pow2 by lia. change (2 ^ 5) with 32.
  pose proof (Z.div_mod (n + 50) 32 ltac:(lia)) as Hd.
  pose proof (Z.mod_pos_bound (n + 50) 32 ltac:(lia)) as Hm.
  set (m := (n + 50) / 32) in *. clearbody m.
  assert (Hcases : m = 1 \/ m = 2 \/ m = 3 \/ m = 4 \/ m = 5 \/ m = 6 \/
                   m = 7 \/ m = 8 \/ m = 9 \/ m = 10 \/ m = 11 \/ m = 12 \/
                   m = 13)
    by (destruct leapyear; lia).
  destruct leapyear;
    repeat (destruct Hcases as [->|Hcases]); try subst m;
    cbn [DAYS_BEFORE_MONTH DAYS_IN_MONTH Z.ltb Z.eqb Z.compare Pos.compare
         Pos.compare_cont Pos.eqb andb Z.sub Z.add Z.pos_sub Z.opp
         Z.succ_double Z.pred_double Z.double Pos.pred_double Pos.add
         Pos.succ Pos.add_carry];
    match goal with
    | |- context [n <? ?k] => destruct (Z.ltb_spec n k)
    end; intros Hmd; inversion Hmd; subst m0 d0;
    cbn [DAYS_BEFORE_MONTH DAYS_IN_MONTH Z.ltb Z.eqb Z.compare
         Pos.compare Pos.compare_cont Pos.eqb andb]; lia.
Qed.

Lemma days_in_month_length y m :
  1 <= m <= 12 -> days_in_month y m = month_length m (is_leap y).
Proof.
  intros Hm. unfold days_in_month, month_length.
  destruct (m =? 2) eqn:E2; [apply Z.eqb_eq in E2; subst m|];
    destruct (is_leap y); cbn [andb DAYS_IN_MONTH]; lia.
Qed.

Lemma ymd2ord_month_start y m d :
  ymd2ord y m d = days_before_year y + month_start m (is_leap y) + d.
Proof. reflexivity. Qed.

Lemma check_date_fields_intro y m d :
  1 <= y <= 9999 -> 1 <= m <= 12 -> 1 <= d <= days_in_month y m ->
  check_date_fields y m d = true.
Proof.
  intros Hy Hm Hd. unfold check_date_fields, MINYEAR, MAXYEAR.
  repeat (apply andb_true_intro; split); apply Z.leb_le; lia.
Qed.

Lemma check_date_fields_elim y m d :
  check_date_fields y m d = true ->
  1 <= y <= 9999 /\ 1 <= m <= 12 /\ 1 <= d <= days_in_month y m.
Proof.
  unfold check_date_fields, MINYEAR, MAXYEAR. intros H.
  repeat (apply andb_prop in H as [H ?]).
  repeat match goal with
         | X : (_ <=? _) = true |- _ => apply Z.leb_le in X
         end.
  lia.
Qed.

(** [_ord2ymd] answers a date of the calendar, and [_ymd2ord] takes it
    back to the ordinal. *)
Lemma ord2ymd_spec n y m d :
  1 <= n <= MAXORDINAL ->
  ord2ymd n = (y, m, d) ->
  check_date_fields y m d = true /\ ymd2ord y m d = n.
Proof.
  unfold MAXORDINAL. intros Hn. unfold ord2ymd. cbv zeta.
  pose proof (Z.div_mod (n - 1) DI400Y ltac:(discriminate)) as D1.
  pose proof (Z.mod_pos_bound (n - 1) DI400Y ltac:(reflexivity)) as B1.
  set (a := (n - 1) / DI400Y) in *. set (r1 := (n - 1) mod DI400Y) in *.
  pose proof (Z.div_mod r1 DI100Y ltac:(discriminate)) as D2.
  pose proof (Z.mod_pos_bound r1 DI100Y ltac:(reflexivity)) as B2.
  set (b := r1 / DI100Y) in *. set (r2 := r1 mod DI100Y) in *.
  pose proof (Z.div_mod r2 DI4Y ltac:(discriminate)) as D3.
  pose proof (Z.mod_pos_bound r2 DI4Y ltac:(reflexivity)) as B3.
  set (c := r2 / DI4Y) in *. set (r3 := r2 mod DI4Y) in *.
  pose proof (Z.div_mod r3 365 ltac:(discriminate)) as D4.
  pose proof (Z.mod_pos_bound r3 365 ltac:(reflexivity)) as B4.
  set (e := r3 / 365) in *. set (r4 := r3 mod 365) in *.
  clearbody a r1 b r2 c r3 e r4. unfold DI400Y, DI100Y, DI4Y in *.
  assert (Ha : 0 <= a <= 24) by lia.
  assert (Hb : 0 <= b <= 4) by lia.
  assert (Hc : 0 <= c <= 24) by lia.
  assert (He : 0 <= e <= 4) by lia.
  destruct (b =? 4) eqn:Eb; [apply Z.eqb_eq in Eb|apply Z.eqb_neq in Eb].
  - rewrite orb_true_r. intros H. inversion H; subst y m d. clear H.
    assert (r2 = 0 /\ c = 0 /\ r3 = 0 /\ e = 0 /\ r4 = 0) as (-> & -> & -> & -> & ->)
      by lia.
    subst b.
    replace (a * 400 + 1 + 4 * 100 + 0 * 4 + 0 - 1)
      with (400 * a + 100 * 3 + 4 * 24 + 3 + 1) by lia.
    pose proof (days_before_year_split a 3 24 3 ltac:(lia) ltac:(lia)
                  ltac:(lia) ltac:(lia)) as Hdby.
    pose proof (is_leap_split a 3 24 3 ltac:(lia) ltac:(lia)
                  ltac:(lia) ltac:(lia)) as Hleap.
    cbn [Z.eqb Pos.eqb andb orb negb] in Hleap.
    unfold DI400Y, DI100Y, DI4Y in Hdby. split.
    + apply check_date_fields_intro; try lia.
      rewrite days_in_month_length by lia. rewrite Hleap. cbn. lia.
    + rewrite ymd2ord_month_start, Hdby, Hleap.
        change (month_start 12 true) with 335. lia.
  - rewrite orb_false_r.
    destruct (e =? 4) eqn:Ee; [apply Z.eqb_eq in Ee|apply Z.eqb_neq in Ee].
    + intros H. inversion H; subst y m d. clear H. subst e.
      assert (r4 = 0) as -> by lia. assert (Hc' : c <= 23) by lia.
      replace (a * 400 + 1 + b * 100 + c * 4 + 4 - 1)
        with (400 * a + 100 * b + 4 * c + 3 + 1) by lia.
      pose proof (days_before_year_split a b c 3 ltac:(lia) ltac:(lia)
                    ltac:(lia) ltac:(lia)) as Hdby.
      pose proof (is_leap_split a b c 3 ltac:(lia) ltac:(lia)
                    ltac:(lia) ltac:(lia)) as Hleap.
      replace (c =? 24) with false in Hleap
        by (symmetry; apply Z.eqb_neq; lia).
      cbn [Z.eqb Pos.eqb andb orb negb] in Hleap.
      unfold DI400Y, DI100Y, DI4Y in Hdby. split.
      * apply check_date_fields_intro; try lia.
        rewrite days_in_month_length by lia. rewrite Hleap. cbn. lia.
      * rewrite ymd2ord_month_start, Hdby, Hleap.
        change (month_start 12 true) with 335. lia.
    + destruct (month_day_of r4 ((e =? 3) && (negb (c =? 24) || (b =? 3))))
        as [m0 d0] eqn:Hmd.
      intros H. inversion H; subst y m d. clear H.
      replace (a * 400 + 1 + b * 100 + c * 4 + e)
        with (400 * a + 100 * b + 4 * c + e + 1) by lia.
      pose proof (days_before_year_split a b c e ltac:(lia) ltac:(lia)
                    ltac:(lia) ltac:(lia)) as Hdby.
      pose proof (is_leap_split a b c e ltac:(lia) ltac:(lia)
                    ltac:(lia) ltac:(lia)) as Hleap.
      rewrite <- Hleap in Hmd.
      apply month_day_of_spec in Hmd;
        [|destruct (is_leap _); lia].
      destruct Hmd as (Hm & Hd & Hsum).
      unfold DI400Y, DI100Y, DI4Y in Hdby. split.
      * apply check_date_fields_intro; try lia.
        rewrite days_in_month_length by lia. exact Hd.
      * rewrite ymd2ord_month_start, Hdby. lia.
Qed.

Lemma year_split y :
  1 <= y ->
  exists a b c e,
    y = 400 * a + 100 * b + 4 * c + e + 1
    /\ 0 <= a /\ 0 <= b <= 3 /\ 0 <= c <= 24 /\ 0 <= e <= 3.
Proof.
  intros Hy.
  exists ((y - 1) / 400), (((y - 1) mod 400) / 100),
         (((y - 1) mod 100) / 4), ((y - 1) mod 4).
  Z.div_mod_to_equations. lia.
Qed.

Lemma month_end_bound m (leapyear : bool) d :
  1 <= m <= 12 -> 1 <= d <= month_length m leapyear ->
  1 <= month_start m leapyear + d <= 365 + (if leapyear then 1 else 0).
Proof.
  intros Hm Hd.
  assert (Hcases : m = 1 \/ m = 2 \/ m = 3 \/ m = 4 \/ m = 5 \/ m = 6 \/
                   m = 7 \/ m = 8 \/ m = 9 \/ m = 10 \/ m = 11 \/ m = 12)
    by lia.
  unfold month_length, month_start in *.
  destruct leapyear;
    repeat (destruct Hcases as [->|Hcases]); try subst m;
    cbn [DAYS_BEFORE_MONTH DAYS_IN_MONTH Z.ltb Z.eqb Z.compare Pos.compare
         Pos.compare_cont Pos.eqb andb] in *; lia.
Qed.

(** The ordinal of a valid date lies in [1, MAXORDINAL], and from year
    1000 on it is well above the first days. *)
Lemma toordinal_bounds t :
  valid t = true ->
  1 <= toordinal t <= MAXORDINAL
  /\ (1000 <= year t -> 364000 <= toordinal t).
Proof.
  unfold valid, toordinal, MAXORDINAL. intros H.
  apply andb_prop in H as [H _].
  apply check_date_fields_elim in H as (Hy & Hm & Hd).
  rewrite days_in_month_length in Hd by assumption.
  rewrite ymd2ord_month_start.
  pose proof (month_end_bound _ _ _ Hm Hd) as Hmd.
  destruct (year_split (year t) ltac:(lia)) as (a & b & c & e & Hsplit & Ha & Hb & Hc & He).
  rewrite Hsplit in *.
  rewrite days_before_year_split by assumption.
  pose proof (is_leap_split a b c e Ha Hb Hc He) as Hleap.
  set (leap := is_leap _) in *. clearbody leap.
  unfold DI400Y, DI100Y, DI4Y.
  destruct (Z.eqb_spec e 3); destruct (Z.eqb_spec c 24);
    destruct (Z.eqb_spec b 3); cbn [andb orb negb] in Hleap; subst leap; lia.
Qed.

End CalendarFacts.

(* ================================================================== *)
(** ** [parse_date] *)

Section ParseDate.

Lemma check_time_fields_elim h mi s us :
  check_time_fields h mi s us = true ->
  0 <= h <= 23 /\ 0 <= mi <= 59 /\ 0 <= s <= 59 /\ 0 <= us <= 999999.
Proof.
  unfold check_time_fields. intros H.
  repeat (apply andb_prop in H as [H ?]).
  repeat match goal with
         | X : (_ <=? _) = true |- _ => apply Z.leb_le in X
         end.
  lia.
Qed.

Lemma check_time_fields_intro h mi s us :
  0 <= h <= 23 -> 0 <= mi <= 59 -> 0 <= s <= 59 -> 0 <= us <= 999999 ->
  check_time_fields h mi s us = true.
Proof.
  intros. unfold check_time_fields.
  repeat (apply andb_true_intro; split); apply Z.leb_le; lia.
Qed.

(** Subtracting up to two days from an instant of year 1000 or later
    gives a valid instant, earlier by just that much. *)
Lemma sub_spec now dd ds :
  valid now = true -> 1000 <= year now ->
  0 <= dd <= 1 -> 0 <= ds < 86400 ->
  exists t,
    sub now (mktimedelta dd ds) = Ok t
    /\ valid t = true
    /\ seconds_stamp t = seconds_stamp now - (dd * 86400 + ds).
Proof.
  intros Hvalid Hyear Hdd Hds.
  destruct (toordinal_bounds now Hvalid) as [Hord Hlow].
  specialize (Hlow Hyear). unfold MAXORDINAL in Hord.
  pose proof Hvalid as Htime. unfold valid in Htime.
  apply andb_prop in Htime as [_ Htime].
  apply check_time_fields_elim in Htime as (Hh & Hmi & Hs & Hus).
  unfold sub. cbn [td_days td_seconds].
  set (total := (toordinal now - dd) * 86400
                + (hour now * 3600 + minute now * 60 + second now) - ds).
  pose proof (Z.div_mod total 86400 ltac:(discriminate)) as Hdm.
  pose proof (Z.mod_pos_bound total 86400 ltac:(reflexivity)) as Hmb.
  set (days := total / 86400) in *. set (secs := total mod 86400) in *.
  assert (Hdays : 1 <= days <= 3652059) by (unfold total in Hdm; lia).
  replace (0 <? days) with true by (symmetry; apply Z.ltb_lt; lia).
  replace (days <=? MAXORDINAL) with true
    by (symmetry; apply Z.leb_le; unfold MAXORDINAL; lia).
  cbn [andb].
  destruct (ord2ymd days) as [[y m] d] eqn:Hymd.
  destruct (ord2ymd_spec days y m d ltac:(unfold MAXORDINAL; lia) Hymd)
    as [Hcheck Hback].
  eexists. split; [reflexivity|].
  pose proof (Z.div_mod secs 3600 ltac:(discriminate)) as H1.
  pose proof (Z.mod_pos_bound secs 3600 ltac:(reflexivity)) as H2.
  pose proof (Z.div_mod (secs mod 3600) 60 ltac:(discriminate)) as H3.
  pose proof (Z.mod_pos_bound (secs mod 3600) 60 ltac:(reflexivity)) as H4.
  assert (H5 : secs mod 60 = (secs mod 3600) mod 60).
  { symmetry. apply Z.mod_mod_divide. exists 60. reflexivity. }
  split.
  - unfold valid. cbn [year month day hour minute second microsecond].
    rewrite Hcheck. cbn [andb].
    pose proof (Z.mod_pos_bound secs 60 ltac:(reflexivity)).
    apply check_time_fields_intro; lia.
  - unfold seconds_stamp, toordinal.
    cbn [year month day hour minute second microsecond].
    rewrite Hback. fold (toordinal now). unfold total in Hdm. lia.
Qed.

Lemma minute_stamp_of_seconds t :
  valid t = true -> minute_stamp t = seconds_stamp t / 60.
Proof.
  intros H. unfold valid in H. apply andb_prop in H as [_ H].
  apply check_time_fields_elim in H as (Hh & Hmi & Hs & Hus).
  unfold minute_stamp, seconds_stamp.
  apply Z.div_unique with (second t); lia.
Qed.

(** [ago] for a whole number of minutes, up to two days of them. *)
Lemma ago_spec now d h mi :
  valid now = true -> 1000 <= year now ->
  0 <= d -> 0 <= h -> 0 <= mi -> d * 1440 + h * 60 + mi < 2880 ->
  exists t,
    ago now d h mi = Ok (isoformat_minutes t)
    /\ valid t = true
    /\ minute_stamp t = minute_stamp now - (d * 1440 + h * 60 + mi).
Proof.
  intros Hvalid Hyear Hd Hh Hmi Hsmall.
  unfold ago, make_timedelta.
  set (total := d * 86400 + h * 3600 + mi * 60).
  pose proof (Z.div_mod total 86400 ltac:(discriminate)) as Hdm.
  pose proof (Z.mod_pos_bound total 86400 ltac:(reflexivity)) as Hmb.
  assert (Hq : 0 <= total / 86400 <= 1) by (unfold total in *; lia).
  replace (Z.abs (total / 86400) <=? 999999999) with true
    by (symmetry; apply Z.leb_le; lia).
  destruct (sub_spec now (total / 86400) (total mod 86400)
              Hvalid Hyear Hq Hmb) as (t & Hsub & Hvt & Hstamp).
  rewrite Hsub. exists t. split; [reflexivity|]. split; [exact Hvt|].
  rewrite (minute_stamp_of_seconds t Hvt), Hstamp.
  rewrite (minute_stamp_of_seconds now Hvalid).
  replace (total / 86400 * 86400 + total mod 86400) with total by lia.
  unfold total.
  replace (seconds_stamp now - (d * 86400 + h * 3600 + mi * 60))
    with (seconds_stamp now + (- (d * 1440 + h * 60 + mi)) * 60) by lia.
  rewrite Z.div_add by discriminate. lia.
Qed.

Lemma nat_of_digit_char d :
  nat_of_ascii (Text.digit_char d) = Z.to_nat (48 + d mod 10).
Proof.
  unfold Text.digit_char. apply nat_ascii_embedding.
  pose proof (Z.mod_pos_bound d 10 ltac:(reflexivity)). lia.
Qed.

Lemma is_digit_digit_char d : Text.is_digit (Text.digit_char d) = true.
Proof.
  unfold Text.is_digit. rewrite nat_of_digit_char.
  pose proof (Z.mod_pos_bound d 10 ltac:(reflexivity)).
  apply andb_true_intro. split; apply Nat.leb_le; lia.
Qed.

Lemma is_space_digit_char d : Text.is_space (Text.digit_char d) = false.
Proof.
  unfold Text.is_space. rewrite nat_of_digit_char.
  pose proof (Z.mod_pos_bound d 10 ltac:(reflexivity)).
  apply orb_false_intro; apply andb_false_iff.
  - right. apply Nat.leb_gt. lia.
  - right. apply Nat.leb_gt. lia.
Qed.

Lemma digit_value_digit_char d :
  Text.digit_value (Text.digit_char d) = d mod 10.
Proof.
  unfold Text.digit_value. rewrite nat_of_digit_char.
  pose proof (Z.mod_pos_bound d 10 ltac:(reflexivity)). lia.
Qed.

(** The decimal text of a four-digit number. *)
Lemma decimal_four_digits y :
  1000 <= y <= 9999 ->
  Text.decimal y
  = String (Text.digit_char (y / 10 / 10 / 10))
      (String (Text.digit_char (y / 10 / 10))
         (String (Text.digit_char (y / 10))
            (String (Text.digit_char y) EmptyString))).
Proof.
  intros Hy. unfold Text.decimal.
  assert (Hlog : 9 <= Z.log2 y)
    by (change 9 with (Z.log2 1000); apply Z.log2_le_mono; lia).
  destruct (Z.to_nat (Z.log2 y)) as [|[|[|k]]] eqn:Hk; try lia.
  cbn [Text.decimal_aux].
  assert (H1 : 100 <= y / 10 <= 999) by (Z.div_mod_to_equations; lia).
  assert (H2 : 10 <= y / 10 / 10 <= 99) by (Z.div_mod_to_equations; lia).
  assert (H3 : 1 <= y / 10 / 10 / 10 <= 9) by (Z.div_mod_to_equations; lia).
  replace (y <? 10) with false by (symmetry; apply Z.ltb_ge; lia).
  replace (y / 10 <? 10) with false by (symmetry; apply Z.ltb_ge; lia).
  replace (y / 10 / 10 <? 10) with false by (symmetry; apply Z.ltb_ge; lia).
  replace (y / 10 / 10 / 10 <? 10) with true by (symmetry; apply Z.ltb_lt; lia).
  reflexivity.
Qed.

Lemma take_digits_decimal y :
  1000 <= y <= 9999 ->
  take_digits 4 0 (Text.decimal y) = Some (y, EmptyString).
Proof.
  intros Hy. rewrite (decimal_four_digits y Hy). cbn [take_digits].
  rewrite !is_digit_digit_char, !digit_value_digit_char.
  f_equal. f_equal. Z.div_mod_to_equations. lia.
Qed.

Lemma lstrip_decimal y :
  1000 <= y <= 9999 -> Text.lstrip (Text.decimal y) = Text.decimal y.
Proof.
  intros Hy. rewrite (decimal_four_digits y Hy). cbn [Text.lstrip].
  rewrite is_space_digit_char. reflexivity.
Qed.

(** [strptime] on ['March 4, '] followed by a four-digit year. *)
Lemma strptime_march_4 y :
  1000 <= y <= 9999 ->
  strptime_B_d_Y ("March 4, " ++ Text.decimal y)
  = Ok (mkdatetime y 3 4 0 0 0 0).
Proof.
  intros Hy. unfold strptime_B_d_Y.
  change (match_month MONTH_NAMES 1 ("March 4, " ++ Text.decimal y))
    with (Some (3, (" 4, " ++ Text.decimal y)%string)).
  cbv beta iota.
  change (skip_spaces1 (" 4, " ++ Text.decimal y))
    with (Some ("4, " ++ Text.decimal y)%string).
  cbv beta iota.
  change (match_day_comma ("4, " ++ Text.decimal y))
    with (Some (4, (" " ++ Text.decimal y)%string)).
  cbv beta iota.
  change (skip_spaces1 (" " ++ Text.decimal y))
    with (Some (Text.lstrip (Text.decimal y))).
  cbv beta iota.
  rewrite (lstrip_decimal y Hy), (take_digits_decimal y Hy).
  unfold make. rewrite check_date_fields_intro; try lia; [reflexivity|].
  rewrite days_in_month_length by lia. cbn. lia.
Qed.

(** [strptime] refuses ['not a date, '] followed by anything. *)
Lemma strptime_not_a_date tail :
  strptime_B_d_Y ("not a date, " ++ tail) = Raise ValueError.
Proof. reflexivity. Qed.

Lemma decimal_fuel n k :
  0 <= n -> 2 ^ Z.of_nat k <= n -> exists j, Z.to_nat (Z.log2 n) = (k + j)%nat.
Proof.
  intros Hn Hk. exists (Z.to_nat (Z.log2 n) - k)%nat.
  assert (Z.of_nat k <= Z.log2 n).
  { rewrite <- (Z.log2_pow2 (Z.of_nat k)) by lia.
    apply Z.log2_le_mono. exact Hk. }
  lia.
Qed.

Lemma decimal_one_digit n :
  0 <= n < 10 -> Text.decimal n = String (Text.digit_char n) EmptyString.
Proof.
  intros Hn. unfold Text.decimal. cbn [Text.decimal_aux].
  replace (n <? 10) with true by (symmetry; apply Z.ltb_lt; lia).
  reflexivity.
Qed.

Lemma decimal_two_digits n :
  10 <= n < 100 ->
  Text.decimal n
  = String (Text.digit_char (n / 10)) (String (Text.digit_char n) EmptyString).
Proof.
  intros Hn. unfold Text.decimal.
  destruct (decimal_fuel n 1 ltac:(lia) ltac:(simpl; lia)) as [j ->].
  cbn [Nat.add Text.decimal_aux].
  assert (H1 : 1 <= n / 10 <= 9) by (Z.div_mod_to_equations; lia).
  replace (n <? 10) with false by (symmetry; apply Z.ltb_ge; lia).
  replace (n / 10 <? 10) with true by (symmetry; apply Z.ltb_lt; lia).
  reflexivity.
Qed.

Lemma decimal_three_digits n :
  100 <= n < 1000 ->
  Text.decimal n
  = String (Text.digit_char (n / 10 / 10))
      (String (Text.digit_char (n / 10)) (String (Text.digit_char n) EmptyString)).
Proof.
  intros Hn. unfold Text.decimal.
  destruct (decimal_fuel n 2 ltac:(lia) ltac:(simpl; lia)) as [j ->].
  cbn [Nat.add Text.decimal_aux].
  assert (H1 : 10 <= n / 10 <= 99) by (Z.div_mod_to_equations; lia).
  assert (H2 : 1 <= n / 10 / 10 <= 9) by (Z.div_mod_to_equations; lia).
  replace (n <? 10) with false by (symmetry; apply Z.ltb_ge; lia).
  replace (n / 10 <? 10) with false by (symmetry; apply Z.ltb_ge; lia).
  replace (n / 10 / 10 <? 10) with true by (symmetry; apply Z.ltb_lt; lia).
  reflexivity.
Qed.

Ltac digits_done :=
  cbn [String.length Nat.sub Text.zeros append];
  cbn [take_digits];
  rewrite ?is_digit_digit_char, ?digit_value_digit_char;
  change (Text.is_digit "0") with true;
  change (Text.digit_value "0") with 0;
  cbv beta iota;
  f_equal; f_equal; Z.div_mod_to_equations; lia.

(** ["%04d"] is read back by four digits. *)
Lemma take_digits_zero_pad_4 n r :
  0 <= n <= 9999 ->
  take_digits 4 0 (Text.zero_pad 4 n ++ r) = Some (n, r).
Proof.
  intros Hn. unfold Text.zero_pad.
  destruct (Z_lt_dec n 10); [|destruct (Z_lt_dec n 100);
                              [|destruct (Z_lt_dec n 1000)]].
  - rewrite decimal_one_digit by lia. digits_done.
  - rewrite decimal_two_digits by lia. digits_done.
  - rewrite decimal_three_digits by lia. digits_done.
  - rewrite decimal_four_digits by lia. digits_done.
Qed.

(** ["%02d"] is read back by two digits. *)
Lemma take_digits_zero_pad_2 n r :
  0 <= n <= 99 ->
  take_digits 2 0 (Text.zero_pad 2 n ++ r) = Some (n, r).
Proof.
  intros Hn. unfold Text.zero_pad.
  destruct (Z_lt_dec n 10).
  - rewrite decimal_one_digit by lia. digits_done.
  - rewrite decimal_two_digits by lia. digits_done.
Qed.

Lemma append_empty s : (s ++ "")%string = s.
Proof. induction s as [|c s IH]; simpl; [reflexivity|]. rewrite IH. reflexivity. Qed.

(** What [isoformat(timespec='minutes')] writes, [fromisoformat] reads back
    as the same instant, to the minute. *)
Lemma fromisoformat_isoformat_minutes t :
  valid t = true ->
  fromisoformat (isoformat_minutes t) = Ok (truncate_to_minute t).
Proof.
  intros Hvalid. pose proof Hvalid as Hv. unfold valid in Hv.
  apply andb_prop in Hv as [Hdate Htime].
  pose proof (check_date_fields_elim _ _ _ Hdate) as (Hy & Hm & Hd).
  pose proof (check_time_fields_elim _ _ _ _ Htime) as (Hh & Hmi & Hs & Hus).
  assert (Hd31 : day t <= 31).
  { rewrite days_in_month_length in Hd by assumption.
    pose proof (month_end_bound _ _ _ Hm Hd).
    unfold month_length in Hd.
    assert (DAYS_IN_MONTH (month t) <= 31).
    { assert (Hc : month t = 1 \/ month t = 2 \/ month t = 3 \/ month t = 4 \/
                   month t = 5 \/ month t = 6 \/ month t = 7 \/ month t = 8 \/
                   month t = 9 \/ month t = 10 \/ month t = 11 \/ month t = 12)
        by lia.
      repeat (destruct Hc as [->|Hc]); try rewrite Hc; cbn; lia. }
    destruct ((month t =? 2) && is_leap (year t)) eqn:Hfeb; [|lia].
    apply andb_prop in Hfeb as [Hfeb _]. apply Z.eqb_eq in Hfeb.
    rewrite Hfeb in Hd. cbn in Hd. lia. }
  unfold isoformat_minutes, fromisoformat.
  rewrite take_digits_zero_pad_4 by lia. cbn [append expect Ascii.eqb Bool.eqb].
  cbv beta iota.
  rewrite take_digits_zero_pad_2 by lia. cbn [append expect Ascii.eqb Bool.eqb].
  cbv beta iota.
  rewrite take_digits_zero_pad_2 by lia. cbn [append]. cbv beta iota.
  unfold parse_isotime.
  rewrite take_digits_zero_pad_2 by lia. cbn [append expect Ascii.eqb Bool.eqb].
  cbv beta iota.
  rewrite <- (append_empty (Text.zero_pad 2 (minute t))).
  rewrite take_digits_zero_pad_2 by lia.
  unfold make. rewrite Hdate. cbn [andb].
  rewrite check_time_fields_intro by lia. reflexivity.
Qed.

Lemma parse_date_hours now :
  parse_date now "2 hours ago"
  = match ago now 0 2 0 with
    | Raise ValueError => Ok ERROR_DATE_PROCESSING
    | r => r
    end.
Proof. reflexivity. Qed.

Lemma parse_date_yesterday now :
  parse_date now "yesterday"
  = match ago now 1 0 0 with
    | Raise ValueError => Ok ERROR_DATE_PROCESSING
    | r => r
    end.
Proof. reflexivity. Qed.

Lemma parse_date_march_4 now :
  parse_date now "March 4"
  = match
      match strptime_B_d_Y ("March 4, " ++ Text.decimal (year now)) with
      | Raise e => Raise e
      | Ok t => Ok (isoformat_minutes t)
      end
    with
    | Raise ValueError => Ok ERROR_DATE_PROCESSING
    | r => r
    end.
Proof. reflexivity. Qed.

Lemma parse_date_not_a_date now :
  parse_date now "not a date" = Ok ERROR_DATE_PROCESSING.
Proof. reflexivity. Qed.

(** C7.  For a clock that shows a valid instant of a four-digit year:
    ['2 hours ago'] gives the ISO text, to the minute, of a valid instant
    whose minute lies 120 minutes before the minute of now; ['yesterday']
    the same 1440 minutes before; ['March 4'] the text of March 4 of the
    year of now at 00:00; and ['not a date'] the parse-error sentinel.
    Each text is read back by [fromisoformat] as the instant it stands
    for, seconds dropped. *)
Theorem parse_date_examples :
  forall now : datetime,
    valid now = true -> 1000 <= year now ->
    (exists t,
        parse_date now "2 hours ago" = Ok (isoformat_minutes t)
        /\ fromisoformat (isoformat_minutes t) = Ok (truncate_to_minute t)
        /\ valid t = true
        /\ minute_stamp t = minute_stamp now - 120)
    /\
    (exists t,
        parse_date now "yesterday" = Ok (isoformat_minutes t)
        /\ fromisoformat (isoformat_minutes t) = Ok (truncate_to_minute t)
        /\ valid t = true
        /\ minute_stamp t = minute_stamp now - 1440)
    /\
    (parse_date now "March 4"
     = Ok (isoformat_minutes (mkdatetime (year now) 3 4 0 0 0 0))
     /\ fromisoformat (isoformat_minutes (mkdatetime (year now) 3 4 0 0 0 0))
        = Ok (mkdatetime (year now) 3 4 0 0 0 0))
    /\ parse_date now "not a date" = Ok ERROR_DATE_PROCESSING.
Proof.
  intros now Hvalid Hyear.
  assert (Hy : 1000 <= year now <= 9999).
  { unfold valid in Hvalid. apply andb_prop in Hvalid as [Hd _].
    apply check_date_fields_elim in Hd. lia. }
  split; [|split; [|split]].
  - destruct (ago_spec now 0 2 0 Hvalid Hyear) as (t & Hago & Hvt & Hst);
      try lia.
    exists t. rewrite parse_date_hours, Hago.
    split; [reflexivity|]. split; [apply fromisoformat_isoformat_minutes; exact Hvt|].
    split; [exact Hvt|lia].
  - destruct (ago_spec now 1 0 0 Hvalid Hyear) as (t & Hago & Hvt & Hst);
      try lia.
    exists t. rewrite parse_date_yesterday, Hago.
    split; [reflexivity|]. split; [apply fromisoformat_isoformat_minutes; exact Hvt|].
    split; [exact Hvt|lia].
  - split.
    + rewrite parse_date_march_4, strptime_march_4; [reflexivity|exact Hy].
    + apply (fromisoformat_isoformat_minutes (mkdatetime (year now) 3 4 0 0 0 0)).
      unfold valid. cbn [year month day hour minute second microsecond].
      rewrite check_date_fields_intro; try lia; [reflexivity|].
      rewrite days_in_month_length by lia. cbn. lia.
  - apply parse_date_not_a_date.
Qed.

(** C4: what the code does.  A relative form without any digit makes
    [re.findall(...)[0]] raise [IndexError], which the handler for
    [ValueError] lets through: [parse_date] raises. *)
Theorem parse_date_raises_without_digits :
  forall now : datetime,
    parse_date now "hours ago" = Raise IndexError
    /\ parse_date now "min ago" = Raise IndexError.
Proof. intros now. split; reflexivity. Qed.

End ParseDate.

(* ================================================================== *)
(** ** The claims on concrete runs *)

Import Sim.

(** C1 as stated fails: a batch whose last article carries the
    date-not-found sentinel, after an article dated January 2020, makes the
    stop condition answer [False] in November 2026 with a period of one
    month. *)
Lemma trailing_sentinel_does_not_force_continue :
  let batch := [article_dated "2020-01-01T00:00"; article_dated DATE_NOT_FOUND] in
  is_sentinel (DateTime (last batch (article_dated ""))) = true
  /\ should_continue_scraping_based_on_time 1 now0 (DataFrame_of batch)
     = Ok false.
Proof. split; reflexivity. Qed.

(** The frame of a page without any card has no column: the stop
    condition raises [KeyError] on it. *)
Lemma empty_page_raises_KeyError MP now :
  should_continue_scraping_based_on_time MP now (DataFrame_of []) = Raise KeyError.
Proof. reflexivity. Qed.

(** [continue_without_valid_date] on a batch of two sentinel rows. *)
Lemma continue_without_valid_date_witness :
  let batch := [article_dated DATE_NOT_FOUND;
                article_dated "Error processing date 'x'"] in
  has_column (mkDataFrame ARTICLE_KEYS batch) "DateTime" = true
  /\ should_continue_scraping_based_on_time 1 now0 (mkDataFrame ARTICLE_KEYS batch)
     = Ok true
  /\ should_continue_scraping_based_on_time 1 now0
       (mkDataFrame ARTICLE_KEYS (batch ++ [article_dated ERROR_DATE_PROCESSING]))
     = should_continue_scraping_based_on_time 1 now0
         (mkDataFrame ARTICLE_KEYS batch).
Proof.
  intros batch. split; [reflexivity|].
  destruct (continue_without_valid_date 1 now0 ARTICLE_KEYS batch eq_refl)
    as [Hall Hlast]; [discriminate|].
  split.
  - apply Hall. intros a [<-|[<-|[]]]; reflexivity.
  - apply Hlast. reflexivity.
Defined.

(** C2 as stated fails: on 4 November 2026, with a period of 0, a last
    article dated 25 December 2026 lies outside the current calendar month
    and yet the stop condition answers [True]. *)
Lemma later_month_does_not_stop :
  let a := article_dated "2026-12-25T00:00" in
  fromisoformat (DateTime a) = Ok (mkdatetime 2026 12 25 0 0 0 0)
  /\ (2026, 12) <> (year now0, month now0)
  /\ should_continue_scraping_based_on_time 0 now0 (DataFrame_of [a]) = Ok true.
Proof. split; [reflexivity|]. split; [discriminate|reflexivity]. Qed.

(** [zero_period_stops_before_current_month] on an article of October
    2026, read on 4 November 2026. *)
Lemma zero_period_stops_before_current_month_witness :
  let a := article_dated "2026-10-25T00:00" in
  let t := mkdatetime 2026 10 25 0 0 0 0 in
  valid now0 = true
  /\ fromisoformat (DateTime a) = Ok t
  /\ (should_continue_scraping_based_on_time 0 now0 (DataFrame_of [a]) = Ok false
      <-> earlier_month t now0)
  /\ (should_continue_scraping_based_on_time 0 now0 (DataFrame_of [a]) = Ok true
      <-> ~ earlier_month t now0).
Proof.
  intros a t. split; [reflexivity|]. split; [reflexivity|].
  exact (zero_period_stops_before_current_month now0 (DataFrame_of [a]) [] a t
           eq_refl eq_refl eq_refl eq_refl).
Defined.

(** [positive_period_stops_at_period] with a period of two months and a
    last article of September 2026. *)
Lemma positive_period_stops_at_period_witness :
  let a := article_dated "2026-09-25T00:00" in
  let t := mkdatetime 2026 9 25 0 0 0 0 in
  0 < 2
  /\ fromisoformat (DateTime a) = Ok t
  /\ (should_continue_scraping_based_on_time 2 now0 (DataFrame_of [good_article; a])
      = Ok false
      <-> 2 <= (year now0 - year t) * 12 + (month now0 - month t))
  /\ (should_continue_scraping_based_on_time 2 now0 (DataFrame_of [good_article; a])
      = Ok true
      <-> (year now0 - year t) * 12 + (month now0 - month t) < 2).
Proof.
  intros a t. split; [reflexivity|]. split; [reflexivity|].
  exact (positive_period_stops_at_period 2 now0
           (DataFrame_of [good_article; a]) [good_article] a t
           eq_refl eq_refl eq_refl eq_refl).
Defined.

(** C5 as stated fails: on a page of two cards whose second card has no
    link sub-element, [fetch_results] raises [ScrapingError] after its
    three attempts; the article of the first card is not returned. *)
Lemma one_missing_link_drops_the_page :
  fst (run_fetch (start [[good; no_link]] now0)) = Raise ScrapingError
  /\ slept (snd (run_fetch (start [[good; no_link]] now0))) = [1; 2].
Proof. split; reflexivity. Qed.

(** [missing_link_fails_the_fetch] on a page of three cards: the second
    has a link without [href], the third has no link. *)
Lemma missing_link_fails_the_fetch_witness :
  let st := start [[good; no_href; no_link]] now0 in
  (exists description image date_time st',
      extract_article driver "output" (Promo no_href) st
      = (Ok (mkArticle "None" "title" description image date_time), st'))
  /\ fetch_results_once driver "output" 10 st = (Raise ScrapingError, st).
Proof.
  intros st. split.
  - exact (proj1 (missing_link_fails_the_fetch driver "output" 10 (Promo no_href))
             st (Part None "") st None st (Some "title") st
             eq_refl eq_refl eq_refl).
  - exact (proj2 (missing_link_fails_the_fetch driver "output" 10 (Promo no_link))
             st [Promo good; Promo no_href] [] st
             [mkArticle "http://news/a" "title" "text" (Some "a.png")
                        "2026-11-03T00:00";
              mkArticle "None" "title" "text" (Some "None.png")
                        "2026-11-02T00:00"]
             st NoSuchElementException st
             eq_refl eq_refl eq_refl).
Defined.

(** C6 as stated fails: with the network down, the article of a card that
    has an image gets [None] as its [Image], not the text
    ['Image Not Available']. *)
Lemma failed_download_leaves_None :
  fst (run_extract (mkState (mkWorld [] false true true now0) true true []) good)
  = Ok (mkArticle "http://news/a" "title" "text" None "2026-11-03T00:00").
Proof. reflexivity. Qed.

(** [image_field_on_failure] on the scripted browser: a card without
    image, then a card with one while the folder, the network or the disk
    fails. *)
Lemma image_field_on_failure_witness :
  let up := mkState (mkWorld [] true true true now0) true true [] in
  let no_network := mkState (mkWorld [] false true true now0) true true [] in
  let no_folder := mkState (mkWorld [] true false true now0) true true [] in
  let no_disk := mkState (mkWorld [] true true false now0) true true [] in
  let img := Part (Some "http://img/1.png") "" in
  extract_image driver "output" (Promo no_image) "http://news/b" up
  = (Ok (Some "Image Not Available"), up)
  /\ extract_image driver "output" (Promo good) "http://news/a" no_folder
     = (Ok (Some "Image Not Available"), no_folder)
  /\ extract_image driver "output" (Promo good) "http://news/a" no_network
     = (Ok None, no_network)
  /\ extract_image driver "output" (Promo good) "http://news/a" no_disk
     = (Ok None, no_disk)
  /\ (exists description st4 image st5 date_time st6,
         extract_description driver (Promo no_image) up = (Ok description, st4)
         /\ extract_image driver "output" (Promo no_image) (str (Some "http://news/b")) st4
            = (Ok image, st5)
         /\ extract_date_time driver (Promo no_image) st5 = (Ok date_time, st6)
         /\ extract_article driver "output" (Promo no_image) up
            = (Ok (mkArticle (str (Some "http://news/b")) (str (Some "title"))
                             description image date_time), st6)).
Proof.
  intros up no_network no_folder no_disk img.
  split; [|split; [|split; [|split]]].
  - exact (proj1 (image_field_on_failure driver "output" (Promo no_image)
                    "http://news/b" up)
             NoSuchElementException up eq_refl).
  - exact (proj1 (proj2 (image_field_on_failure driver "output" (Promo good)
                           "http://news/a" no_folder))
             img no_folder (Some "http://img/1.png") no_folder OSError no_folder
             eq_refl eq_refl eq_refl).
  - exact (proj1 (proj2 (proj2 (image_field_on_failure driver "output"
                                  (Promo good) "http://news/a" no_network)))
             img no_network (Some "http://img/1.png") no_network no_network
             RequestException no_network
             eq_refl eq_refl eq_refl eq_refl eq_refl).
  - exact (proj1 (proj2 (proj2 (proj2 (image_field_on_failure driver "output"
                                         (Promo good) "http://news/a" no_disk))))
             img no_disk (Some "http://img/1.png") no_disk no_disk
             (mkResponse 200 "image") no_disk OSError no_disk
             eq_refl eq_refl eq_refl eq_refl eq_refl eq_refl eq_refl).
  - exact (proj2 (proj2 (proj2 (proj2 (image_field_on_failure driver "output"
                                         (Promo no_image) "http://news/b" up))))
             up (Part (Some "http://news/b") "") up (Some "http://news/b") up
             (Some "title") up eq_refl eq_refl eq_refl).
Defined.

(** [parse_date_examples] on 4 November 2026, 12:27:31. *)
Lemma parse_date_examples_witness :
  valid now0 = true /\ 1000 <= year now0
  /\ (exists t,
         parse_date now0 "2 hours ago" = Ok (isoformat_minutes t)
         /\ fromisoformat (isoformat_minutes t) = Ok (truncate_to_minute t)
         /\ valid t = true
         /\ minute_stamp t = minute_stamp now0 - 120)
  /\ (exists t,
         parse_date now0 "yesterday" = Ok (isoformat_minutes t)
         /\ fromisoformat (isoformat_minutes t) = Ok (truncate_to_minute t)
         /\ valid t = true
         /\ minute_stamp t = minute_stamp now0 - 1440)
  /\ (parse_date now0 "March 4"
      = Ok (isoformat_minutes (mkdatetime (year now0) 3 4 0 0 0 0))
      /\ fromisoformat (isoformat_minutes (mkdatetime (year now0) 3 4 0 0 0 0))
         = Ok (mkdatetime (year now0) 3 4 0 0 0 0))
  /\ parse_date now0 "not a date" = Ok ERROR_DATE_PROCESSING.
Proof.
  split; [reflexivity|]. split; [unfold now0; simpl; lia|].
  apply (parse_date_examples now0); [reflexivity|unfold now0; simpl; lia].
Defined.

(** The texts [parse_date] writes for the examples of C7 on 4 November
    2026, 12:27:31. *)
Lemma parse_date_examples_texts :
  parse_date now0 "2 hours ago" = Ok "2026-11-04T10:27"
  /\ parse_date now0 "yesterday" = Ok "2026-11-03T12:27"
  /\ parse_date now0 "March 4" = Ok "2026-03-04T00:00"
  /\ parse_date now0 "not a date" = Ok "Error processing date".
Proof. repeat split; reflexivity. Qed.

(** A number of minutes that takes the instant before year 1 raises
    [OverflowError] out of [parse_date], as [IndexError] does. *)
Lemma parse_date_raises_on_overflow :
  parse_date now0 "2000000000 mins ago" = Raise OverflowError.
Proof. reflexivity. Qed.

Lemma flaky_keeps_log e k : keeps_log (flaky e k).
Proof.
  intros st r st'. unfold flaky.
  destruct (List.length (slept st) <? k)%nat; intros H; inversion H; reflexivity.
Qed.

(** [retry_policy] on operations that fail twice, fail always, and raise
    [ValueError]. *)
Lemma retry_policy_witness :
  let st0 := start [] now0 in
  (retry driver (flaky ScrapingError 2) st0 = (Ok 7, after_sleep driver 2 (after_sleep driver 1 st0))
   /\ slept (after_sleep driver 2 (after_sleep driver 1 st0)) = slept st0 ++ [1; 2])
  /\ (retry driver (flaky ScrapingError 5) st0
      = (Raise ScrapingError, after_sleep driver 2 (after_sleep driver 1 st0))
      /\ slept (after_sleep driver 2 (after_sleep driver 1 st0)) = slept st0 ++ [1; 2])
  /\ retry driver (flaky ValueError 5) st0 = (Raise ValueError, st0).
Proof.
  intros st0. split; [|split].
  - destruct (proj1 (retry_policy driver (flaky ScrapingError 2) st0)
                st0 (after_sleep driver 1 st0)
                (after_sleep driver 2 (after_sleep driver 1 st0)) 7
                eq_refl eq_refl eq_refl) as [Hr Hlog].
    split; [exact Hr|]. apply Hlog. apply flaky_keeps_log.
  - destruct (proj1 (proj2 (retry_policy driver (flaky ScrapingError 5) st0))
                st0 (after_sleep driver 1 st0)
                (after_sleep driver 2 (after_sleep driver 1 st0))
                eq_refl eq_refl eq_refl) as [Hr Hlog].
    split; [exact Hr|]. apply Hlog. apply flaky_keeps_log.
  - apply (proj1 (proj2 (proj2 (retry_policy driver (flaky ValueError 5) st0)))
             ValueError st0 eq_refl).
    discriminate.
Defined.

(** [page_failure_returns_collected] on two runs: a second page whose
    card has no link, and a single page with no page after it. *)
Lemma page_failure_returns_collected_witness :
  let w1 := mkWorld [[good]; [no_link]] true true true now0 in
  let w2 := mkWorld [[no_link]] true true true now0 in
  let w3 := mkWorld [[good]] true true true now0 in
  let df1 := DataFrame_of [mkArticle "http://news/a" "title" "text"
                                     (Some "a.png") "2026-11-03T00:00"] in
  (exists collected st_end,
      run_scraping 1 5 (WebScraper_init w1) = Some (Ok collected, st_end)
      /\ collected = fold_left concat [df1] empty_frame
      /\ rows collected = List.concat (map rows [df1])
      /\ scrape_continues st_end = false)
  /\
  (exists collected st_end,
      run_scraping 1 5 (WebScraper_init w3) = Some (Ok collected, st_end)
      /\ collected = fold_left concat ([] ++ [df1]) empty_frame
      /\ rows collected = List.concat (map rows []) ++ rows df1
      /\ scrape_continues st_end = false).
Proof.
  intros w1 w2 w3 df1. split.
  - apply (proj1 (page_failure_returns_collected driver "output" 1 "http://news"
                    10 "sports" "query"
                    (WebScraper_init w1) (mkState w1 true true [])
                    (mkState w1 true true []) [df1] 5
                    eq_refl eq_refl eq_refl ltac:(simpl; lia)
                    (Ok tt) (mkState w1 true true []) (mkState w2 true true [])
                    eq_refl
                    (fetched_more driver "output" 1 10
                       (mkState w1 true true []) df1 (mkState w1 true true [])
                       (mkState w2 true true []) [] (mkState w2 true true [])
                       eq_refl eq_refl eq_refl
                       (fetched_none driver "output" 1 10 _)))
             (mkState w2 true true [1; 2]) eq_refl eq_refl).
  - apply (proj2 (page_failure_returns_collected driver "output" 1 "http://news"
                    10 "sports" "query"
                    (WebScraper_init w3) (mkState w3 true true [])
                    (mkState w3 true true []) [] 5
                    eq_refl eq_refl eq_refl ltac:(simpl; lia)
                    (Ok tt) (mkState w3 true true []) (mkState w3 true true [])
                    eq_refl
                    (fetched_none driver "output" 1 10 _))
             df1 (mkState w3 true true []) (mkState w3 true true [1; 2])
             eq_refl eq_refl eq_refl eq_refl).
Defined.

(** The run of the first part of the witness above: the page fetched
    before the failing one is what [start_scraping] returns, after the two
    sleeps of the failed fetch. *)
Lemma page_failure_run :
  run_scraping 1 5 (start [[good]; [no_link]] now0)
  = Some (Ok (DataFrame_of [mkArticle "http://news/a" "title" "text"
                                      (Some "a.png") "2026-11-03T00:00"]),
          mkState (mkWorld [[no_link]] true true true now0) true false [1; 2]).
Proof. reflexivity. Qed.

(** C9 as stated fails: on a browser whose [close_browser] raises, the
    same run (a first page with one article, a second page whose fetch
    raises [ScrapingError] after its three attempts) ends with the
    exception of the closing; the article of the first page, which the
    loop had collected and was about to return, is not returned. *)
Lemma close_failure_discards_collected :
  fst (fetch_results Jammed.driver "output" 10
         (mkState (mkWorld [[no_link]] true true true now0) true true []))
  = Raise ScrapingError
  /\ scrape_loop Jammed.driver "output" 1 10 5 (1, empty_frame)
       (mkState (mkWorld [[good]; [no_link]] true true true now0) true true [])
     = Some (Ok (DataFrame_of [mkArticle "http://news/a" "title" "text"
                                         (Some "a.png") "2026-11-03T00:00"]),
             mkState (mkWorld [[no_link]] true true true now0) true false
                     [1; 2])
  /\ start_scraping Jammed.driver "output" 1 "http://news" 10 "sports" 5
       "query" (start [[good]; [no_link]] now0)
     = Some (Raise WebDriverException,
             mkState (mkWorld [[no_link]] true true true now0) true false
                     [1; 2]).
Proof. split; [|split]; vm_compute; reflexivity. Qed.

(** A page without any card: the [KeyError] of the stop condition is not
    a [ScrapingError] and leaves [start_scraping]. *)
Lemma empty_page_run :
  option_map fst (run_scraping 1 5 (start [[good]; []] now0))
  = Some (Raise KeyError).
Proof. reflexivity. Qed.

(** [not_available_reaches_the_parser] on a card without timestamp and on
    a batch that ends with its article. *)
Lemma not_available_reaches_the_parser_witness :
  let st := start [[no_timestamp]] now0 in
  let a := article_dated "DateTime Not Available" in
  let df := DataFrame_of [good_article; a] in
  extract_date_time driver (Promo no_timestamp) st
  = (Ok "DateTime Not Available", st)
  /\ (is_valid_date (DateTime a) = true
      /\ (exists kept,
             valid_dates_df df = Ok kept
             /\ frame_empty kept = false
             /\ iloc_last_DateTime kept = Ok "DateTime Not Available")
      /\ fromisoformat (DateTime a) = Raise ValueError
      /\ should_continue_scraping_based_on_time 1 now0 df = Ok true).
Proof.
  intros st a df. split.
  - exact (proj1 (proj2 not_available_reaches_the_parser)
             World Elem driver (Promo no_timestamp) st
             NoSuchElementException st NoSuchElementException st
             eq_refl eq_refl).
  - exact (proj2 (proj2 not_available_reaches_the_parser)
             1 now0 df [good_article] a eq_refl eq_refl eq_refl).
Defined.


(* ================================================================== *)
(** * Further properties of the code *)

(** ** The stop condition: errors, negative periods, the decision row *)

Lemma make_raises y m d h mi sec e :
  make y m d h mi sec = Raise e -> e = ValueError.
Proof.
  unfold make. destruct (_ && _); intros H; inversion H; reflexivity.
Qed.

(** [fromisoformat] raises nothing but [ValueError]. *)
Lemma fromisoformat_raises s e : fromisoformat s = Raise e -> e = ValueError.
Proof.
  unfold fromisoformat.
  destruct (take_digits 4 0 s) as [[y r]|]; [|intros H; inversion H; reflexivity].
  destruct (expect "-" r) as [r1|]; [|intros H; inversion H; reflexivity].
  destruct (take_digits 2 0 r1) as [[m r2]|]; [|intros H; inversion H; reflexivity].
  destruct (expect "-" r2) as [r3|]; [|intros H; inversion H; reflexivity].
  destruct (take_digits 2 0 r3) as [[d r4]|]; [|intros H; inversion H; reflexivity].
  destruct r4 as [|c r4]; [apply make_raises|].
  destruct (parse_isotime r4) as [[[h mi] sec]|];
    [apply make_raises|intros H; inversion H; reflexivity].
Qed.

Lemma decision_is_ok MP now s : exists b, decision MP now s = Ok b.
Proof.
  unfold decision. destruct (fromisoformat s) as [t|e] eqn:Hs.
  - cbv zeta. destruct (_ && _); [eauto|]. destruct (_ && _); eauto.
  - rewrite (fromisoformat_raises _ _ Hs). eauto.
Qed.

(** On a frame with the column, the stop condition answers [True] for want
    of a valid date, or what the [try] block answers on some text. *)
Lemma should_continue_cases MP now df :
  has_column df "DateTime" = true ->
  should_continue_scraping_based_on_time MP now df = Ok true
  \/ exists s, should_continue_scraping_based_on_time MP now df
               = decision MP now s.
Proof.
  intros Hcol. unfold should_continue_scraping_based_on_time, valid_dates_df.
  rewrite Hcol.
  rewrite frame_empty_rows by (eapply has_column_columns; eassumption).
  unfold iloc_last_DateTime. cbn [rows].
  destruct (filter _ (rows df)) as [|a l] eqn:Hf; [left; reflexivity|].
  destruct (rev (a :: l)) as [|b l'] eqn:Hr.
  - apply (f_equal (@List.length _)) in Hr. rewrite length_rev in Hr.
    discriminate Hr.
  - right. eauto.
Qed.

(** X1.  A frame without the [DateTime] column makes the stop condition
    raise [KeyError]; on every frame that has the column and a row at
    least it answers [True] or [False], whatever the texts in the column:
    a text that [fromisoformat] refuses makes it raise [ValueError] and
    nothing else, which is caught. *)
Theorem stop_condition_answers_or_KeyError :
  forall (MP : Z) (now : datetime) (df : DataFrame),
    (has_column df "DateTime" = true -> rows df <> [] ->
     exists b, should_continue_scraping_based_on_time MP now df = Ok b)
    /\
    (has_column df "DateTime" = false ->
     should_continue_scraping_based_on_time MP now df = Raise KeyError).
Proof.
  intros MP now df. split; intros Hcol.
  - intros _. destruct (should_continue_cases MP now df Hcol) as [H|[s H]];
      rewrite H; [eauto|apply decision_is_ok].
  - unfold should_continue_scraping_based_on_time, valid_dates_df.
    rewrite Hcol. reflexivity.
Qed.

(** X2.  With a negative [MONTHS_PERIOD] the stop condition never stops:
    on every frame that has the [DateTime] column and a row at least it
    answers [True]. *)
Theorem negative_period_never_stops :
  forall (MP : Z) (now : datetime) (df : DataFrame),
    MP < 0 ->
    has_column df "DateTime" = true ->
    rows df <> [] ->
    should_continue_scraping_based_on_time MP now df = Ok true.
Proof.
  intros MP now df HMP Hcol _.
  destruct (should_continue_cases MP now df Hcol) as [H|[s H]];
    rewrite H; [reflexivity|].
  unfold decision. destruct (fromisoformat s) as [t|e] eqn:Hs.
  - cbv zeta.
    replace (MP =? 0) with false by (symmetry; apply Z.eqb_neq; lia).
    replace (0 <? MP) with false by (symmetry; apply Z.ltb_ge; lia).
    reflexivity.
  - rewrite (fromisoformat_raises _ _ Hs). reflexivity.
Qed.

Lemma filter_all_false_app {A} (f : A -> bool) l junk :
  (forall x, In x junk -> f x = false) -> filter f (l ++ junk) = filter f l.
Proof.
  intros H. rewrite filter_app, (filter_none f junk H). apply app_nil_r.
Qed.

(** X3.  The decision rests on one row: the last one whose [DateTime]
    passes the filter.  Two frames with the column that end with the same
    such row, followed by rows the filter removes, get the same answer,
    whatever the rows before it. *)
Theorem decision_ignores_earlier_rows :
  forall (MP : Z) (now : datetime) (df1 df2 : DataFrame)
         (init1 init2 junk1 junk2 : list Article) (a : Article),
    has_column df1 "DateTime" = true ->
    has_column df2 "DateTime" = true ->
    rows df1 = init1 ++ a :: junk1 ->
    rows df2 = init2 ++ a :: junk2 ->
    is_valid_date (DateTime a) = true ->
    (forall x, In x junk1 -> is_valid_date (DateTime x) = false) ->
    (forall x, In x junk2 -> is_valid_date (DateTime x) = false) ->
    should_continue_scraping_based_on_time MP now df1
    = should_continue_scraping_based_on_time MP now df2.
Proof.
  intros MP now df1 df2 init1 init2 junk1 junk2 a H1 H2 R1 R2 Ha J1 J2.
  assert (Hone : forall df init junk,
             has_column df "DateTime" = true ->
             rows df = init ++ a :: junk ->
             (forall x, In x junk -> is_valid_date (DateTime x) = false) ->
             should_continue_scraping_based_on_time MP now df
             = decision MP now (DateTime a)).
  { intros df init junk Hcol Hrows Hjunk.
    unfold should_continue_scraping_based_on_time, valid_dates_df.
    rewrite Hcol, Hrows.
    replace (init ++ a :: junk) with ((init ++ [a]) ++ junk)
      by (rewrite <- app_assoc; reflexivity).
    rewrite (filter_all_false_app _ _ junk Hjunk), filter_app.
    simpl filter. rewrite Ha.
    rewrite frame_empty_rows by (eapply has_column_columns; eassumption).
    destruct (filter _ init ++ [a]) eqn:Hnil;
      [apply app_eq_nil in Hnil as [_ Hnil]; discriminate|].
    rewrite <- Hnil. unfold iloc_last_DateTime. simpl rows.
    rewrite rev_app_distr. reflexivity. }
  rewrite (Hone df1 init1 junk1 H1 R1 J1), (Hone df2 init2 junk2 H2 R2 J2).
  reflexivity.
Qed.

(* ================================================================== *)
(** ** Frames: what the page loop accumulates *)

Lemma concat_DataFrame_of a b :
  concat (DataFrame_of a) (DataFrame_of b) = DataFrame_of (a ++ b).
Proof.
  unfold concat, DataFrame_of. destruct a as [|x a]; destruct b as [|y b];
    reflexivity.
Qed.

Lemma fold_concat_DataFrame_of batches : forall start,
  fold_left concat (map DataFrame_of batches) (DataFrame_of start)
  = DataFrame_of (start ++ List.concat batches).
Proof.
  induction batches as [|b batches IH]; intros start; cbn [map fold_left List.concat].
  - rewrite app_nil_r. reflexivity.
  - rewrite concat_DataFrame_of, IH, app_assoc. reflexivity.
Qed.

(** X4.  Accumulating the frames of the pages, from the empty frame and in
    page order, gives the frame of all their articles in that order: the
    rows are appended and never reordered or dropped, and the columns are
    those of a frame built at once. *)
Theorem accumulated_frame_is_frame_of_all_articles :
  forall batches : list (list Article),
    fold_left concat (map DataFrame_of batches) empty_frame
    = DataFrame_of (List.concat batches).
Proof.
  intros batches. apply (fold_concat_DataFrame_of batches []).
Qed.

(* ================================================================== *)
(** ** What the steps of the scraper leave alone *)

Section Preserves.

Context {W E X : Type} (drv : Driver W E) (f : State W -> X).

Lemma preserves_ret {A} (a : A) : preserves f (@ret W A a).
Proof. intros st r st' H. inversion H. reflexivity. Qed.

Lemma preserves_raise {A} e : preserves f (@raise W A e).
Proof. intros st r st' H. inversion H. reflexivity. Qed.

Lemma preserves_call {A} (op : W -> result A * W) :
  world_blind f -> preserves f (call op).
Proof.
  intros Hf st r st'. unfold call. destruct (op (world st)) as [r0 w].
  intros H. inversion H. apply Hf.
Qed.

Lemma preserves_bind {A B} (m : M W A) (k : A -> M W B) :
  preserves f m -> (forall a, preserves f (k a)) -> preserves f (bind m k).
Proof.
  intros Hm Hk st r st'. unfold bind.
  destruct (m st) as [[a|e] st1] eqn:Hrun; intros H.
  - rewrite (Hk a _ _ _ H). eapply Hm; eassumption.
  - inversion H; subst. eapply Hm; eassumption.
Qed.

Lemma preserves_try {A} (m : M W A) (h : exn -> M W A) :
  preserves f m -> (forall e, preserves f (h e)) -> preserves f (try_except m h).
Proof.
  intros Hm Hh st r st'. unfold try_except.
  destruct (m st) as [[a|e] st1] eqn:Hrun; intros H.
  - inversion H; subst. eapply Hm; eassumption.
  - rewrite (Hh e _ _ _ H). eapply Hm; eassumption.
Qed.

Lemma preserves_if {A} (b : bool) (m1 m2 : M W A) :
  preserves f m1 -> preserves f m2 -> preserves f (if b then m1 else m2).
Proof. destruct b; auto. Qed.

Lemma preserves_for_each {A B} (g : A -> M W B) l :
  (forall a, preserves f (g a)) -> preserves f (for_each g l).
Proof.
  intros Hg. induction l as [|x l IH]; simpl.
  - apply preserves_ret.
  - apply preserves_bind; [apply Hg|]. intros y.
    apply preserves_bind; [apply IH|]. intros ys. apply preserves_ret.
Qed.

Lemma preserves_parse_date_now text : preserves f (parse_date_now drv text).
Proof. intros st r st' H. inversion H. reflexivity. Qed.

Lemma preserves_raise_for_status response :
  preserves f (@raise_for_status W response).
Proof.
  unfold raise_for_status. apply preserves_if;
    [apply preserves_raise|apply preserves_ret].
Qed.

End Preserves.

#[export] Hint Resolve preserves_ret preserves_raise preserves_call
  preserves_bind preserves_try preserves_if preserves_for_each
  preserves_parse_date_now preserves_raise_for_status : frame.

Lemma slept_world_blind {W} : world_blind (@slept W).
Proof. intros st w. reflexivity. Qed.

Lemma browser_world_blind {W} : world_blind (@browser W).
Proof. intros st w. reflexivity. Qed.

#[export] Hint Resolve slept_world_blind browser_world_blind : frame.

Section Steps.

Context {W E : Type} (drv : Driver W E).
Variable OUTPUT_FOLDER : string.
Variable MONTHS_PERIOD : Z.
Variable BASE_URL : string.
Variable TIMEOUT_SECONDS : Z.
Variable CATEGORY_FILTER : string.

Section Blind.

Context {X : Type} (f : State W -> X) (Hf : world_blind f).

Lemma preserves_close_popup_overlays :
  preserves f (close_popup_overlays drv TIMEOUT_SECONDS).
Proof. unfold close_popup_overlays. auto 10 with frame. Qed.

Lemma preserves_download_image url src :
  preserves f (download_image drv OUTPUT_FOLDER url src).
Proof. unfold download_image. auto 12 with frame. Qed.

Lemma preserves_extract_article article :
  preserves f (extract_article drv OUTPUT_FOLDER article).
Proof.
  pose proof preserves_download_image.
  unfold extract_article, extract_description, extract_image,
    extract_date_time, timestamp_of.
  repeat (first [ apply preserves_bind; [|intros ?]
                | apply preserves_try; [|intros ?]
                | solve [auto with frame] ]).
Qed.

Lemma preserves_fetch_results_once :
  preserves f (fetch_results_once drv OUTPUT_FOLDER TIMEOUT_SECONDS).
Proof.
  pose proof preserves_close_popup_overlays.
  pose proof preserves_extract_article.
  unfold fetch_results_once, locate_articles.
  repeat (first [ apply preserves_bind; [|intros ?]
                | apply preserves_try; [|intros ?]
                | solve [auto with frame] ]).
Qed.

Lemma preserves_navigate_once :
  preserves f (navigate_to_next_page_once drv).
Proof. unfold navigate_to_next_page_once. auto 10 with frame. Qed.

Lemma preserves_execute_search_once query :
  preserves f (execute_search_once drv BASE_URL TIMEOUT_SECONDS query).
Proof.
  pose proof preserves_close_popup_overlays.
  unfold execute_search_once.
  repeat (first [ apply preserves_bind; [|intros ?]
                | apply preserves_try; [|intros ?]
                | solve [auto with frame] ]).
Qed.

Lemma preserves_apply_filter_once :
  preserves f (apply_filter_once drv TIMEOUT_SECONDS CATEGORY_FILTER).
Proof.
  pose proof preserves_close_popup_overlays.
  unfold apply_filter_once, click_if_category.
  repeat (first [ apply preserves_bind; [|intros ?]
                | apply preserves_try; [|intros ?]
                | apply preserves_for_each; intros ?
                | apply preserves_if
                | solve [auto with frame] ]).
Qed.

End Blind.

(** The sleeps of the decorator around an operation that does not sleep:
    none, [1] or [1; 2]; a [ScrapingError] comes out after both only. *)
Lemma retry_slept {A} (op : M W A) st r st' :
  preserves slept op ->
  retry drv op st = (r, st') ->
  (slept st' = slept st \/ slept st' = slept st ++ [1]
   \/ slept st' = slept st ++ [1; 2])
  /\ (r = Raise ScrapingError -> slept st' = slept st ++ [1; 2]).
Proof.
  intros Hop. rewrite retry_unfold.
  destruct (op st) as [[v|e] st1] eqn:H1.
  - intros H. inversion H; subst. rewrite (Hop _ _ _ H1).
    split; [auto|discriminate].
  - assert (S1 : slept (after_sleep drv 1 st1) = slept st ++ [1])
      by (cbn; rewrite (Hop _ _ _ H1); reflexivity).
    destruct (op (after_sleep drv 1 st1)) as [[v|e2] st2] eqn:H2.
    + destruct e; intros H; inversion H; subst;
        rewrite ?(Hop _ _ _ H1), ?(Hop _ _ _ H2), ?S1;
        (split; [auto|discriminate]).
    + assert (S2 : slept (after_sleep drv 2 st2) = slept st ++ [1; 2]).
      { cbn. rewrite (Hop _ _ _ H2), S1, <- app_assoc. reflexivity. }
      destruct e; try (intros H; inversion H; subst;
                        rewrite (Hop _ _ _ H1); split; [auto|discriminate]).
      destruct e2; try (intros H; inversion H; subst;
                         rewrite (Hop _ _ _ H2), S1; split; [auto|discriminate]).
      intros H. rewrite (Hop _ _ _ H), S2. split; auto.
Qed.

Lemma preserves_browser_retry {A} (op : M W A) :
  preserves browser op -> preserves browser (retry drv op).
Proof.
  intros Hop st r st'. rewrite retry_unfold.
  destruct (op st) as [[v|e] st1] eqn:H1.
  - intros H. inversion H; subst. eapply Hop; eassumption.
  - destruct (op (after_sleep drv 1 st1)) as [[v|e2] st2] eqn:H2.
    + destruct e; intros H; inversion H; subst;
        rewrite ?(Hop _ _ _ H2); cbn [after_sleep do_sleep snd browser];
        eapply Hop; eassumption.
    + destruct e;
        try (intros H; inversion H; subst; eapply Hop; eassumption).
      destruct e2;
        try (intros H; inversion H; subst; rewrite (Hop _ _ _ H2);
             cbn [after_sleep do_sleep snd browser]; eapply Hop; eassumption).
      intros H. rewrite (Hop _ _ _ H). cbn [after_sleep do_sleep snd browser].
      rewrite (Hop _ _ _ H2). cbn [after_sleep do_sleep snd browser].
      eapply Hop; eassumption.
Qed.

Lemma fetch_results_raises st e st' :
  fetch_results drv OUTPUT_FOLDER TIMEOUT_SECONDS st = (Raise e, st') ->
  e = ScrapingError.
Proof.
  unfold fetch_results, retry. apply retry_from_only_ScrapingError.
  intros st0 e0 st1. apply fetch_results_once_raises.
Qed.

(** X5.  A fetch that fails has used its three attempts: whatever the
    browser did, [fetch_results] raises nothing but [ScrapingError], and
    then after exactly two sleeps, of 1 and of 2; a fetch that succeeds has
    slept not at all, once, or twice. *)
Theorem fetch_results_outcomes :
  forall (st : State W) (r : result DataFrame) (st' : State W),
    fetch_results drv OUTPUT_FOLDER TIMEOUT_SECONDS st = (r, st') ->
    match r with
    | Raise e => e = ScrapingError /\ slept st' = slept st ++ [1; 2]
    | Ok _ => slept st' = slept st \/ slept st' = slept st ++ [1]
              \/ slept st' = slept st ++ [1; 2]
    end.
Proof.
  intros st r st' H.
  destruct (retry_slept _ st r st'
              (preserves_fetch_results_once slept slept_world_blind) H)
    as [Hany Hfail].
  destruct r as [page|e]; [exact Hany|].
  pose proof (fetch_results_raises _ _ _ H) as He. subst e.
  split; [reflexivity|apply Hfail; reflexivity].
Qed.

End Steps.

(* ================================================================== *)
(** ** Runs of [start_scraping] *)

Section Runs.

Context {W E : Type} (drv : Driver W E).
Variable OUTPUT_FOLDER : string.
Variable MONTHS_PERIOD : Z.
Variable BASE_URL : string.
Variable TIMEOUT_SECONDS : Z.
Variable CATEGORY_FILTER : string.

Local Abbreviation fetch := (fetch_results drv OUTPUT_FOLDER TIMEOUT_SECONDS).
Local Abbreviation navigate := (navigate_to_next_page drv).
Local Abbreviation should_continue st page :=
  (should_continue_scraping_based_on_time
     MONTHS_PERIOD (clock drv (world st)) page).
Local Abbreviation fetched :=
  (pages_fetched drv OUTPUT_FOLDER MONTHS_PERIOD TIMEOUT_SECONDS).
Local Abbreviation loop :=
  (scrape_loop drv OUTPUT_FOLDER MONTHS_PERIOD TIMEOUT_SECONDS).
Local Abbreviation launch := (launch_browser drv BASE_URL TIMEOUT_SECONDS).
Local Abbreviation search := (execute_search drv BASE_URL TIMEOUT_SECONDS).
Local Abbreviation filter_or_skip :=
  (apply_filter_or_skip drv TIMEOUT_SECONDS CATEGORY_FILTER).
Local Abbreviation body :=
  (scraping_body drv OUTPUT_FOLDER MONTHS_PERIOD BASE_URL TIMEOUT_SECONDS
     CATEGORY_FILTER).
Local Abbreviation start :=
  (start_scraping drv OUTPUT_FOLDER MONTHS_PERIOD BASE_URL TIMEOUT_SECONDS
     CATEGORY_FILTER).

(** The loop after a run of good pages is the loop from where they end. *)
Lemma loop_after_pages st0 pages st :
  fetched st0 pages st ->
  forall pc collected fuel,
    scrape_continues st0 = true ->
    loop (List.length pages + fuel) (pc, collected) st0
    = loop fuel (pc + Z.of_nat (List.length pages),
                 fold_left concat pages collected) st.
Proof.
  induction 1 as [st|st page st1 st2 pages st3 Hf Hg Hn Hrest IH];
    intros pc collected fuel Hflag.
  - cbn [List.length Nat.add fold_left]. rewrite Z.add_0_r. reflexivity.
  - cbn [List.length Nat.add fold_left].
    rewrite (loop_next_page drv OUTPUT_FOLDER MONTHS_PERIOD TIMEOUT_SECONDS
               _ pc collected st page st1 st2 Hflag Hf Hg Hn).
    rewrite IH by (rewrite (navigate_keeps_flag drv _ _ _ Hn); reflexivity).
    f_equal. f_equal. lia.
Qed.

Lemma loop_stops fuel pc collected st page st1 :
  scrape_continues st = true ->
  fetch st = (Ok page, st1) ->
  should_continue st1 page = Ok false ->
  loop (S fuel) (pc, collected) st
  = Some (Ok (concat collected page), with_flag false st1).
Proof.
  intros Hflag Hfetch Hgo.
  cbn [scrape_loop]. rewrite Hflag. unfold scrape_page.
  rewrite Hfetch, Hgo. cbn. destruct fuel; reflexivity.
Qed.

Lemma loop_raises fuel pc collected st page st1 e :
  scrape_continues st = true ->
  fetch st = (Ok page, st1) ->
  should_continue st1 page = Raise e ->
  e <> ScrapingError ->
  loop (S fuel) (pc, collected) st = Some (Raise e, st1).
Proof.
  intros Hflag Hfetch Hgo He.
  cbn [scrape_loop]. rewrite Hflag. unfold scrape_page.
  rewrite Hfetch, Hgo. unfold on_page_error.
  destruct e; try congruence; reflexivity.
Qed.

Lemma loop_with_flag_down fuel locals st :
  scrape_continues st = false -> loop fuel locals st = Some (Ok (snd locals), st).
Proof. intros H. destruct fuel; cbn [scrape_loop]; rewrite H; reflexivity. Qed.

(** [start_scraping] around an outcome of the loop, when closing the
    browser raises nothing: the outcome passes. *)
Lemma start_around_loop fuel query st_init st_launched st_searched
      filtered st_filtered r st_final :
  launch st_init = (Ok tt, st_launched) ->
  search query st_launched = (Ok tt, st_searched) ->
  filter_or_skip st_searched = (filtered, st_filtered) ->
  loop fuel (1, empty_frame) st_filtered = Some (r, st_final) ->
  fst (close_browser drv (world st_final)) = Ok tt ->
  exists st_end,
    start fuel query st_init = Some (r, st_end)
    /\ scrape_continues st_end = scrape_continues st_final.
Proof.
  intros Hlaunch Hsearch Hfilter Hloop Hclose.
  destruct (apply_filter_or_skip_ok drv TIMEOUT_SECONDS CATEGORY_FILTER
              _ _ _ Hfilter) as [-> _].
  unfold start_scraping, managed_browser, scraping_body.
  rewrite Hlaunch, Hsearch, Hfilter, Hloop.
  destruct (browser st_final); [|eauto].
  unfold call. destruct (close_browser drv (world st_final)) as [rc w].
  simpl in Hclose. subst rc. eexists. split; reflexivity.
Qed.

Lemma flag_before_loop query st_init st_launched st_searched
      filtered st_filtered :
  launch st_init = (Ok tt, st_launched) ->
  search query st_launched = (Ok tt, st_searched) ->
  filter_or_skip st_searched = (filtered, st_filtered) ->
  scrape_continues st_filtered = scrape_continues st_init.
Proof.
  intros Hlaunch Hsearch Hfilter.
  destruct (apply_filter_or_skip_ok drv TIMEOUT_SECONDS CATEGORY_FILTER
              _ _ _ Hfilter) as [_ Hk].
  rewrite Hk, (execute_search_keeps_flag drv _ _ _ _ _ _ Hsearch),
          (launch_browser_keeps_flag drv _ _ _ _ _ Hlaunch).
  reflexivity.
Qed.

(** X6.  The time-based stop.  Once the browser is launched and the search
    done, let the loop fetch [pages], deciding each time to go on and
    reaching the next page; if the stop condition then says stop on the
    following page, [start_scraping] returns [pages] and that page
    concatenated in order, with [self.scrape_continues] false, and fetches
    nothing more, provided closing the browser raises nothing. *)
Theorem stop_decision_ends_the_run :
  forall (query : string) (st_init st_launched st_searched : State W)
         (filtered : result unit) (st_filtered st : State W)
         (pages : list DataFrame) (page : DataFrame) (st1 : State W)
         (fuel : nat),
    scrape_continues st_init = true ->
    launch st_init = (Ok tt, st_launched) ->
    search query st_launched = (Ok tt, st_searched) ->
    filter_or_skip st_searched = (filtered, st_filtered) ->
    fetched st_filtered pages st ->
    fetch st = (Ok page, st1) ->
    should_continue st1 page = Ok false ->
    fst (close_browser drv (world st1)) = Ok tt ->
    (List.length pages < fuel)%nat ->
    exists st_end,
      start fuel query st_init
      = Some (Ok (fold_left concat (pages ++ [page]) empty_frame), st_end)
      /\ scrape_continues st_end = false.
Proof.
  intros query st_init stA stB filtered stC st pages page st1 fuel
         Hflag Hlaunch Hsearch Hfilter Hpages Hfetch Hstop Hclose Hfuel.
  assert (HflagC : scrape_continues stC = true)
    by (rewrite (flag_before_loop _ _ _ _ _ _ Hlaunch Hsearch Hfilter);
        exact Hflag).
  destruct (start_around_loop fuel query st_init stA stB filtered stC
              (Ok (fold_left concat (pages ++ [page]) empty_frame))
              (with_flag false st1) Hlaunch Hsearch Hfilter)
    as (st_end & Hrun & Hend); [|exact Hclose|eauto].
  replace fuel with (List.length pages + S (fuel - S (List.length pages)))%nat
    by lia.
  rewrite (loop_after_pages _ _ _ Hpages 1 empty_frame _ HflagC).
  rewrite fold_left_app. cbn [fold_left].
  apply loop_stops; [|exact Hfetch|exact Hstop].
  eapply pages_fetched_flag; eassumption.
Qed.

(** X7.  A page without any card ends the run with an exception.  When
    the results container holds no card, the fetch answers the frame
    without columns; on such a page the stop condition raises [KeyError],
    which the loop does not catch: [start_scraping] raises it, and the
    pages gathered before are not returned. *)
Theorem empty_page_raises_out_of_the_run :
  (forall (st : State W) (st1 : State W),
      locate_articles drv TIMEOUT_SECONDS st = (Ok [], st1) ->
      fetch_results_once drv OUTPUT_FOLDER TIMEOUT_SECONDS st
      = (Ok (DataFrame_of []), st1))
  /\
  (forall (query : string) (st_init st_launched st_searched : State W)
          (filtered : result unit) (st_filtered st : State W)
          (pages : list DataFrame) (page : DataFrame) (st1 : State W)
          (fuel : nat),
      scrape_continues st_init = true ->
      launch st_init = (Ok tt, st_launched) ->
      search query st_launched = (Ok tt, st_searched) ->
      filter_or_skip st_searched = (filtered, st_filtered) ->
      fetched st_filtered pages st ->
      fetch st = (Ok page, st1) ->
      has_column page "DateTime" = false ->
      fst (close_browser drv (world st1)) = Ok tt ->
      (List.length pages < fuel)%nat ->
      exists st_end,
        start fuel query st_init = Some (Raise KeyError, st_end)).
Proof.
  split.
  - intros st st1 Hloc. unfold fetch_results_once, try_except, bind.
    rewrite Hloc. reflexivity.
  - intros query st_init stA stB filtered stC st pages page st1 fuel
           Hflag Hlaunch Hsearch Hfilter Hpages Hfetch Hcol Hclose Hfuel.
    assert (HflagC : scrape_continues stC = true)
      by (rewrite (flag_before_loop _ _ _ _ _ _ Hlaunch Hsearch Hfilter);
          exact Hflag).
    destruct (start_around_loop fuel query st_init stA stB filtered stC
                (Raise KeyError) st1 Hlaunch Hsearch Hfilter)
      as (st_end & Hrun & _); [|exact Hclose|eauto].
    replace fuel with (List.length pages + S (fuel - S (List.length pages)))%nat
      by lia.
    rewrite (loop_after_pages _ _ _ Hpages 1 empty_frame _ HflagC).
    apply loop_raises with (page := page);
      [eapply pages_fetched_flag; eassumption|exact Hfetch| |discriminate].
    unfold should_continue_scraping_based_on_time, valid_dates_df.
    rewrite Hcol. reflexivity.
Qed.

(** X8.  A scraper is good for one run.  [start_scraping] never puts
    [self.scrape_continues] back up: called on a scraper whose flag is
    down, it launches the browser and searches, fetches no page at all and
    returns the empty frame. *)
Theorem second_run_fetches_nothing :
  forall (query : string) (st_init st_launched st_searched : State W)
         (filtered : result unit) (st_filtered : State W) (fuel : nat),
    scrape_continues st_init = false ->
    launch st_init = (Ok tt, st_launched) ->
    search query st_launched = (Ok tt, st_searched) ->
    filter_or_skip st_searched = (filtered, st_filtered) ->
    fst (close_browser drv (world st_filtered)) = Ok tt ->
    exists st_end,
      start fuel query st_init = Some (Ok empty_frame, st_end)
      /\ slept st_end = slept st_filtered
      /\ scrape_continues st_end = false.
Proof.
  intros query st_init stA stB filtered stC fuel
         Hflag Hlaunch Hsearch Hfilter Hclose.
  assert (HflagC : scrape_continues stC = false)
    by (rewrite (flag_before_loop _ _ _ _ _ _ Hlaunch Hsearch Hfilter);
        exact Hflag).
  destruct (apply_filter_or_skip_ok drv TIMEOUT_SECONDS CATEGORY_FILTER
              _ _ _ Hfilter) as [-> _].
  unfold start_scraping, managed_browser, scraping_body.
  rewrite Hlaunch, Hsearch, Hfilter, (loop_with_flag_down fuel _ _ HflagC).
  cbn [snd].
  destruct (browser stC); [|eauto].
  unfold call. destruct (close_browser drv (world stC)) as [rc w].
  simpl in Hclose. subst rc. eexists. repeat split. exact HflagC.
Qed.

(** X9.  The filter is best effort: the guarded call of [apply_filter] in
    [start_scraping] never raises, whatever the browser does, so a filter
    that cannot be applied never ends the run. *)
Theorem filter_failure_is_skipped :
  forall st : State W, fst (filter_or_skip st) = Ok tt.
Proof.
  intros st. destruct (filter_or_skip st) as [r st'] eqn:H.
  destruct (apply_filter_or_skip_ok drv TIMEOUT_SECONDS CATEGORY_FILTER
              _ _ _ H) as [-> _].
  reflexivity.
Qed.

Lemma launch_browser_once_sets_browser st u st' :
  launch_browser_once drv BASE_URL TIMEOUT_SECONDS st = (Ok u, st') ->
  browser st' = true.
Proof.
  unfold launch_browser_once, try_except, bind.
  destruct (call (Selenium drv) st) as [[[]|e] st1] eqn:H1;
    [|intros H; discriminate H].
  cbn [set_browser].
  set (st2 := mkState (world st1) true (scrape_continues st1) (slept st1)).
  destruct (call (set_selenium_timeout drv TIMEOUT_SECONDS) st2)
    as [[[]|e] st3] eqn:H3; [|intros H; discriminate H].
  destruct (call (open_available_browser drv BASE_URL) st3)
    as [[[]|e] st4] eqn:H4; intros H; inversion H; subst.
  rewrite (preserves_call browser _ browser_world_blind _ _ _ H4).
  rewrite (preserves_call browser _ browser_world_blind _ _ _ H3).
  reflexivity.
Qed.

Lemma launch_sets_browser st u st' :
  launch st = (Ok u, st') -> browser st' = true.
Proof.
  unfold launch_browser. rewrite retry_unfold.
  destruct (launch_browser_once drv BASE_URL TIMEOUT_SECONDS st)
    as [[v|e] st1] eqn:H1.
  - intros H. inversion H; subst.
    eapply launch_browser_once_sets_browser; eassumption.
  - destruct e; try discriminate.
    destruct (launch_browser_once drv BASE_URL TIMEOUT_SECONDS
                (after_sleep drv 1 st1)) as [[v|e] st2] eqn:H2.
    + intros H. inversion H; subst.
      eapply launch_browser_once_sets_browser; eassumption.
    + destruct e; try discriminate. intros H.
      eapply launch_browser_once_sets_browser; eassumption.
Qed.

Lemma fetch_preserves_browser : preserves browser fetch.
Proof.
  apply preserves_browser_retry.
  apply preserves_fetch_results_once. apply browser_world_blind.
Qed.

Lemma navigate_preserves_browser : preserves browser navigate.
Proof.
  apply preserves_browser_retry.
  apply preserves_navigate_once. apply browser_world_blind.
Qed.

Lemma on_page_error_browser {A} (locals : A) e (st : State W) r st' :
  on_page_error locals e st = (r, st') -> browser st' = browser st.
Proof.
  unfold on_page_error. destruct (exn_eqb e ScrapingError);
    intros H; inversion H; reflexivity.
Qed.

Lemma scrape_page_browser locals st r st' :
  scrape_page drv OUTPUT_FOLDER MONTHS_PERIOD TIMEOUT_SECONDS locals st
  = (r, st') ->
  browser st' = browser st.
Proof.
  destruct locals as [pc collected]. unfold scrape_page.
  destruct (fetch st) as [[page|e] st1] eqn:Hf.
  - pose proof (fetch_preserves_browser _ _ _ Hf) as B1.
    destruct (should_continue st1 page) as [go|e].
    + cbn [set_scrape_continues].
      destruct go.
      * match goal with |- context [navigate ?s] =>
          destruct (navigate s) as [[u|e] st3] eqn:Hn end.
        -- intros H. inversion H; subst.
           rewrite (navigate_preserves_browser _ _ _ Hn). exact B1.
        -- intros H. apply on_page_error_browser in H.
           rewrite H, (navigate_preserves_browser _ _ _ Hn). exact B1.
      * intros H. inversion H; subst. exact B1.
    + intros H. apply on_page_error_browser in H. congruence.
  - intros H. apply on_page_error_browser in H.
    rewrite H. eapply fetch_preserves_browser; eassumption.
Qed.

Lemma scrape_loop_browser fuel : forall locals st r st',
  loop fuel locals st = Some (r, st') -> browser st' = browser st.
Proof.
  induction fuel as [|fuel IH]; intros locals st r st'; cbn [scrape_loop];
    destruct (scrape_continues st); try discriminate;
    try (intros H; inversion H; reflexivity).
  destruct (scrape_page drv OUTPUT_FOLDER MONTHS_PERIOD TIMEOUT_SECONDS
              locals st) as [[locals'|e] st1] eqn:Hp.
  - intros H. rewrite (IH _ _ _ _ H). eapply scrape_page_browser; eassumption.
  - intros H. inversion H; subst. eapply scrape_page_browser; eassumption.
Qed.

Lemma body_browser fuel query st r st' :
  body fuel query st = Some (r, st') -> browser st' = browser st.
Proof.
  unfold scraping_body.
  destruct (search query st) as [[u|e] st1] eqn:Hs.
  - assert (B1 : browser st1 = browser st).
    { revert Hs. unfold execute_search. apply preserves_browser_retry.
      apply preserves_execute_search_once. apply browser_world_blind. }
    destruct (filter_or_skip st1) as [[v|e] st2] eqn:Hf.
    + assert (B2 : browser st2 = browser st1).
      { revert Hf. unfold apply_filter_or_skip.
        apply preserves_try.
        - unfold apply_filter. apply preserves_browser_retry.
          apply preserves_apply_filter_once. apply browser_world_blind.
        - intros e. apply preserves_if; auto with frame. }
      intros H. rewrite (scrape_loop_browser _ _ _ _ _ H). congruence.
    + intros H. inversion H; subst.
      assert (B2 : browser st' = browser st1).
      { revert Hf. unfold apply_filter_or_skip.
        apply preserves_try.
        - unfold apply_filter. apply preserves_browser_retry.
          apply preserves_apply_filter_once. apply browser_world_blind.
        - intros e0. apply preserves_if; auto with frame. }
      congruence.
  - intros H. inversion H; subst.
    revert Hs. unfold execute_search. apply preserves_browser_retry.
    apply preserves_execute_search_once. apply browser_world_blind.
Qed.

(** X10.  The browser that was launched is closed.  Once [launch_browser]
    has succeeded, whatever the body of [start_scraping] does, return or
    raise, the run ends with a call of [close_browser] on the world the
    body left; the outcome is the body's, or the exception of the closing
    when there is one. *)
Theorem launched_browser_is_closed :
  forall (fuel : nat) (query : string) (st_init st_launched : State W)
         (r : result DataFrame) (st_body : State W),
    launch st_init = (Ok tt, st_launched) ->
    body fuel query st_launched = Some (r, st_body) ->
    exists r' st_end,
      start fuel query st_init = Some (r', st_end)
      /\ world st_end = snd (close_browser drv (world st_body))
      /\ match fst (close_browser drv (world st_body)) with
         | Ok _ => r' = r
         | Raise e => r' = Raise e
         end.
Proof.
  intros fuel query st_init stA r stB Hlaunch Hbody.
  unfold start_scraping, managed_browser. rewrite Hlaunch, Hbody.
  rewrite (body_browser _ _ _ _ _ Hbody), (launch_sets_browser _ _ _ Hlaunch).
  unfold call. destruct (close_browser drv (world stB)) as [[u|e] w];
    eexists; eexists; repeat split.
Qed.

End Runs.

(* ================================================================== *)
(** ** What [parse_date] returns and raises *)

Section ParseDateOutcomes.

(** Whatever is subtracted, an instant that [sub] answers is valid. *)
Lemma sub_valid now delta t :
  valid now = true -> sub now delta = Ok t -> valid t = true.
Proof.
  intros Hvalid. pose proof Hvalid as Htime. unfold valid in Htime.
  apply andb_prop in Htime as [_ Htime].
  apply check_time_fields_elim in Htime as (_ & _ & _ & Hus).
  unfold sub.
  set (total := (toordinal now - td_days delta) * 86400
                + (hour now * 3600 + minute now * 60 + second now)
                - td_seconds delta).
  pose proof (Z.mod_pos_bound total 86400 ltac:(reflexivity)) as Hmb.
  set (days := total / 86400) in *. set (secs := total mod 86400) in *.
  destruct ((0 <? days) && (days <=? MAXORDINAL)) eqn:Hrange; [|discriminate].
  apply andb_prop in Hrange as [H0 H1].
  apply Z.ltb_lt in H0. apply Z.leb_le in H1.
  destruct (ord2ymd days) as [[y m] d] eqn:Hymd.
  destruct (ord2ymd_spec days y m d ltac:(lia) Hymd) as [Hcheck _].
  intros H. inversion H; subst t. clear H.
  unfold valid. cbn [year month day hour minute second microsecond].
  rewrite Hcheck. cbn [andb].
  pose proof (Z.div_mod secs 3600 ltac:(discriminate)).
  pose proof (Z.mod_pos_bound secs 3600 ltac:(reflexivity)).
  pose proof (Z.div_mod (secs mod 3600) 60 ltac:(discriminate)).
  pose proof (Z.mod_pos_bound (secs mod 3600) 60 ltac:(reflexivity)).
  pose proof (Z.mod_pos_bound secs 60 ltac:(reflexivity)).
  apply check_time_fields_intro; lia.
Qed.

Lemma ago_raises now d h mi e :
  ago now d h mi = Raise e -> e = OverflowError.
Proof.
  unfold ago, make_timedelta, sub.
  destruct (Z.abs _ <=? 999999999); [|intros H; inversion H; reflexivity].
  cbv zeta. destruct (_ && _);
    [destruct (ord2ymd _) as [[y m] d0]; discriminate
    |intros H; inversion H; reflexivity].
Qed.

Lemma ago_ok now d h mi r :
  ago now d h mi = Ok r ->
  exists t, r = isoformat_minutes t /\ (valid now = true -> valid t = true).
Proof.
  unfold ago. destruct (make_timedelta d h mi) as [delta|e]; [|discriminate].
  destruct (sub now delta) as [t|e] eqn:Hsub; [|discriminate].
  intros H. inversion H; subst. exists t. split; [reflexivity|].
  intros Hv. eapply sub_valid; eassumption.
Qed.

Lemma first_number_raises s e :
  first_number s = Raise e -> e = IndexError \/ e = ValueError.
Proof.
  unfold first_number, int. destruct (Text.findall_digits s) as [|d l].
  - intros H. inversion H. auto.
  - destruct (_ <=? _)%nat; intros H; inversion H. auto.
Qed.

Lemma strptime_raises s e : strptime_B_d_Y s = Raise e -> e = ValueError.
Proof.
  unfold strptime_B_d_Y.
  destruct (match_month MONTH_NAMES 1 s) as [[m r]|];
    [|intros H; inversion H; reflexivity].
  destruct (skip_spaces1 r) as [r1|]; [|intros H; inversion H; reflexivity].
  destruct (match_day_comma r1) as [[d r2]|];
    [|intros H; inversion H; reflexivity].
  destruct (skip_spaces1 r2) as [r3|]; [|intros H; inversion H; reflexivity].
  destruct (take_digits 4 0 r3) as [[y [|c r4]]|];
    try (intros H; inversion H; reflexivity).
  apply make_raises.
Qed.

Lemma strptime_ok s t : strptime_B_d_Y s = Ok t -> valid t = true.
Proof.
  unfold strptime_B_d_Y.
  destruct (match_month MONTH_NAMES 1 s) as [[m r]|]; [|discriminate].
  destruct (skip_spaces1 r) as [r1|]; [|discriminate].
  destruct (match_day_comma r1) as [[d r2]|]; [|discriminate].
  destruct (skip_spaces1 r2) as [r3|]; [|discriminate].
  destruct (take_digits 4 0 r3) as [[y [|c r4]]|]; try discriminate.
  apply make_valid.
Qed.

(** The outcomes of the [try] of [parse_date]. *)
Lemma parse_date_body_outcomes now s :
  match parse_date_body now s with
  | Ok r => exists t, r = isoformat_minutes t /\ (valid now = true -> valid t = true)
  | Raise e => e = IndexError \/ e = ValueError \/ e = OverflowError
  end.
Proof.
  unfold parse_date_body. cbv zeta.
  destruct (_ || _).
  { destruct (first_number s) as [n|e] eqn:Hn.
    - destruct (ago now 0 0 n) as [r|e] eqn:Ha.
      + apply ago_ok in Ha. exact Ha.
      + apply ago_raises in Ha. auto.
    - apply first_number_raises in Hn. tauto. }
  destruct (_ || _).
  { destruct (first_number s) as [n|e] eqn:Hn.
    - destruct (ago now 0 n 0) as [r|e] eqn:Ha.
      + apply ago_ok in Ha. exact Ha.
      + apply ago_raises in Ha. auto.
    - apply first_number_raises in Hn. tauto. }
  destruct (Text.contains "yesterday" (Text.lower s)).
  { destruct (ago now 1 0 0) as [r|e] eqn:Ha.
    - apply ago_ok in Ha. exact Ha.
    - apply ago_raises in Ha. auto. }
  match goal with |- context [strptime_B_d_Y ?x] =>
    destruct (strptime_B_d_Y x) as [t|e] eqn:Hp end.
  - exists t. split; [reflexivity|]. intros _. eapply strptime_ok; eassumption.
  - apply strptime_raises in Hp. auto.
Qed.

(** X11.  What [parse_date] gives.  With a valid clock, every text leads
    to one of three outcomes: the parse-error sentinel; the ISO text, to the
    minute, of a valid instant, which [fromisoformat] reads back as that
    instant; or an exception, which is then [IndexError] or
    [OverflowError] and never [ValueError]. *)
Theorem parse_date_outcomes :
  forall (now : datetime) (s : string),
    valid now = true ->
    match parse_date now s with
    | Ok r =>
        r = ERROR_DATE_PROCESSING
        \/ exists t, valid t = true /\ r = isoformat_minutes t
                     /\ fromisoformat r = Ok (truncate_to_minute t)
    | Raise e => e = IndexError \/ e = OverflowError
    end.
Proof.
  intros now s Hvalid. unfold parse_date.
  pose proof (parse_date_body_outcomes now (Text.strip s)) as H.
  destruct (parse_date_body now (Text.strip s)) as [r|e].
  - destruct H as (t & -> & Hv). right. exists t.
    split; [auto|]. split; [reflexivity|].
    apply fromisoformat_isoformat_minutes. auto.
  - destruct H as [->|[->| ->]]; auto.
Qed.

Lemma first_number_IndexError s :
  first_number s = Raise IndexError <-> Text.findall_digits s = [].
Proof.
  unfold first_number, int. destruct (Text.findall_digits s) as [|d l].
  - split; reflexivity.
  - destruct (_ <=? _)%nat; split; discriminate.
Qed.

Lemma relative_IndexError s (pick : Z -> result string) :
  (forall n e, pick n = Raise e -> e = OverflowError) ->
  match match first_number s with
        | Raise e => Raise e
        | Ok n => pick n
        end
  with
  | Raise ValueError => Ok ERROR_DATE_PROCESSING
  | r => r
  end = Raise IndexError
  <-> Text.findall_digits s = [].
Proof.
  intros Hpick. rewrite <- first_number_IndexError.
  destruct (first_number s) as [n|e] eqn:Hn.
  - destruct (pick n) as [r|e] eqn:Hp.
    + split; discriminate.
    + rewrite (Hpick _ _ Hp). split; discriminate.
  - destruct (first_number_raises _ _ Hn) as [->| ->]; split;
      try reflexivity; discriminate.
Qed.

(** X12.  The texts on which [parse_date] raises [IndexError] are exactly
    those that, stripped, hold one of the markers ['min ago'],
    ['mins ago'], ['hour ago'], ['hours ago'] (in any case) and no digit
    at all. *)
Theorem parse_date_IndexError_iff :
  forall (now : datetime) (s : string),
    parse_date now s = Raise IndexError
    <->
    (Text.contains "min ago" (Text.lower (Text.strip s))
     || Text.contains "mins ago" (Text.lower (Text.strip s))
     || Text.contains "hour ago" (Text.lower (Text.strip s))
     || Text.contains "hours ago" (Text.lower (Text.strip s))) = true
    /\ Text.findall_digits (Text.strip s) = [].
Proof.
  intros now s. unfold parse_date, parse_date_body. cbv zeta.
  set (t := Text.strip s). set (low := Text.lower t).
  destruct (Text.contains "min ago" low || Text.contains "mins ago" low)
    eqn:Hmin.
  { rewrite (relative_IndexError t (fun n => ago now 0 0 n))
      by (intros n e; apply ago_raises).
    cbn [orb]. tauto. }
  cbn [orb].
  destruct (Text.contains "hour ago" low || Text.contains "hours ago" low)
    eqn:Hhour.
  { rewrite (relative_IndexError t (fun n => ago now 0 n 0))
      by (intros n e; apply ago_raises).
    tauto. }
  split; [|intros [H _]; discriminate H].
  intros H. exfalso.
  destruct (Text.contains "yesterday" low).
  - destruct (ago now 1 0 0) as [r|e] eqn:Ha; [discriminate|].
    rewrite (ago_raises _ _ _ _ _ Ha) in H. discriminate.
  - match type of H with context [strptime_B_d_Y ?x] =>
      destruct (strptime_B_d_Y x) as [d|e] eqn:Hp end; [discriminate|].
    rewrite (strptime_raises _ _ Hp) in H. discriminate.
Qed.

Lemma decimal_aux_head fuel : forall n c r,
  Text.is_digit c = true ->
  exists c' r', Text.decimal_aux fuel n (String c r) = String c' r'
                /\ Text.is_digit c' = true.
Proof.
  induction fuel as [|fuel IH]; intros n c r Hc; cbn [Text.decimal_aux].
  - eauto.
  - destruct (n <? 10).
    + exists (Text.digit_char n). eexists. split; [reflexivity|].
      apply is_digit_digit_char.
    + apply IH. apply is_digit_digit_char.
Qed.

Lemma decimal_head n :
  exists c r, Text.decimal n = String c r /\ Text.is_digit c = true.
Proof.
  unfold Text.decimal. cbn [Text.decimal_aux]. destruct (n <? 10).
  - exists (Text.digit_char n). eexists. split; [reflexivity|].
    apply is_digit_digit_char.
  - apply decimal_aux_head. apply is_digit_digit_char.
Qed.

Lemma zero_pad_head w n :
  exists c r, Text.zero_pad w n = String c r /\ Text.is_digit c = true.
Proof.
  unfold Text.zero_pad. destruct (decimal_head n) as (c & r & -> & Hc).
  destruct (w - String.length (String c r))%nat as [|k]; cbn [Text.zeros append].
  - eauto.
  - exists "0"%char. eexists. split; reflexivity.
Qed.

(** An ISO text starts with a digit. *)
Lemma isoformat_minutes_head t :
  exists c r, isoformat_minutes t = String c r /\ Text.is_digit c = true.
Proof.
  unfold isoformat_minutes.
  destruct (zero_pad_head 4 (year t)) as (c & r & -> & Hc).
  cbn [append]. eauto.
Qed.

End ParseDateOutcomes.

Section DateTimeField.

Context {W E : Type} (drv : Driver W E).
Variable OUTPUT_FOLDER : string.

Lemma timestamp_of_ok article cls st d st' :
  timestamp_of drv article cls st = (Ok d, st') ->
  d = ERROR_DATE_PROCESSING \/ exists t, d = isoformat_minutes t.
Proof.
  unfold timestamp_of, bind, parse_date_now.
  destruct (call (element_find_element drv article cls) st)
    as [[stamp|e] st1]; [|discriminate].
  destruct (call (element_text drv stamp) st1) as [[text|e] st2];
    [|discriminate].
  unfold parse_date.
  pose proof (parse_date_body_outcomes (clock drv (world st2))
                (Text.strip text)) as H.
  destruct (parse_date_body _ _) as [r|e].
  - destruct H as (t & -> & _). intros H. inversion H; subst. eauto.
  - destruct e; intros H0; inversion H0; subst; auto.
Qed.

Lemma extract_date_time_ok article st d st' :
  extract_date_time drv article st = (Ok d, st') ->
  d = ERROR_DATE_PROCESSING \/ d = "DateTime Not Available"
  \/ exists t, d = isoformat_minutes t.
Proof.
  unfold extract_date_time, try_except.
  destruct (timestamp_of drv article "Timestamp-template-now" st)
    as [[d1|e1] st1] eqn:H1.
  - intros H. inversion H; subst.
    destruct (timestamp_of_ok _ _ _ _ _ H1); tauto.
  - destruct (timestamp_of drv article "Timestamp-template" st1)
      as [[d2|e2] st2] eqn:H2.
    + intros H. inversion H; subst.
      destruct (timestamp_of_ok _ _ _ _ _ H2); tauto.
    + intros H. inversion H; subst. auto.
Qed.

(** X13.  The [DateTime] that extraction writes is one of three texts:
    an ISO text, the parse-error sentinel, or ['DateTime Not Available'],
    which is also what an [IndexError] or [OverflowError] of [parse_date]
    ends as.  It is never [DATE_NOT_FOUND]: the first test of the date
    filter of the stop condition removes no scraped article. *)
Theorem extracted_DateTime_is_never_DATE_NOT_FOUND :
  forall (article : E) (st : State W) (a : Article) (st' : State W),
    extract_article drv OUTPUT_FOLDER article st = (Ok a, st') ->
    (DateTime a = ERROR_DATE_PROCESSING
     \/ DateTime a = "DateTime Not Available"
     \/ exists t, DateTime a = isoformat_minutes t)
    /\ DateTime a <> DATE_NOT_FOUND.
Proof.
  intros article st a st'. unfold extract_article, bind.
  destruct (call (element_find_element drv article "Link") st)
    as [[link|e] st1]; [|discriminate].
  destruct (call (element_get_attribute drv link "href") st1)
    as [[href|e] st2]; [|discriminate].
  destruct (call (element_get_attribute drv article "data-gtm-region") st2)
    as [[region|e] st3]; [|discriminate].
  destruct (extract_description drv article st3) as [[d|e] st4];
    [|discriminate].
  destruct (extract_image drv OUTPUT_FOLDER article (str href) st4)
    as [[i|e] st5]; [|discriminate].
  destruct (extract_date_time drv article st5) as [[t|e] st6] eqn:Hd;
    [|discriminate].
  intros H. inversion H; subst. cbn [DateTime].
  pose proof (extract_date_time_ok _ _ _ _ Hd) as Hshape.
  split; [exact Hshape|].
  destruct Hshape as [->|[->|(t0 & ->)]]; try discriminate.
  destruct (isoformat_minutes_head t0) as (c & r & -> & Hc).
  intros Heq. inversion Heq; subst. discriminate Hc.
Qed.

End DateTimeField.

(* ================================================================== *)
(** ** [download_image]: its outcomes and the name of the file *)

Section DownloadImage.

Context {W E : Type} (drv : Driver W E).
Variable OUTPUT_FOLDER : string.

(** X14.  [download_image] answers [None] or the file name made from the
    URL of the article; an exception that leaves it was raised by the
    making of the folder, or is neither a [RequestException] nor an
    [OSError]. *)
Theorem download_image_outcomes :
  forall (url : string) (src : option string) (st : State W)
         (r : result (option string)) (st' : State W),
    download_image drv OUTPUT_FOLDER url src st = (r, st') ->
    match r with
    | Ok (Some name) => name = img_filename_of url
    | Ok None => True
    | Raise e =>
        call (mkdir drv (img_folder OUTPUT_FOLDER)) st = (Raise e, st')
        \/ is_RequestException_or_OSError e = false
    end.
Proof.
  intros url src st r st'. unfold download_image.
  unfold bind at 1.
  destruct (call (mkdir drv (img_folder OUTPUT_FOLDER)) st)
    as [[[]|e] st1] eqn:Hm.
  - unfold try_except.
    match goal with |- (match ?m st1 with _ => _ end) = _ -> _ =>
      destruct (m st1) as [[v|e] st2] eqn:Hbody end.
    + intros H. inversion H; subst. clear H.
      revert Hbody. unfold bind.
      destruct (call (requests_get drv src) st1) as [[resp|e] st3];
        [|discriminate].
      destruct (raise_for_status resp st3) as [[[]|e] st5]; [|discriminate].
      destruct (call (write_file drv _ _) st5) as [[[]|e] st4];
        [|discriminate].
      unfold ret. intros H. inversion H. reflexivity.
    + destruct (is_RequestException_or_OSError e) eqn:He;
        intros H; inversion H; subst; auto.
  - intros H. inversion H; subst. auto.
Qed.

End DownloadImage.

Section FileName.

Lemma rev_string_acc s : forall acc,
  Text.rev_string acc s = (Text.rev_string EmptyString s ++ acc)%string.
Proof.
  induction s as [|c s IH]; intros acc; cbn [Text.rev_string].
  - reflexivity.
  - rewrite IH, (IH (String c EmptyString)).
    generalize (Text.rev_string EmptyString s). intros r.
    induction r as [|x r IHr]; cbn [append]; [reflexivity|].
    rewrite IHr. reflexivity.
Qed.

Lemma string_app_assoc (a b c : string) :
  ((a ++ b) ++ c)%string = (a ++ (b ++ c))%string.
Proof. induction a as [|x a IH]; cbn [append]; [reflexivity|]. rewrite IH. reflexivity. Qed.

Lemma contains_char_cons sep c r :
  Text.contains (String sep EmptyString) (String c r)
  = Ascii.eqb sep c || Text.contains (String sep EmptyString) r.
Proof.
  cbn [Text.contains Text.startswith]. rewrite andb_true_r. reflexivity.
Qed.

Lemma split_last_aux_no_sep sep s : forall cur,
  Text.contains (String sep EmptyString) s = false ->
  Text.split_last_aux sep cur s = (Text.rev_string EmptyString cur ++ s)%string.
Proof.
  induction s as [|c s IH]; intros cur H; cbn [Text.split_last_aux].
  - rewrite append_empty. reflexivity.
  - rewrite contains_char_cons in H. apply orb_false_elim in H as [Hc Hs].
    rewrite Ascii.eqb_sym, Hc, (IH _ Hs). cbn [Text.rev_string].
    rewrite rev_string_acc, string_app_assoc. reflexivity.
Qed.

Lemma split_last_aux_after_sep sep p s : forall cur,
  Text.split_last_aux sep cur (p ++ String sep s)
  = Text.split_last_aux sep EmptyString s.
Proof.
  induction p as [|c p IH]; intros cur; cbn [append Text.split_last_aux].
  - rewrite Ascii.eqb_refl. reflexivity.
  - destruct (Ascii.eqb c sep); apply IH.
Qed.

(** X15.  The image file is named by the last segment of the URL alone:
    for a segment [name] without slash, every URL that ends with [/name],
    and [name] itself, give the file [name.png]; articles whose URLs share
    their last segment share their image file. *)
Theorem image_file_name_is_last_segment :
  forall (name : string),
    Text.contains "/" name = false ->
    img_filename_of name = (name ++ ".png")%string
    /\ forall front : string,
         img_filename_of (front ++ "/" ++ name) = (name ++ ".png")%string.
Proof.
  intros name Hname. unfold img_filename_of, Text.split_last. split.
  - rewrite (split_last_aux_no_sep "/" name EmptyString Hname). reflexivity.
  - intros front. cbn [append].
    rewrite (split_last_aux_after_sep "/" front name EmptyString).
    rewrite (split_last_aux_no_sep "/" name EmptyString Hname). reflexivity.
Qed.

End FileName.

(* ================================================================== *)
(** ** [check_money_text]: what the money pattern finds *)

Section Money.

Lemma money_search_head s : money_at s = true -> money_search s = true.
Proof. intros H. destruct s; cbn [money_search]; rewrite H; reflexivity. Qed.

Lemma money_search_app_l a s :
  money_search s = true -> money_search (a ++ s) = true.
Proof.
  intros H. induction a as [|c a IH]; cbn [append]; [exact H|].
  cbn [money_search]. rewrite IH. apply orb_true_r.
Qed.

Lemma startswith_nocase_app p : forall s b,
  startswith_nocase p s = true -> startswith_nocase p (s ++ b) = true.
Proof.
  induction p as [|x p IH]; intros s b H; [reflexivity|].
  destruct s as [|y s]; [discriminate|].
  cbn [append startswith_nocase] in *.
  apply andb_true_iff in H as [Hx Hp]. rewrite Hx, (IH _ _ Hp). reflexivity.
Qed.

Lemma skip_digits_app r b :
  skip_digits r <> EmptyString ->
  skip_digits (r ++ b) = (skip_digits r ++ b)%string.
Proof.
  induction r as [|c r IH]; intros H; [contradiction H; reflexivity|].
  cbn [append skip_digits] in *.
  destruct (Text.is_digit c); [apply IH, H|reflexivity].
Qed.

Lemma startswith_nocase_nonempty x p s :
  startswith_nocase (String x p) s = true -> s <> EmptyString.
Proof. destruct s; [discriminate|]. intros _ H. discriminate H. Qed.

Lemma money_at_app_r s b : money_at s = true -> money_at (s ++ b) = true.
Proof.
  destruct s as [|c r]; [discriminate|]. cbn [append money_at].
  intros H. apply orb_true_iff in H as [H|H]; apply orb_true_iff.
  - left. apply andb_true_iff in H as [Hc Hd]. rewrite Hc.
    destruct r; [discriminate|]. exact Hd.
  - right. apply andb_true_iff in H as [Hc Hp]. rewrite Hc. cbn [andb].
    apply orb_true_iff in Hp as [Hp|Hp]; apply orb_true_iff; [left|right];
      (rewrite skip_digits_app;
       [apply startswith_nocase_app, Hp
       |exact (startswith_nocase_nonempty _ _ _ Hp)]).
Qed.

Lemma money_search_app_r s b :
  money_search s = true -> money_search (s ++ b) = true.
Proof.
  induction s as [|c s IH]; [discriminate|].
  cbn [money_search]. intros H. apply orb_true_iff in H as [H|H].
  - apply money_search_head, (money_at_app_r (String c s)), H.
  - cbn [append money_search]. rewrite (IH H). apply orb_true_r.
Qed.

Lemma money_search_found s :
  money_search s = true ->
  exists a rest, s = (a ++ rest)%string /\ money_at rest = true.
Proof.
  induction s as [|c s IH]; [discriminate|].
  cbn [money_search]. intros H. apply orb_true_iff in H as [H|H].
  - exists EmptyString, (String c s). auto.
  - destruct (IH H) as (a & rest & -> & Hat).
    exists (String c a), rest. auto.
Qed.

Lemma digits_then_rest r : forall c,
  Text.is_digit c = true ->
  exists pre c',
    String c r = (pre ++ String c' (skip_digits r))%string
    /\ Text.is_digit c' = true.
Proof.
  induction r as [|x r IH]; intros c Hc.
  - exists EmptyString, c. auto.
  - cbn [skip_digits]. destruct (Text.is_digit x) eqn:Hx.
    + destruct (IH x Hx) as (pre & c' & Heq & Hc').
      exists (String c pre), c'. cbn [append]. rewrite <- Heq. auto.
    + exists EmptyString, c. auto.
Qed.

Lemma blank_is_no_digit (b : ascii) :
  Ascii.eqb " " (Text.lower_char b) = true -> Text.is_digit b = false.
Proof.
  destruct b as [[] [] [] [] [] [] [] []]; vm_compute; congruence.
Qed.

Lemma skip_digits_blank p b :
  startswith_nocase (String " " p) b = true -> skip_digits b = b.
Proof.
  destruct b as [|x b]; [reflexivity|]. cbn [startswith_nocase skip_digits].
  intros H. apply andb_true_iff in H as [H _].
  rewrite (blank_is_no_digit _ H). reflexivity.
Qed.

Lemma money_at_dollar c b :
  Text.is_digit c = true -> money_at (String "$" (String c b)) = true.
Proof. intros H. cbn [money_at]. rewrite H. reflexivity. Qed.

Lemma money_at_amount c b :
  Text.is_digit c = true ->
  startswith_nocase " dollars" b || startswith_nocase " usd" b = true ->
  money_at (String c b) = true.
Proof.
  intros Hc H. cbn [money_at]. rewrite Hc. cbn [andb].
  apply orb_true_iff. right.
  assert (Hb : skip_digits b = b).
  { apply orb_true_iff in H as [H|H]; exact (skip_digits_blank _ _ H). }
  rewrite Hb. exact H.
Qed.

(** X16.  The money pattern finds something in a text exactly when the
    text holds a dollar sign directly followed by a digit, or a digit
    directly followed by a blank and the word dollars or usd in any
    mixture of cases. *)
Theorem money_search_iff :
  forall s : string,
    money_search s = true
    <-> exists (a : string) (c : ascii) (b : string),
          Text.is_digit c = true
          /\ (s = (a ++ String "$" (String c b))%string
              \/ (s = (a ++ String c b)%string
                  /\ startswith_nocase " dollars" b
                     || startswith_nocase " usd" b = true)).
Proof.
  intros s. split.
  - intros H. destruct (money_search_found s H) as (a & rest & -> & Hat).
    destruct rest as [|c r]; [discriminate|]. cbn [money_at] in Hat.
    apply orb_true_iff in Hat as [Hat|Hat].
    + apply andb_true_iff in Hat as [Hc Hd].
      destruct r as [|d r]; [discriminate|].
      apply Ascii.eqb_eq in Hc. subst c.
      exists a, d, r. auto.
    + apply andb_true_iff in Hat as [Hc Hp].
      destruct (digits_then_rest r c Hc) as (pre & c' & Heq & Hc').
      exists (a ++ pre)%string, c', (skip_digits r). split; [exact Hc'|].
      right. split; [|exact Hp].
      rewrite Heq. symmetry. apply string_app_assoc.
  - intros (a & c & b & Hc & [->|[-> Hp]]); apply money_search_app_l,
      money_search_head.
    + apply money_at_dollar, Hc.
    + apply money_at_amount; assumption.
Qed.

Lemma findall_digits_aux_cur c cur s :
  Text.findall_digits_aux (String c cur) s <> [].
Proof.
  revert c cur. induction s as [|x s IH]; intros c cur;
    cbn [Text.findall_digits_aux].
  - discriminate.
  - destruct (Text.is_digit x); [apply IH|discriminate].
Qed.

Lemma no_digits_no_money_at s :
  Text.findall_digits s = [] -> money_at s = false.
Proof.
  unfold Text.findall_digits. destruct s as [|c r]; [reflexivity|].
  cbn [Text.findall_digits_aux money_at].
  destruct (Text.is_digit c) eqn:Hc.
  - intros H. contradiction (findall_digits_aux_cur _ _ _ H).
  - intros H.
    destruct r as [|d r]; [rewrite andb_false_r; reflexivity|].
    cbn [Text.findall_digits_aux] in H.
    destruct (Text.is_digit d).
    + contradiction (findall_digits_aux_cur _ _ _ H).
    + rewrite andb_false_r. reflexivity.
Qed.

Lemma findall_digits_tail c r :
  Text.findall_digits (String c r) = [] -> Text.findall_digits r = [].
Proof.
  unfold Text.findall_digits. cbn [Text.findall_digits_aux].
  destruct (Text.is_digit c); [|auto].
  intros H. contradiction (findall_digits_aux_cur _ _ _ H).
Qed.

Lemma no_digits_no_money s :
  Text.findall_digits s = [] -> money_search s = false.
Proof.
  induction s as [|c s IH]; [reflexivity|]. intros H.
  cbn [money_search]. rewrite (no_digits_no_money_at _ H).
  apply IH, (findall_digits_tail _ _ H).
Qed.

Lemma findall_digits_app a b :
  Text.findall_digits a = [] -> Text.findall_digits b = [] ->
  Text.findall_digits (a ++ b) = [].
Proof.
  induction a as [|c a IH]; intros Ha Hb; [exact Hb|].
  pose proof (findall_digits_tail _ _ Ha) as Ht.
  revert Ha. unfold Text.findall_digits. cbn [append Text.findall_digits_aux].
  destruct (Text.is_digit c).
  - intros H. contradiction (findall_digits_aux_cur _ _ _ H).
  - intros _. apply (IH Ht Hb).
Qed.

(** X17.  In the frame that [check_money_text] returns for a frame with
    the [Title] and [Description] columns, each row is the row of the
    given frame at the same place with its mark, and a row whose title and
    description hold no digit is marked [False]. *)
Theorem row_without_digit_is_not_flagged :
  forall (df : DataFrame) (i : nat) (a : Article),
    has_column df "Title" && has_column df "Description" = true ->
    nth_error (rows df) i = Some a ->
    Text.findall_digits (Title a) = [] ->
    Text.findall_digits (Description a) = [] ->
    nth_error (money_rows (check_money_text df)) i = Some (a, Some false).
Proof.
  intros df i a Hcols Hrow Ht Hd. unfold check_money_text.
  rewrite Hcols. cbn [money_rows].
  rewrite nth_error_map, Hrow. cbn [option_map]. do 3 f_equal.
  apply no_digits_no_money. unfold Combined_Text.
  apply findall_digits_app; [exact Ht|].
  apply (findall_digits_app " " _ eq_refl Hd).
Qed.

(** X18.  A row is marked when the pattern finds something in its title
    alone or in its description alone; and, the two fields being joined by
    one blank, also when the title ends with a digit and the description
    begins with the word dollars or usd, which neither field shows by
    itself. *)
Theorem money_in_either_field_or_across :
  forall a : Article,
    (money_search (Title a) || money_search (Description a) = true ->
     money_search (Combined_Text a) = true)
    /\ forall (front : string) (c : ascii),
         Title a = (front ++ String c EmptyString)%string ->
         Text.is_digit c = true ->
         startswith_nocase "dollars" (Description a)
         || startswith_nocase "usd" (Description a) = true ->
         money_search (Combined_Text a) = true.
Proof.
  intros a. unfold Combined_Text. split.
  - intros H. apply orb_true_iff in H as [H|H].
    + apply money_search_app_r, H.
    + apply money_search_app_l, (money_search_app_l " "), H.
  - intros front c -> Hc Hd. rewrite string_app_assoc.
    apply money_search_app_l, money_search_head. cbn [append].
    apply money_at_amount; [exact Hc|].
    cbn [startswith_nocase]. exact Hd.
Qed.

End Money.

(* ================================================================== *)
(** ** [parse_date]: a month and a day, without a year *)

Section MonthAndDay.

Lemma Z_in_range (d hi : Z) :
  1 <= d <= hi -> exists k, (k < Z.to_nat hi)%nat /\ d = Z.of_nat (S k).
Proof. intros H. exists (Z.to_nat (d - 1)). lia. Qed.

Ltac literal :=
  repeat match goal with
    | |- context [Z.of_nat ?n] =>
        let v := eval vm_compute in (Z.of_nat n) in
        change (Z.of_nat n) with v
    end.

Tactic Notation "each_of" constr(d) constr(H) integer(n) tactic3(tac) :=
  let k := fresh "k" in
  let Hk := fresh "Hk" in
  destruct (Z_in_range d _ H) as (k & Hk & ->);
  do n (destruct k as [|k]; [solve [literal; tac]|]);
  exfalso; lia.

Lemma match_month_month_name m r :
  1 <= m <= 12 ->
  match_month MONTH_NAMES 1 (nth (Z.to_nat m) month_name "" ++ r)
  = Some (m, r).
Proof. intros H. each_of m H 12 reflexivity. Qed.

Lemma lstrip_day d r :
  1 <= d <= 31 ->
  Text.lstrip (Text.decimal d ++ r) = (Text.decimal d ++ r)%string.
Proof. intros H. each_of d H 31 reflexivity. Qed.

Lemma match_day_comma_decimal d r :
  1 <= d <= 31 ->
  match_day_comma (Text.decimal d ++ String "," r) = Some (d, r).
Proof. intros H. each_of d H 31 reflexivity. Qed.

Lemma strptime_month_day_year y m d :
  1000 <= y <= 9999 -> 1 <= m <= 12 -> 1 <= d <= 31 ->
  strptime_B_d_Y
    (nth (Z.to_nat m) month_name "" ++ " " ++ Text.decimal d ++ ", "
     ++ Text.decimal y)
  = make y m d 0 0 0.
Proof.
  intros Hy Hm Hd. unfold strptime_B_d_Y.
  rewrite (match_month_month_name m _ Hm).
  change (skip_spaces1 (" " ++ Text.decimal d ++ ", " ++ Text.decimal y))
    with (Some (Text.lstrip (Text.decimal d ++ ", " ++ Text.decimal y))).
  cbv beta iota. rewrite (lstrip_day d _ Hd).
  change (Text.decimal d ++ ", " ++ Text.decimal y)%string
    with (Text.decimal d ++ String "," (String " " (Text.decimal y)))%string.
  rewrite (match_day_comma_decimal d _ Hd).
  change (skip_spaces1 (String " " (Text.decimal y)))
    with (Some (Text.lstrip (Text.decimal y))).
  cbv beta iota.
  rewrite (lstrip_decimal y Hy), (take_digits_decimal y Hy). reflexivity.
Qed.

Lemma make_midnight y m d :
  1 <= y <= 9999 -> 1 <= m <= 12 -> 1 <= d ->
  make y m d 0 0 0
  = if d <=? days_in_month y m then Ok (mkdatetime y m d 0 0 0 0)
    else Raise ValueError.
Proof.
  intros Hy Hm Hd. unfold make, check_date_fields, MINYEAR, MAXYEAR.
  replace (1 <=? y) with true by (symmetry; apply Z.leb_le; lia).
  replace (y <=? 9999) with true by (symmetry; apply Z.leb_le; lia).
  replace (1 <=? m) with true by (symmetry; apply Z.leb_le; lia).
  replace (m <=? 12) with true by (symmetry; apply Z.leb_le; lia).
  replace (1 <=? d) with true by (symmetry; apply Z.leb_le; lia).
  cbn [andb]. destruct (d <=? days_in_month y m); reflexivity.
Qed.

(** [parse_date] on a text that stripping leaves alone, without the
    words of a relative date and without a year. *)
Lemma parse_date_plain_text now s :
  String.eqb (Text.strip s) s = true ->
  Text.contains "min ago" (Text.lower s) = false ->
  Text.contains "mins ago" (Text.lower s) = false ->
  Text.contains "hour ago" (Text.lower s) = false ->
  Text.contains "hours ago" (Text.lower s) = false ->
  Text.contains "yesterday" (Text.lower s) = false ->
  Text.search_year s = false ->
  String.eqb s "" = false ->
  parse_date now s
  = match strptime_B_d_Y (s ++ ", " ++ Text.decimal (year now)) with
    | Raise ValueError => Ok ERROR_DATE_PROCESSING
    | Raise e => Raise e
    | Ok t => Ok (isoformat_minutes t)
    end.
Proof.
  intros H H1 H2 H3 H4 H5 H6 H7. apply String.eqb_eq in H.
  unfold parse_date. rewrite H. unfold parse_date_body.
  rewrite H1, H2, H3, H4, H5, H6. cbn [orb].
  destruct s as [|c r]; [discriminate|].
  destruct (strptime_B_d_Y _) as [t|[]]; reflexivity.
Qed.

Lemma month_and_day_plain m d :
  1 <= m <= 12 -> 1 <= d <= 31 ->
  let s := (nth (Z.to_nat m) month_name "" ++ " " ++ Text.decimal d)%string in
  String.eqb (Text.strip s) s = true
  /\ Text.contains "min ago" (Text.lower s) = false
  /\ Text.contains "mins ago" (Text.lower s) = false
  /\ Text.contains "hour ago" (Text.lower s) = false
  /\ Text.contains "hours ago" (Text.lower s) = false
  /\ Text.contains "yesterday" (Text.lower s) = false
  /\ Text.search_year s = false
  /\ String.eqb s "" = false.
Proof.
  intros Hm Hd.
  each_of m Hm 12 (each_of d Hd 31 (vm_compute; repeat split)).
Qed.

(** X19.  A text made of the English name of a month, a blank and a day
    of 1 to 31 is read as that day in the year the clock shows, at
    midnight; when that year's month has no such day the answer is the
    parse-error text.  So ['February 29'] is a date in leap years only,
    and ['February 30'] never. *)
Theorem month_and_day_are_read_in_the_current_year :
  forall (now : datetime) (m d : Z),
    valid now = true -> 1000 <= year now ->
    1 <= m <= 12 -> 1 <= d <= 31 ->
    parse_date now (nth (Z.to_nat m) month_name "" ++ " " ++ Text.decimal d)
    = Ok (if d <=? days_in_month (year now) m
          then isoformat_minutes (mkdatetime (year now) m d 0 0 0 0)
          else ERROR_DATE_PROCESSING).
Proof.
  intros now m d Hvalid Hyear Hm Hd.
  assert (Hy : 1000 <= year now <= 9999).
  { unfold valid in Hvalid. apply andb_prop in Hvalid as [Hdate _].
    apply check_date_fields_elim in Hdate. lia. }
  destruct (month_and_day_plain m d Hm Hd)
    as (H0 & H1 & H2 & H3 & H4 & H5 & H6 & H7).
  rewrite (parse_date_plain_text now _ H0 H1 H2 H3 H4 H5 H6 H7).
  rewrite string_app_assoc.
  change ((" " ++ Text.decimal d) ++ ", " ++ Text.decimal (year now))%string
    with (" " ++ Text.decimal d ++ ", " ++ Text.decimal (year now))%string.
  rewrite (strptime_month_day_year _ m d Hy Hm Hd).
  rewrite make_midnight by lia.
  destruct (d <=? days_in_month (year now) m); reflexivity.
Qed.

End MonthAndDay.

(* ================================================================== *)
(** ** [parse_date]: white space around the text *)

Section WhiteSpace.

Lemma rev_string_app a b :
  Text.rev_string EmptyString (a ++ b)
  = (Text.rev_string EmptyString b ++ Text.rev_string EmptyString a)%string.
Proof.
  induction a as [|c a IH]; cbn [append Text.rev_string].
  - rewrite append_empty. reflexivity.
  - rewrite (rev_string_acc (a ++ b) (String c EmptyString)), IH.
    rewrite (rev_string_acc a (String c EmptyString)).
    apply string_app_assoc.
Qed.

Lemma lstrip_blank_app l x :
  Text.lstrip l = EmptyString -> Text.lstrip (l ++ x) = Text.lstrip x.
Proof.
  induction l as [|c l IH]; [reflexivity|]. cbn [append Text.lstrip].
  destruct (Text.is_space c); [exact IH|discriminate].
Qed.

Lemma lstrip_app s x :
  Text.lstrip s <> EmptyString ->
  Text.lstrip (s ++ x) = (Text.lstrip s ++ x)%string.
Proof.
  induction s as [|c s IH]; intros H; [contradiction H; reflexivity|].
  cbn [append Text.lstrip] in *.
  destruct (Text.is_space c); [apply IH, H|reflexivity].
Qed.

Lemma lstrip_blank_rev l :
  Text.lstrip l = EmptyString ->
  Text.lstrip (Text.rev_string EmptyString l) = EmptyString.
Proof.
  induction l as [|c l IH]; [reflexivity|]. cbn [Text.lstrip Text.rev_string].
  destruct (Text.is_space c) eqn:Hc; [|discriminate]. intros H.
  rewrite rev_string_acc, (lstrip_blank_app _ _ (IH H)).
  cbn [Text.lstrip]. rewrite Hc. reflexivity.
Qed.

Lemma strip_blank_around l s r :
  Text.lstrip l = EmptyString -> Text.lstrip r = EmptyString ->
  Text.strip (l ++ s ++ r) = Text.strip s.
Proof.
  intros Hl Hr. unfold Text.strip. f_equal.
  rewrite (lstrip_blank_app l _ Hl).
  destruct (Text.lstrip s) as [|c t] eqn:Hs.
  - rewrite (lstrip_blank_app s r Hs), Hr. reflexivity.
  - rewrite lstrip_app by (rewrite Hs; discriminate).
    rewrite Hs, rev_string_app.
    apply lstrip_blank_app, lstrip_blank_rev, Hr.
Qed.

(** X20.  White space before and after the text of a date does not change
    what [parse_date] answers or raises. *)
Theorem parse_date_ignores_white_space_around :
  forall (now : datetime) (before s after : string),
    Text.lstrip before = EmptyString ->
    Text.lstrip after = EmptyString ->
    parse_date now (before ++ s ++ after) = parse_date now s.
Proof.
  intros now before s after Hb Ha. unfold parse_date.
  rewrite (strip_blank_around before s after Hb Ha). reflexivity.
Qed.

End WhiteSpace.

(* ================================================================== *)
(** ** [parse_date]: so many minutes or hours ago *)

Section Relative.

Lemma Z_from_zero (n hi : Z) :
  0 <= n <= hi -> exists k, (k <= Z.to_nat hi)%nat /\ n = Z.of_nat k.
Proof. intros H. exists (Z.to_nat n). lia. Qed.

Lemma parse_date_hours_ago now n :
  0 <= n <= 47 ->
  parse_date now (Text.decimal n ++ " hours ago")
  = match ago now 0 n 0 with
    | Raise ValueError => Ok ERROR_DATE_PROCESSING
    | r => r
    end.
Proof.
  intros H. destruct (Z_from_zero n 47 H) as (k & Hk & ->).
  do 48 (destruct k as [|k]; [reflexivity|]). exfalso. lia.
Qed.

Lemma parse_date_mins_ago now n :
  0 <= n <= 59 ->
  parse_date now (Text.decimal n ++ " mins ago")
  = match ago now 0 0 n with
    | Raise ValueError => Ok ERROR_DATE_PROCESSING
    | r => r
    end.
Proof.
  intros H. destruct (Z_from_zero n 59 H) as (k & Hk & ->).
  do 60 (destruct k as [|k]; [reflexivity|]). exfalso. lia.
Qed.

(** X21.  For a clock that shows a valid instant of a four-digit year, the
    texts ['N mins ago'] with N up to 59 and ['N hours ago'] with N up to
    47 give the ISO text, to the minute, of the valid instant whose minute
    lies N, or 60 times N, minutes before the minute of now. *)
Theorem parse_date_minutes_and_hours_ago :
  forall (now : datetime) (n : Z),
    valid now = true -> 1000 <= year now ->
    (0 <= n <= 59 ->
     exists t,
       parse_date now (Text.decimal n ++ " mins ago")
       = Ok (isoformat_minutes t)
       /\ valid t = true
       /\ minute_stamp t = minute_stamp now - n)
    /\ (0 <= n <= 47 ->
        exists t,
          parse_date now (Text.decimal n ++ " hours ago")
          = Ok (isoformat_minutes t)
          /\ valid t = true
          /\ minute_stamp t = minute_stamp now - 60 * n).
Proof.
  intros now n Hvalid Hyear. split; intros Hn.
  - destruct (ago_spec now 0 0 n Hvalid Hyear) as (t & Hago & Hvt & Hst);
      try lia.
    exists t. rewrite (parse_date_mins_ago now n Hn), Hago.
    split; [reflexivity|]. split; [exact Hvt|]. lia.
  - destruct (ago_spec now 0 n 0 Hvalid Hyear) as (t & Hago & Hvt & Hst);
      try lia.
    exists t. rewrite (parse_date_hours_ago now n Hn), Hago.
    split; [reflexivity|]. split; [exact Hvt|]. lia.
Qed.

End Relative.

(* ================================================================== *)
(** ** The decorated browser steps: what they raise *)

Section Recovery.

Context {W E : Type} (drv : Driver W E).
Variable OUTPUT_FOLDER : string.
Variable MONTHS_PERIOD : Z.
Variable BASE_URL : string.
Variable TIMEOUT_SECONDS : Z.
Variable CATEGORY_FILTER : string.

Local Abbreviation fetch := (fetch_results drv OUTPUT_FOLDER TIMEOUT_SECONDS).
Local Abbreviation navigate := (navigate_to_next_page drv).
Local Abbreviation launch := (launch_browser drv BASE_URL TIMEOUT_SECONDS).
Local Abbreviation search := (execute_search drv BASE_URL TIMEOUT_SECONDS).
Local Abbreviation filter := (apply_filter drv TIMEOUT_SECONDS CATEGORY_FILTER).
Local Abbreviation loop :=
  (scrape_loop drv OUTPUT_FOLDER MONTHS_PERIOD TIMEOUT_SECONDS).

Lemma preserves_slept_launch_browser_once :
  preserves slept (launch_browser_once drv BASE_URL TIMEOUT_SECONDS).
Proof.
  assert (Hset : preserves slept (@set_browser W true))
    by (intros st r st' H; inversion H; reflexivity).
  unfold launch_browser_once.
  repeat (first [ apply preserves_bind; [|intros ?]
                | apply preserves_try; [|intros ?]
                | exact Hset
                | solve [auto with frame] ]).
Qed.

Lemma launch_browser_raises st e st' :
  launch st = (Raise e, st') -> e = ScrapingError.
Proof.
  unfold launch_browser, retry. apply retry_from_only_ScrapingError.
  clear. intros st e st'. unfold launch_browser_once, try_except.
  match goal with |- context [match ?m st with _ => _ end] =>
    destruct (m st) as [[a|e0] st1] end; intros H; inversion H; reflexivity.
Qed.

(** X22.  [launch_browser] and [apply_filter] raise nothing but
    [ScrapingError], whatever the browser does, and only after their three
    attempts: two sleeps, of 1 and of 2, precede the exception. *)
Theorem launch_and_filter_raise_only_ScrapingError :
  forall (st : State W) (e : exn) (st' : State W),
    launch st = (Raise e, st') \/ filter st = (Raise e, st') ->
    e = ScrapingError /\ slept st' = slept st ++ [1; 2].
Proof.
  intros st e st' [H|H].
  - pose proof (launch_browser_raises _ _ _ H) as He. subst e.
    split; [reflexivity|].
    apply (retry_slept drv _ st _ st' preserves_slept_launch_browser_once H).
    reflexivity.
  - pose proof (apply_filter_raises drv TIMEOUT_SECONDS CATEGORY_FILTER
                  _ _ _ H) as He. subst e.
    split; [reflexivity|].
    apply (retry_slept drv _ st _ st'
             (preserves_apply_filter_once drv TIMEOUT_SECONDS CATEGORY_FILTER
                slept slept_world_blind) H).
    reflexivity.
Qed.

Lemma retry_raises_from_an_attempt {A} (op : M W A) st e st' :
  retry drv op st = (Raise e, st') -> exists st0, op st0 = (Raise e, st').
Proof.
  rewrite retry_unfold.
  destruct (op st) as [[v|e1] st1] eqn:H1; [discriminate|].
  destruct e1; try (intros H; inversion H; subst; exists st; exact H1).
  destruct (op (after_sleep drv 1 st1)) as [[v|e2] st2] eqn:H2;
    [discriminate|].
  destruct e2;
    try (intros H; inversion H; subst; exists (after_sleep drv 1 st1); exact H2).
  intros H. exists (after_sleep drv 2 st2). exact H.
Qed.

Lemma recovery_raises {A} (body : M W unit) (recover : W -> result A * W)
      st e st' :
  try_except body (fun _ => bind (call recover) (fun _ => raise ScrapingError))
    st = (Raise e, st') ->
  e = ScrapingError \/ exists w, fst (recover w) = Raise e.
Proof.
  unfold try_except, bind, call, raise.
  destruct (body st) as [[v|e0] st1]; [discriminate|].
  destruct (recover (world st1)) as [[v|e1] w1] eqn:Hr; intros H;
    inversion H; subst; [left; reflexivity|right].
  exists (world st1). rewrite Hr. reflexivity.
Qed.

(** X23.  An exception that leaves [execute_search] is [ScrapingError] or
    was raised by the [go_to] of its recovery; one that leaves
    [navigate_to_next_page] is [ScrapingError] or was raised by the
    [refresh] of its recovery. *)
Theorem search_and_navigate_raise_ScrapingError_or_recovery_failure :
  (forall (query : string) (st : State W) (e : exn) (st' : State W),
      search query st = (Raise e, st') ->
      e = ScrapingError \/ exists w, fst (go_to drv BASE_URL w) = Raise e)
  /\ (forall (st : State W) (e : exn) (st' : State W),
         navigate st = (Raise e, st') ->
         e = ScrapingError \/ exists w, fst (driver_refresh drv w) = Raise e).
Proof.
  split.
  - intros query st e st' H.
    destruct (retry_raises_from_an_attempt _ _ _ _ H) as [st0 H0].
    exact (recovery_raises _ _ _ _ _ H0).
  - intros st e st' H.
    destruct (retry_raises_from_an_attempt _ _ _ _ H) as [st0 H0].
    exact (recovery_raises _ _ _ _ _ H0).
Qed.

(** X24.  A recovery that fails ends the run.  When the click on the
    next-page control fails and the [refresh] that follows raises an
    exception other than [ScrapingError], [navigate_to_next_page] raises it
    at once, without a further attempt or a sleep; the page loop does not
    catch it, so the loop raises it too: what was collected is not
    returned and [self.scrape_continues] stays up. *)
Theorem navigate_recovery_failure_ends_the_run :
  forall (fuel : nat) (pc : Z) (collected : DataFrame) (st : State W)
         (page : DataFrame) (st1 : State W) (e0 : exn) (w1 : W) (e : exn)
         (w2 : W),
    scrape_continues st = true ->
    fetch st = (Ok page, st1) ->
    should_continue_scraping_based_on_time
      MONTHS_PERIOD (clock drv (world st1)) page = Ok true ->
    click_element_when_visible drv "class=Pagination-nextPage" (world st1)
    = (Raise e0, w1) ->
    driver_refresh drv w1 = (Raise e, w2) ->
    e <> ScrapingError ->
    navigate (with_flag true st1)
    = (Raise e, mkState w2 (browser st1) true (slept st1))
    /\ loop (S fuel) (pc, collected) st
       = Some (Raise e, mkState w2 (browser st1) true (slept st1)).
Proof.
  intros fuel pc collected st page st1 e0 w1 e w2
         Hflag Hfetch Hgo Hclick Hrefresh He.
  assert (Hnav : navigate (with_flag true st1)
                 = (Raise e, mkState w2 (browser st1) true (slept st1))).
  { unfold navigate_to_next_page, retry.
    apply retry_from_other_exception; [|exact He].
    unfold navigate_to_next_page_once, try_except, bind, call, raise.
    cbn [with_flag world browser scrape_continues slept].
    rewrite Hclick. cbn [world browser scrape_continues slept].
    rewrite Hrefresh. reflexivity. }
  split; [exact Hnav|].
  cbn [scrape_loop]. rewrite Hflag. unfold scrape_page.
  rewrite Hfetch, Hgo. cbn [set_scrape_continues].
  change (mkState (world st1) (browser st1) true (slept st1))
    with (with_flag true st1).
  rewrite Hnav. unfold on_page_error.
  destruct e; try reflexivity. contradiction He. reflexivity.
Qed.

End Recovery.

(* ================================================================== *)
(** ** The further properties on concrete runs *)

Lemma stop_condition_answers_or_KeyError_witness :
  (exists b,
      should_continue_scraping_based_on_time 1 now0 (DataFrame_of [good_article])
      = Ok b)
  /\ should_continue_scraping_based_on_time 1 now0 (DataFrame_of [])
     = Raise KeyError.
Proof.
  split.
  - apply (proj1 (stop_condition_answers_or_KeyError
                    1 now0 (DataFrame_of [good_article]))).
    + reflexivity.
    + discriminate.
  - apply (proj2 (stop_condition_answers_or_KeyError 1 now0 (DataFrame_of []))).
    reflexivity.
Defined.

Lemma negative_period_never_stops_witness :
  should_continue_scraping_based_on_time
    (-1) now0 (DataFrame_of [article_dated "2020-01-01T00:00"])
  = Ok true.
Proof.
  apply (negative_period_never_stops
           (-1) now0 (DataFrame_of [article_dated "2020-01-01T00:00"])).
  - lia.
  - reflexivity.
  - discriminate.
Defined.

Lemma decision_ignores_earlier_rows_witness :
  should_continue_scraping_based_on_time
    1 now0
    (DataFrame_of [good_article; article_dated ERROR_DATE_PROCESSING])
  = should_continue_scraping_based_on_time
      1 now0
      (DataFrame_of [article_dated "2020-01-01T00:00"; good_article]).
Proof.
  apply (decision_ignores_earlier_rows
           1 now0
           (DataFrame_of [good_article; article_dated ERROR_DATE_PROCESSING])
           (DataFrame_of [article_dated "2020-01-01T00:00"; good_article])
           [] [article_dated "2020-01-01T00:00"]
           [article_dated ERROR_DATE_PROCESSING] []
           good_article).
  - reflexivity.
  - reflexivity.
  - reflexivity.
  - reflexivity.
  - reflexivity.
  - intros x [<-|[]]. reflexivity.
  - intros x [].
Defined.

Lemma fetch_results_outcomes_witness :
  ScrapingError = ScrapingError
  /\ slept (snd (run_fetch (start [[good; no_link]] now0)))
     = slept (start [[good; no_link]] now0) ++ [1; 2].
Proof.
  apply (fetch_results_outcomes
           driver "output" 10 (start [[good; no_link]] now0)
           (Raise ScrapingError)
           (snd (run_fetch (start [[good; no_link]] now0)))).
  vm_compute. reflexivity.
Defined.

Lemma stop_decision_ends_the_run_witness :
  exists st_end,
    run_scraping 1 5 (start [[good]; [card "http://news/b" "September 1"]] now0)
    = Some (Ok (fold_left concat
                  ([DataFrame_of
                      [mkArticle "http://news/a" "title" "text" (Some "a.png")
                                 "2026-11-03T00:00"]]
                   ++ [DataFrame_of
                         [mkArticle "http://news/b" "title" "text"
                                    (Some "b.png") "2026-09-01T00:00"]])
                  empty_frame),
            st_end)
    /\ scrape_continues st_end = false.
Proof.
  pose (st0 := start [[good]; [card "http://news/b" "September 1"]] now0).
  pose (st_launched := snd (launch_browser driver "http://news" 10 st0)).
  pose (st_searched :=
          snd (execute_search driver "http://news" 10 "query" st_launched)).
  pose (st_filtered :=
          snd (apply_filter_or_skip driver 10 "sports" st_searched)).
  pose (st_page := snd (fetch_results driver "output" 10 st_filtered)).
  pose (st_next :=
          snd (navigate_to_next_page driver (with_flag true st_page))).
  pose (st_last := snd (fetch_results driver "output" 10 st_next)).
  unfold run_scraping.
  apply (stop_decision_ends_the_run
           driver "output" 1 "http://news" 10 "sports" "query"
           st0 st_launched st_searched (Ok tt) st_filtered st_next
           [DataFrame_of
              [mkArticle "http://news/a" "title" "text" (Some "a.png")
                         "2026-11-03T00:00"]]
           (DataFrame_of
              [mkArticle "http://news/b" "title" "text" (Some "b.png")
                         "2026-09-01T00:00"])
           st_last 5%nat).
  - reflexivity.
  - vm_compute. reflexivity.
  - vm_compute. reflexivity.
  - vm_compute. reflexivity.
  - apply (fetched_more driver "output" 1 10 st_filtered _ st_page st_next [] st_next).
    + vm_compute. reflexivity.
    + vm_compute. reflexivity.
    + vm_compute. reflexivity.
    + apply fetched_none.
  - vm_compute. reflexivity.
  - vm_compute. reflexivity.
  - reflexivity.
  - cbn. lia.
Defined.

Lemma empty_page_raises_out_of_the_run_witness :
  fetch_results_once driver "output" 10 (start [[]] now0)
  = (Ok (DataFrame_of []), start [[]] now0)
  /\ exists st_end,
       run_scraping 1 5 (start [[]] now0) = Some (Raise KeyError, st_end).
Proof.
  pose (st0 := start [[]] now0).
  pose (st_launched := snd (launch_browser driver "http://news" 10 st0)).
  pose (st_searched :=
          snd (execute_search driver "http://news" 10 "query" st_launched)).
  pose (st_filtered :=
          snd (apply_filter_or_skip driver 10 "sports" st_searched)).
  pose (st_page := snd (fetch_results driver "output" 10 st_filtered)).
  split.
  - apply (proj1 (empty_page_raises_out_of_the_run
                    driver "output" 1 "http://news" 10 "sports")).
    vm_compute. reflexivity.
  - unfold run_scraping.
    apply (proj2 (empty_page_raises_out_of_the_run
                    driver "output" 1 "http://news" 10 "sports")
             "query" st0 st_launched st_searched (Ok tt) st_filtered
             st_filtered [] (DataFrame_of []) st_page 5%nat).
    + reflexivity.
    + vm_compute. reflexivity.
    + vm_compute. reflexivity.
    + vm_compute. reflexivity.
    + apply fetched_none.
    + vm_compute. reflexivity.
    + reflexivity.
    + reflexivity.
    + cbn. lia.
Defined.

Lemma second_run_fetches_nothing_witness :
  exists st_end,
    run_scraping 1 5 (with_flag false (start [[good]] now0))
    = Some (Ok empty_frame, st_end)
    /\ slept st_end = []
    /\ scrape_continues st_end = false.
Proof.
  pose (st0 := with_flag false (start [[good]] now0)).
  pose (st_launched := snd (launch_browser driver "http://news" 10 st0)).
  pose (st_searched :=
          snd (execute_search driver "http://news" 10 "query" st_launched)).
  pose (st_filtered :=
          snd (apply_filter_or_skip driver 10 "sports" st_searched)).
  unfold run_scraping.
  apply (second_run_fetches_nothing
           driver "output" 1 "http://news" 10 "sports" "query"
           st0 st_launched st_searched (Ok tt) st_filtered 5%nat).
  - reflexivity.
  - vm_compute. reflexivity.
  - vm_compute. reflexivity.
  - vm_compute. reflexivity.
  - reflexivity.
Defined.

Lemma launched_browser_is_closed_witness :
  exists r' st_end,
    run_scraping 1 5 (start [[good]] now0) = Some (r', st_end)
    /\ world st_end = mkWorld [[good]] true true true now0
    /\ r' = Ok (DataFrame_of
                  [mkArticle "http://news/a" "title" "text" (Some "a.png")
                             "2026-11-03T00:00"]).
Proof.
  pose (st0 := start [[good]] now0).
  pose (st_launched := snd (launch_browser driver "http://news" 10 st0)).
  unfold run_scraping.
  apply (launched_browser_is_closed
           driver "output" 1 "http://news" 10 "sports" 5%nat "query"
           st0 st_launched
           (Ok (DataFrame_of
                  [mkArticle "http://news/a" "title" "text" (Some "a.png")
                             "2026-11-03T00:00"]))
           (mkState (mkWorld [[good]] true true true now0) true false [1; 2])).
  - vm_compute. reflexivity.
  - vm_compute. reflexivity.
Defined.

Lemma parse_date_outcomes_witness :
  "2026-11-04T10:27" = ERROR_DATE_PROCESSING
  \/ exists t,
       valid t = true /\ "2026-11-04T10:27" = isoformat_minutes t
       /\ fromisoformat "2026-11-04T10:27" = Ok (truncate_to_minute t).
Proof.
  assert (Hrun : parse_date now0 "2 hours ago" = Ok "2026-11-04T10:27")
    by (vm_compute; reflexivity).
  generalize (parse_date_outcomes now0 "2 hours ago" eq_refl).
  rewrite Hrun. exact (fun H => H).
Defined.

Lemma extracted_DateTime_is_never_DATE_NOT_FOUND_witness :
  ("2026-11-03T00:00" = ERROR_DATE_PROCESSING
   \/ "2026-11-03T00:00" = "DateTime Not Available"
   \/ exists t, "2026-11-03T00:00" = isoformat_minutes t)
  /\ "2026-11-03T00:00" <> DATE_NOT_FOUND.
Proof.
  apply (extracted_DateTime_is_never_DATE_NOT_FOUND
           driver "output" (Promo good) (start [[good]] now0)
           (mkArticle "http://news/a" "title" "text" (Some "a.png")
                      "2026-11-03T00:00")
           (start [[good]] now0)).
  vm_compute. reflexivity.
Defined.

Lemma download_image_outcomes_witness :
  "a.png" = img_filename_of "http://news/a".
Proof.
  apply (download_image_outcomes
           driver "output" "http://news/a" (Some "http://img/1.png")
           (start [[good]] now0) (Ok (Some "a.png")) (start [[good]] now0)).
  vm_compute. reflexivity.
Defined.

Lemma image_file_name_is_last_segment_witness :
  img_filename_of "a" = "a.png"
  /\ img_filename_of "http://news/a" = "a.png".
Proof.
  split.
  - apply (proj1 (image_file_name_is_last_segment "a" eq_refl)).
  - apply (proj2 (image_file_name_is_last_segment "a" eq_refl) "http://news").
Defined.

Lemma row_without_digit_is_not_flagged_witness :
  nth_error
    (money_rows
       (check_money_text
          (DataFrame_of
             [mkArticle "http://news/a" "Costs $5" "text" None
                        "2026-11-03T00:00";
              mkArticle "http://news/b" "Prices rise" "No numbers here" None
                        "2026-11-03T00:00"])))
    1
  = Some (mkArticle "http://news/b" "Prices rise" "No numbers here" None
                    "2026-11-03T00:00",
          Some false).
Proof.
  apply (row_without_digit_is_not_flagged
           (DataFrame_of
              [mkArticle "http://news/a" "Costs $5" "text" None
                         "2026-11-03T00:00";
               mkArticle "http://news/b" "Prices rise" "No numbers here" None
                         "2026-11-03T00:00"])
           1%nat
           (mkArticle "http://news/b" "Prices rise" "No numbers here" None
                      "2026-11-03T00:00")).
  - reflexivity.
  - reflexivity.
  - reflexivity.
  - reflexivity.
Defined.

Lemma money_in_either_field_or_across_witness :
  money_search
    (Combined_Text
       (mkArticle "http://news/a" "Top 10" "dollars and sense" None
                  "2026-11-03T00:00"))
  = true
  /\ money_search "Top 10" = false
  /\ money_search "dollars and sense" = false.
Proof.
  split; [|split; reflexivity].
  apply (proj2 (money_in_either_field_or_across
                  (mkArticle "http://news/a" "Top 10" "dollars and sense" None
                             "2026-11-03T00:00"))
           "Top 1" "0"%char).
  - reflexivity.
  - reflexivity.
  - reflexivity.
Defined.

Lemma month_and_day_are_read_in_the_current_year_witness :
  parse_date now0 "February 29" = Ok ERROR_DATE_PROCESSING
  /\ parse_date now0 "February 28" = Ok "2026-02-28T00:00".
Proof.
  split.
  - apply (month_and_day_are_read_in_the_current_year now0 2 29).
    + reflexivity.
    + change (1000 <= 2026). lia.
    + lia.
    + lia.
  - apply (month_and_day_are_read_in_the_current_year now0 2 28).
    + reflexivity.
    + change (1000 <= 2026). lia.
    + lia.
    + lia.
Defined.

Lemma parse_date_ignores_white_space_around_witness :
  parse_date now0 "  yesterday " = parse_date now0 "yesterday".
Proof.
  apply (parse_date_ignores_white_space_around now0 "  " "yesterday" " ").
  - reflexivity.
  - reflexivity.
Defined.

Lemma parse_date_minutes_and_hours_ago_witness :
  (exists t,
      parse_date now0 "5 mins ago" = Ok (isoformat_minutes t)
      /\ valid t = true
      /\ minute_stamp t = minute_stamp now0 - 5)
  /\ (exists t,
         parse_date now0 "5 hours ago" = Ok (isoformat_minutes t)
         /\ valid t = true
         /\ minute_stamp t = minute_stamp now0 - 60 * 5).
Proof.
  assert (Hyear : 1000 <= year now0) by (change (1000 <= 2026); lia).
  split.
  - apply (proj1 (parse_date_minutes_and_hours_ago now0 5 eq_refl Hyear)). lia.
  - apply (proj2 (parse_date_minutes_and_hours_ago now0 5 eq_refl Hyear)). lia.
Defined.

Lemma launch_and_filter_raise_only_ScrapingError_witness :
  ScrapingError = ScrapingError
  /\ slept (snd (apply_filter Crash.driver 10 "sports"
                   (Crash.lost [[good]] now0)))
     = slept (Crash.lost [[good]] now0) ++ [1; 2].
Proof.
  apply (launch_and_filter_raise_only_ScrapingError
           Crash.driver "http://news" 10 "sports"
           (Crash.lost [[good]] now0) ScrapingError
           (snd (apply_filter Crash.driver 10 "sports"
                   (Crash.lost [[good]] now0)))).
  right. vm_compute. reflexivity.
Defined.

Lemma search_and_navigate_raise_ScrapingError_or_recovery_failure_witness :
  WebDriverException = ScrapingError
  \/ exists w, fst (driver_refresh Crash.driver w) = Raise WebDriverException.
Proof.
  apply (proj2 (search_and_navigate_raise_ScrapingError_or_recovery_failure
                  Crash.driver "http://news" 10)
           (start [[good]] now0) WebDriverException
           (snd (navigate_to_next_page Crash.driver (start [[good]] now0)))).
  vm_compute. reflexivity.
Defined.

Lemma navigate_recovery_failure_ends_the_run_witness :
  navigate_to_next_page Crash.driver (with_flag true (start [[good]] now0))
  = (Raise WebDriverException,
     mkState (mkWorld [[good]] false true true now0) false true [])
  /\ scrape_loop Crash.driver "output" 1 10 1 (1, empty_frame)
       (start [[good]] now0)
     = Some (Raise WebDriverException,
             mkState (mkWorld [[good]] false true true now0) false true []).
Proof.
  apply (navigate_recovery_failure_ends_the_run
           Crash.driver "output" 1 10 0%nat 1 empty_frame
           (start [[good]] now0)
           (DataFrame_of
              [mkArticle "http://news/a" "title" "text" (Some "a.png")
                         "2026-11-03T00:00"])
           (start [[good]] now0) TimeoutException
           (mkWorld [[good]] false true true now0) WebDriverException
           (mkWorld [[good]] false true true now0)).
  - reflexivity.
  - vm_compute. reflexivity.
  - vm_compute. reflexivity.
  - vm_compute. reflexivity.
  - vm_compute. reflexivity.
  - discriminate.
Defined.
